(** * SeniorShield transaction risk-scoring engine

    A shallow embedding of [server/ml/models.ts] (feature extraction, the
    autoencoder and isolation-forest anomaly detectors, the behavioral
    profiler, the fraud detection service), of [server/ml/enhanced-models.ts]
    (the enhanced features and the per-holder [RandomForestClassifier]), of
    the [MLService] façade and of the part of the in-memory store of
    [server/storage.ts] that the façade calls, followed by the properties of
    the scoring pipeline.

    JavaScript numbers are IEEE 754 binary64 values; they are modelled with
    the executable specification of the Standard Library ([SpecFloat]), so
    rounding, signed zeros, infinities and NaN behave as they do at run
    time.  Mutable objects become records, [Map]s become [gmap]s, [Set]s
    become [gset]s, and a method that mutates [this] returns the new object
    next to its completion (a returned value or a thrown error). *)

From Stdlib Require Import ZArith QArith Bool.
From Stdlib Require Import Floats.SpecFloat.
From stdpp Require Import base option list gmap strings.
From stdpp Require Import sorting.

Local Open Scope Z_scope.

(** ** JavaScript numbers *)

Module Number.

Abbreviation number := spec_float (only parsing).

Definition prec : Z := 53.
Definition emax : Z := 1024.

Definition NaN : number := S754_nan.
Definition Infinity : number := S754_infinity false.

(** The number denoted by an integer literal, or by the [length] of an
    array. *)
Definition of_Z (z : Z) : number := binary_normalize prec emax z 0 false.

Definition add : number -> number -> number := SFadd prec emax.
Definition sub : number -> number -> number := SFsub prec emax.
Definition mul : number -> number -> number := SFmul prec emax.
Definition div : number -> number -> number := SFdiv prec emax.

(** [x > y] and [x < y]; both are false as soon as one side is NaN. *)
Definition gtb (x y : number) : bool := SFltb y x.
Definition ltb (x y : number) : bool := SFltb x y.
Definition leb (x y : number) : bool := SFleb x y.

(** A decimal literal [n/10^k] with [n] and [10^k] below [2^53] denotes
    the double nearest to the quotient, which is what a correctly rounded
    division of the two integers yields. *)
Definition decimal (n : Z) (pow10 : Z) : number := div (of_Z n) (of_Z pow10).

(** ToBoolean on a number: [0], [-0] and [NaN] are falsy. *)
Definition truthy (x : number) : bool :=
  match x with
  | S754_zero _ | S754_nan => false
  | _ => true
  end.

(** [x || y] on numbers. *)
Definition logicalOr (x y : number) : number := if truthy x then x else y.

Definition Math_abs (x : number) : number := SFabs x.

(** [Math.min(x, y)]: NaN if either argument is NaN, and [-0] is below
    [+0]. *)
Definition Math_min (x y : number) : number :=
  match x, y with
  | S754_nan, _ | _, S754_nan => S754_nan
  | S754_zero sx, S754_zero sy => S754_zero (sx || sy)
  | _, _ => if SFltb y x then y else x
  end.

(** [Math.round(x)]: the integer nearest to [x], ties towards [+∞];
    NaN, the infinities and the zeros are returned as they are, and a
    negative [x] that rounds to zero gives [-0]. A finite double with a
    non-negative exponent is already an integer. *)
Definition Math_round (x : number) : number :=
  match x with
  | S754_finite s m e =>
      if 0 <=? e then x
      else
        let sm := if s then Z.neg m else Z.pos m in
        binary_normalize prec emax ((2 * sm + 2 ^ (- e)) / 2 ^ (- e + 1)) 0 s
  | _ => x
  end.

Definition is_finite (x : number) : bool :=
  match x with
  | S754_zero _ | S754_finite _ _ _ => true
  | _ => false
  end.

(** [x] is the double of an integer between [lo] and [hi]. *)
Definition integer_in (lo hi : Z) (x : number) : Prop :=
  ∃ k : Z, lo <= k <= hi ∧ x = of_Z k.

(** A number other than NaN and the infinities, in the normalised
    representation that every arithmetic operation returns. *)
Definition finite_valid (x : number) : bool :=
  is_finite x && valid_binary prec emax x.

(** The real number a finite double stands for. Every double is a multiple of
    [2^-1074], the smallest positive one; [ulps x] is that multiple. *)
Definition ulps (x : number) : Z :=
  match x with
  | S754_finite s m e => (if s then Z.neg m else Z.pos m) * 2 ^ (e + 1074)
  | _ => 0
  end.

Definition ulp : positive := 2 ^ 1074.

Definition value (x : number) : Q := ulps x # ulp.

End Number.

Import Number.

(** ** Tensor scalars

    [tf.tensor2d] stores its entries as [float32]; reading a tensor back with
    [data()] widens each entry to a double. *)

Module Float32.

Abbreviation float32 := spec_float (only parsing).

Definition prec : Z := 24.
Definition emax : Z := 128.

(** Rounding of a double to the nearest [float32] (what [Math.fround]
    computes). *)
Definition fround (x : number) : float32 :=
  match x with
  | S754_finite s m e => binary_round prec emax s m e
  | _ => x
  end.

(** Every [float32] is a double; only its representation is renormalised. *)
Definition widen (x : float32) : number :=
  match x with
  | S754_finite s m e => binary_round Number.prec Number.emax s m e
  | _ => x
  end.

Definition zero : float32 := S754_zero false.
Definition of_Z (z : Z) : float32 := binary_normalize prec emax z 0 false.
Definition add : float32 -> float32 -> float32 := SFadd prec emax.
Definition sub : float32 -> float32 -> float32 := SFsub prec emax.
Definition mul : float32 -> float32 -> float32 := SFmul prec emax.
Definition div : float32 -> float32 -> float32 := SFdiv prec emax.

End Float32.

(** ** Thrown errors and completions *)

Record JsError := { error_name : string; error_message : string }.

(** [new Error(msg)] *)
Definition Error (msg : string) : JsError :=
  {| error_name := "Error"; error_message := msg |}.

(** The error the runtime raises when a property of [undefined] is read. *)
Definition TypeError_undefined (property : string) : JsError :=
  {| error_name := "TypeError";
     error_message :=
       "Cannot read properties of undefined (reading '" +:+ property +:+ "')" |}.

Inductive Completion (A : Type) : Type :=
  | Return (a : A)
  | Throw (e : JsError).
Arguments Return {A} a.
Arguments Throw {A} e.

(** ** Data model ([shared/schema.ts]) *)

(** A row of the [transactions] table, restricted to the columns the
    engine reads. [amount] is a [decimal(12,2)] column: it is held as its
    number of cents. [transactionDate] is a timestamp, held as
    milliseconds since the epoch. *)
Record Transaction := {
  id : Z;
  accountId : Z;
  amount : Z;
  merchant : string;
  category : string;
  transactionDate : Z;
  isFlagged : bool
}.

(** [parseFloat(t.amount.toString())]: the double nearest to the decimal. *)
Definition parseFloat_amount (t : Transaction) : number :=
  decimal (amount t) 100.

(** [Math.abs(parseFloat(t.amount.toString()))] *)
Definition absAmount (t : Transaction) : number :=
  Math_abs (parseFloat_amount t).

(** [Date] accessors, with the process time zone taken to be UTC. *)
Definition getTime (d : Z) : Z := d.
Definition getHours (d : Z) : Z := (d / 3600000) mod 24.
Definition getDay (d : Z) : Z := (d / 86400000 + 4) mod 7.

(** [xs.reduce((sum, t) => sum + Math.abs(parseFloat(t.amount.toString())), 0)] *)
Definition sumAbsAmounts (xs : list Transaction) : number :=
  foldl (λ sum t, add sum (absAmount t)) (of_Z 0) xs.

(** [xs.length] as a number. *)
Definition length_number {A} (xs : list A) : number :=
  of_Z (Z.of_nat (length xs)).

(** The transactions of [xs] dated strictly before [t]. *)
Definition strictlyEarlier (t : Transaction) (xs : list Transaction) : list Transaction :=
  filter (λ ht, transactionDate ht < transactionDate t) xs.

(** ** Feature engineering ([extractTransactionFeatures]) *)

Record Features := {
  hour : number;
  isWeekend : number;
  f_amount : number;
  amountVsMerchantAvg : number;
  amountVsCategoryAvg : number;
  transactionVelocity24h : number;
  totalAmount24h : number;
  merchantFrequency : number;
  categoryFrequency : number
}.

(** [Object.values(features)], in key order. *)
Definition Object_values (f : Features) : list number :=
  [ hour f; isWeekend f; f_amount f; amountVsMerchantAvg f;
    amountVsCategoryAvg f; transactionVelocity24h f; totalAmount24h f;
    merchantFrequency f; categoryFrequency f ].

Definition averageAbsAmount (xs : list Transaction) : number :=
  if bool_decide (0 < Z.of_nat (length xs))
  then div (sumAbsAmounts xs) (length_number xs)
  else of_Z 0.

Definition extractTransactionFeatures
    (transaction : Transaction) (historicalTransactions : list Transaction) : Features :=
  let hour := getHours (transactionDate transaction) in
  let dayOfWeek := getDay (transactionDate transaction) in
  let isWeekend := bool_decide (dayOfWeek = 0) || bool_decide (dayOfWeek = 6) in
  let amount := absAmount transaction in
  let merchantTransactions :=
    filter (λ t, merchant t = merchant transaction) historicalTransactions in
  let merchantAvgAmount := averageAbsAmount merchantTransactions in
  let categoryTransactions :=
    filter (λ t, category t = category transaction) historicalTransactions in
  let categoryAvgAmount := averageAbsAmount categoryTransactions in
  let last24Hours :=
    filter (λ t, getTime (transactionDate transaction) - getTime (transactionDate t)
                 <= 24 * 60 * 60 * 1000) historicalTransactions in
  let transactionVelocity24h := length_number last24Hours in
  let totalAmount24h := sumAbsAmounts last24Hours in
  {| hour := of_Z hour;
     isWeekend := if isWeekend then of_Z 1 else of_Z 0;
     f_amount := amount;
     amountVsMerchantAvg := div amount (logicalOr merchantAvgAmount amount);
     amountVsCategoryAvg := div amount (logicalOr categoryAvgAmount amount);
     transactionVelocity24h := transactionVelocity24h;
     totalAmount24h := totalAmount24h;
     merchantFrequency :=
       div (length_number merchantTransactions) (length_number historicalTransactions);
     categoryFrequency :=
       div (length_number categoryTransactions) (length_number historicalTransactions) |}.

(** ** External learning libraries

    The engine delegates model fitting to [@tensorflow/tfjs-node] and
    [ml-random-forest]. Their models are opaque: a fitted autoencoder maps
    a feature row to its reconstruction, row by row, with as many outputs as
    inputs (the decoder has [numFeatures] units); a forest, asked for the
    class of a feature row, returns one or throws. *)

Record LayersModel := {
  lm_predict : list Float32.float32 -> list Float32.float32;
  lm_shape : ∀ row, length (lm_predict row) = length row
}.

(** The enhanced feature vector of [extractEnhancedFeatures] is only ever
    handed to the forest, so a forest is taken as a function of the
    transaction and history the vector is extracted from. [rf_predict] is
    [predict([features])[0]], read as a boolean: the call returns or throws
    (a forest that was never fitted has nothing to predict with). *)
Record MLRandomForest := {
  rf_predict : Transaction -> list Transaction -> Completion bool
}.

(** The isolation forest of the second variant of [models.ts]; its
    [predict] returns one number per row. *)
Record IsolationForest := {
  if_predict : list (list number) -> list number
}.

Class Backend := {
  (** [tf.model(...)], [compile] and [fit(xs, xs, {epochs: 50, ...})] *)
  tf_fit : list (list Float32.float32) -> LayersModel;
  (** [new MLRandomForest(...)] and [train(features, labels)] on the new
      forest; each sample is a transaction with the history its features are
      extracted from. The rows hold whatever the features are, booleans,
      NaN and [Infinity] included, and the library may refuse them: the call
      returns or throws, and either way the forest is the object the
      constructor made, as the call leaves it. *)
  forest_train :
    list (Transaction * list Transaction) -> list bool -> Completion unit * MLRandomForest
}.

(** [tf.tensor2d(rows)] *)
Definition tensor2d (rows : list (list number)) : list (list Float32.float32) :=
  map (map Float32.fround) rows.

(** [tf.losses.meanSquaredError(labels, predictions)] with the default
    reduction: the sum of the squared differences of all entries, divided by
    the number of entries. *)
Definition squaredDifference (xs ps : list Float32.float32) : list Float32.float32 :=
  zip_with (λ x p, let d := Float32.sub x p in Float32.mul d d) xs ps.

Definition tensor_sum (xs : list Float32.float32) : Float32.float32 :=
  foldl Float32.add Float32.zero xs.

Definition meanSquaredError (xs ps : list (list Float32.float32)) : Float32.float32 :=
  let losses := squaredDifference (concat xs) (concat ps) in
  Float32.div (tensor_sum losses) (Float32.of_Z (Z.of_nat (length losses))).

(** ** Anomaly detection with an autoencoder *)

Module AnomalyDetector.

Record t := {
  model : option LayersModel;
  threshold : number
}.

(** Field initialisers: [model = null], [threshold = 0.5]. *)
Definition new : t := {| model := None; threshold := decimal 5 10 |}.

(** [train]: reading [featureMatrix[0].length] throws when the matrix is
    empty, before any field is assigned. The loss tensor is a scalar, so
    [errorData] has one entry and
    [sort(...)[Math.floor(errorData.length * 0.1)]] is that entry. *)
Definition train `{Backend} (self : t) (transactions : list Transaction)
    : Completion unit * t :=
  let features :=
    map (λ t, extractTransactionFeatures t (strictlyEarlier t transactions))
        transactions in
  let featureMatrix := map Object_values features in
  match featureMatrix with
  | [] => (Throw (TypeError_undefined "length"), self)
  | _ :: _ =>
      let xs := tensor2d featureMatrix in
      let fitted := tf_fit xs in
      let predictions := map (lm_predict fitted) xs in
      let errors := meanSquaredError xs predictions in
      let errorData := [Float32.widen errors] in
      (Return (), {| model := Some fitted;
                     threshold := default NaN (head errorData) |})
  end.

Record Result := {
  score : number;
  isAnomaly : bool;
  features : Features
}.

Definition detectAnomaly (self : t)
    (transaction : Transaction) (historicalTransactions : list Transaction)
    : Completion Result :=
  match model self with
  | None => Throw (Error "Model not trained")
  | Some m =>
      let features := extractTransactionFeatures transaction historicalTransactions in
      let featureVector := Object_values features in
      let xs := tensor2d [featureVector] in
      let prediction := map (lm_predict m) xs in
      let error := meanSquaredError xs prediction in
      let errorValue := Float32.widen error in
      let score :=
        Math_min (Math_round (mul (div errorValue (threshold self)) (of_Z 100)))
                 (of_Z 100) in
      Return {| score := score;
                isAnomaly := gtb score (of_Z 70);
                features := features |}
  end.

End AnomalyDetector.

(** ** Anomaly detection with an isolation forest (second variant) *)

Module IsolationAnomalyDetector.

(** [private model: any] starts out [undefined]. *)
Record t := { model : option IsolationForest }.

Definition new : t := {| model := None |}.

(** [train]: [@tensorflow/tfjs-node] exports no [randomForest], so the
    imported binding is [undefined]; once the feature matrix is built, reading
    [randomForest.createIsolationForest] throws, before [this.model] is
    assigned. *)
Definition train (self : t) (transactions : list Transaction)
    : Completion unit * t :=
  (Throw (TypeError_undefined "createIsolationForest"), self).

(** [prediction[0]] is [undefined] on an empty answer, and arithmetic on
    [undefined] gives NaN. *)
Definition detectAnomaly (self : t)
    (transaction : Transaction) (historicalTransactions : list Transaction)
    : Completion AnomalyDetector.Result :=
  match model self with
  | None => Throw (Error "Model not trained")
  | Some m =>
      let features := extractTransactionFeatures transaction historicalTransactions in
      let featureVector := Object_values features in
      let prediction := if_predict m [featureVector] in
      let score :=
        Math_round
          (mul (div (sub (of_Z 1) (default NaN (head prediction))) (of_Z 2))
               (of_Z 100)) in
      Return {| AnomalyDetector.score := score;
                AnomalyDetector.isAnomaly := gtb score (of_Z 70);
                AnomalyDetector.features := features |}
  end.

End IsolationAnomalyDetector.

(** ** Behavioral profiling *)

Module BehavioralProfiler.

Record Profile := {
  typicalDayHours : gset Z;
  typicalMerchants : gset string;
  typicalCategories : gset string;
  averageAmount : number;
  transactionFrequency : number
}.

Record t := { userProfiles : gmap Z Profile }.

Definition new : t := {| userProfiles := ∅ |}.

(** The profile [updateProfile] computes from a list whose first and last
    entries are [first] and [last]. *)
Definition buildProfile (transactions : list Transaction) (first last : Transaction)
    : Profile :=
  let totalAmount := sumAbsAmounts transactions in
  let daysDiff :=
    div (of_Z (getTime (transactionDate last) - getTime (transactionDate first)))
        (of_Z (1000 * 60 * 60 * 24)) in
  {| typicalDayHours := list_to_set (map (λ t, getHours (transactionDate t)) transactions);
     typicalMerchants := list_to_set (map merchant transactions);
     typicalCategories := list_to_set (map category transactions);
     averageAmount := div totalAmount (length_number transactions);
     transactionFrequency := div (length_number transactions) (logicalOr daysDiff (of_Z 1)) |}.

(** On an empty list [transactions[transactions.length - 1]] is
    [undefined] and reading its [transactionDate] throws, before the
    profile is stored. *)
Definition updateProfile (self : t) (userId : Z) (transactions : list Transaction)
    : Completion unit * t :=
  match head transactions, last transactions with
  | Some first, Some last =>
      (Return (),
       {| userProfiles :=
            <[userId := buildProfile transactions first last]> (userProfiles self) |})
  | _, _ => (Throw (TypeError_undefined "transactionDate"), self)
  end.

Definition analyzeTransaction (self : t) (userId : Z) (transaction : Transaction)
    : number :=
  match userProfiles self !! userId with
  | None => of_Z 0
  | Some profile =>
      let riskScore := of_Z 0 in
      let hour := getHours (transactionDate transaction) in
      let amount := absAmount transaction in
      let riskScore :=
        if bool_decide (hour ∉ typicalDayHours profile)
        then add riskScore (of_Z 20) else riskScore in
      let riskScore :=
        if bool_decide (merchant transaction ∉ typicalMerchants profile)
        then add riskScore (of_Z 15) else riskScore in
      let riskScore :=
        if bool_decide (category transaction ∉ typicalCategories profile)
        then add riskScore (of_Z 10) else riskScore in
      let riskScore :=
        if gtb amount (mul (averageAmount profile) (of_Z 2))
        then add riskScore (of_Z 25) else riskScore in
      Math_min riskScore (of_Z 100)
  end.

End BehavioralProfiler.

(** ** Per-holder supervised classifier ([enhanced-models.ts]) *)

Module RandomForestClassifier.

Record t := {
  model : option MLRandomForest;
  userId : Z
}.

Definition new (userId : Z) : t := {| model := None; userId := userId |}.

(** [train]: on a non-empty list [this.model] is assigned the new forest
    before the library's [train] is called on it, so the classifier holds
    the forest whether that call returns or throws. *)
Definition train `{Backend} (self : t)
    (transactions : list Transaction) (labels : list bool) : Completion unit * t :=
  if bool_decide (length transactions = 0%nat) then (Return (), self)
  else
    let samples := map (λ t, (t, strictlyEarlier t transactions)) transactions in
    let trained := forest_train samples labels in
    (trained.1, {| model := Some trained.2; userId := userId self |}).

Definition predict (self : t)
    (transaction : Transaction) (historicalTransactions : list Transaction)
    : Completion number :=
  match model self with
  | None => Return (of_Z 0)
  | Some m =>
      match rf_predict m transaction historicalTransactions with
      | Throw e => Throw e
      | Return prediction => Return (if prediction then of_Z 100 else of_Z 0)
      end
  end.

Definition updateModel `{Backend} (self : t) (transaction : Transaction)
    (isActuallyFraud : bool) (historicalTransactions : list Transaction)
    : Completion unit * t :=
  let allTransactions := historicalTransactions ++ [transaction] in
  let allLabels := map isFlagged historicalTransactions ++ [isActuallyFraud] in
  train self allTransactions allLabels.

End RandomForestClassifier.

(** ** The fraud detection service *)

Module FraudDetectionService.

Record t := {
  anomalyDetector : AnomalyDetector.t;
  behavioralProfiler : BehavioralProfiler.t;
  userClassifiers : gmap Z RandomForestClassifier.t
}.

Definition new : t :=
  {| anomalyDetector := AnomalyDetector.new;
     behavioralProfiler := BehavioralProfiler.new;
     userClassifiers := ∅ |}.

Record Assessment := {
  suspiciousScore : number;
  isAnomaly : bool;
  anomalyScore : number;
  behavioralScore : number;
  classifierScore : number;
  features : Features
}.

(** [userTransactions]: a [Map] filled by [forEach] and iterated in
    insertion order, kept as an association list. *)
Fixpoint groupPush (groups : list (Z * list Transaction)) (t : Transaction)
    : list (Z * list Transaction) :=
  match groups with
  | [] => [(accountId t, [t])]
  | (k, ts) :: rest =>
      if bool_decide (k = accountId t) then (k, ts ++ [t]) :: rest
      else (k, ts) :: groupPush rest t
  end.

Definition groupByAccount (historicalTransactions : list Transaction)
    : list (Z * list Transaction) :=
  foldl groupPush [] historicalTransactions.

(** The loop of [initialize] over the holders. *)
Fixpoint initializeUsers `{Backend} (self : t) (groups : list (Z * list Transaction))
    : Completion unit * t :=
  match groups with
  | [] => (Return (), self)
  | (userId, transactions) :: rest =>
      match BehavioralProfiler.updateProfile (behavioralProfiler self) userId
              transactions with
      | (Throw e, profiler) =>
          (Throw e, {| anomalyDetector := anomalyDetector self;
                       behavioralProfiler := profiler;
                       userClassifiers := userClassifiers self |})
      | (Return _, profiler) =>
          let classifier := RandomForestClassifier.new userId in
          let labels := map isFlagged transactions in
          match RandomForestClassifier.train classifier transactions labels with
          | (Throw e, _) =>
              (Throw e, {| anomalyDetector := anomalyDetector self;
                           behavioralProfiler := profiler;
                           userClassifiers := userClassifiers self |})
          | (Return _, classifier) =>
              initializeUsers
                {| anomalyDetector := anomalyDetector self;
                   behavioralProfiler := profiler;
                   userClassifiers := <[userId := classifier]> (userClassifiers self) |}
                rest
          end
      end
  end.

Definition initialize `{Backend} (self : t) (historicalTransactions : list Transaction)
    : Completion unit * t :=
  match AnomalyDetector.train (anomalyDetector self) historicalTransactions with
  | (Throw e, detector) =>
      (Throw e, {| anomalyDetector := detector;
                   behavioralProfiler := behavioralProfiler self;
                   userClassifiers := userClassifiers self |})
  | (Return _, detector) =>
      initializeUsers
        {| anomalyDetector := detector;
           behavioralProfiler := behavioralProfiler self;
           userClassifiers := userClassifiers self |}
        (groupByAccount historicalTransactions)
  end.

(** The classifier score, with the holder's classifier created and trained
    on the spot when the map has none: the new classifier is put in the
    map once its training has returned, and then asked. *)
Definition classify `{Backend} (classifiers : gmap Z RandomForestClassifier.t)
    (transaction : Transaction) (userId : Z) (historicalTransactions : list Transaction)
    : Completion number * gmap Z RandomForestClassifier.t :=
  match classifiers !! userId with
  | Some classifier =>
      (RandomForestClassifier.predict classifier transaction historicalTransactions,
       classifiers)
  | None =>
      let classifier := RandomForestClassifier.new userId in
      match RandomForestClassifier.train classifier historicalTransactions
              (map isFlagged historicalTransactions) with
      | (Throw e, _) => (Throw e, classifiers)
      | (Return _, classifier) =>
          (RandomForestClassifier.predict classifier transaction historicalTransactions,
           <[userId := classifier]> classifiers)
      end
  end.

Definition analyzeTransaction `{Backend} (self : t) (transaction : Transaction)
    (userId : Z) (historicalTransactions : list Transaction)
    : Completion Assessment * t :=
  match AnomalyDetector.detectAnomaly (anomalyDetector self) transaction
          historicalTransactions with
  | Throw e => (Throw e, self)
  | Return anomalyResult =>
      let behavioralScore :=
        BehavioralProfiler.analyzeTransaction (behavioralProfiler self) userId
          transaction in
      match classify (userClassifiers self) transaction userId historicalTransactions with
      | (Throw e, classifiers) =>
          (Throw e, {| anomalyDetector := anomalyDetector self;
                       behavioralProfiler := behavioralProfiler self;
                       userClassifiers := classifiers |})
      | (Return classifierScore, classifiers) =>
          let combinedScore :=
            Math_round
              (add (add (mul (AnomalyDetector.score anomalyResult) (decimal 4 10))
                        (mul behavioralScore (decimal 3 10)))
                   (mul classifierScore (decimal 3 10))) in
          (Return {| suspiciousScore := combinedScore;
                     isAnomaly := gtb combinedScore (of_Z 70);
                     anomalyScore := AnomalyDetector.score anomalyResult;
                     behavioralScore := behavioralScore;
                     classifierScore := classifierScore;
                     features := AnomalyDetector.features anomalyResult |},
           {| anomalyDetector := anomalyDetector self;
              behavioralProfiler := behavioralProfiler self;
              userClassifiers := classifiers |})
      end
  end.

Definition updateModels `{Backend} (self : t) (transaction : Transaction) (userId : Z)
    (isActuallyFraud : bool) (historicalTransactions : list Transaction)
    : Completion unit * t :=
  match BehavioralProfiler.updateProfile (behavioralProfiler self) userId
          (historicalTransactions ++ [transaction]) with
  | (Throw e, profiler) =>
      (Throw e, {| anomalyDetector := anomalyDetector self;
                   behavioralProfiler := profiler;
                   userClassifiers := userClassifiers self |})
  | (Return _, profiler) =>
      match userClassifiers self !! userId with
      | Some classifier =>
          let '(completion, classifier) :=
            RandomForestClassifier.updateModel classifier transaction isActuallyFraud
              historicalTransactions in
          (completion,
           {| anomalyDetector := anomalyDetector self;
              behavioralProfiler := profiler;
              userClassifiers := <[userId := classifier]> (userClassifiers self) |})
      | None =>
          (Return (), {| anomalyDetector := anomalyDetector self;
                         behavioralProfiler := profiler;
                         userClassifiers := userClassifiers self |})
      end
  end.

End FraudDetectionService.

(** ** Enhanced feature engineering ([extractEnhancedFeatures]) *)

(** More [Date] accessors, in UTC as above. [civil] gives the month (from
    1) and the day of the month of a day counted from 1970-01-01, in the
    proleptic Gregorian calendar. *)
Definition getMinutes (d : Z) : Z := (d / 60000) mod 60.

Definition civil (days : Z) : Z * Z :=
  let z := days + 719468 in
  let dayOfEra := z mod 146097 in
  let yearOfEra :=
    (dayOfEra - dayOfEra / 1460 + dayOfEra / 36524 - dayOfEra / 146096) / 365 in
  let dayOfYear := dayOfEra - (365 * yearOfEra + yearOfEra / 4 - yearOfEra / 100) in
  let mp := (5 * dayOfYear + 2) / 153 in
  let day := dayOfYear - (153 * mp + 2) / 5 + 1 in
  let month := if bool_decide (mp < 10) then mp + 3 else mp - 9 in
  (month, day).

Definition getDate (d : Z) : Z := (civil (d / 86400000)).2.
Definition getMonth (d : Z) : Z := (civil (d / 86400000)).1 - 1.

(** [x % y] on numbers: the remainder of the truncated division, exact,
    with the sign of [x]. *)
Definition remainder (x y : number) : number :=
  match x, y with
  | S754_nan, _ | _, S754_nan => S754_nan
  | S754_infinity _, _ => S754_nan
  | _, S754_zero _ => S754_nan
  | _, S754_infinity _ => x
  | S754_zero _, _ => x
  | S754_finite sx mx ex, S754_finite _ my ey =>
      let e := Z.min ex ey in
      let r := (Z.pos mx * 2 ^ (ex - e)) mod (Z.pos my * 2 ^ (ey - e)) in
      if bool_decide (r = 0) then S754_zero sx
      else binary_normalize prec emax (if sx then - r else r) e false
  end.

(** [x === 0] on a number; [x !== 0] is its negation. *)
Definition strictEquals_zero (x : number) : bool :=
  match x with S754_zero _ => true | _ => false end.

(** [Math.sqrt] is the correctly rounded square root; [Math.pow] is left
    to the engine. *)
Definition Math_sqrt : number -> number := SFsqrt prec emax.

Class MathLibrary := {
  Math_pow : number -> number -> number
}.

(** The values of a feature object: numbers and booleans. *)
Inductive JsValue :=
  | JsNumber (x : number)
  | JsBoolean (b : bool).

(** The four keys [transactions_Nh], [amount_Nh], [unique_merchants_Nh] and
    [unique_categories_Nh] of one window. *)
Record WindowFeatures := {
  transactions_h : number;
  amount_h : number;
  unique_merchants_h : number;
  unique_categories_h : number
}.

(** The returned object: the keys of the base features, those of the six
    windows, and the keys written after the two spreads; [e_hour] is the key
    [hour], which is written again there. *)
Record EnhancedFeatures := {
  baseFeatures : Features;
  velocityFeatures : list WindowFeatures;
  e_hour : number;
  minute : number;
  dayOfWeek : number;
  dayOfMonth : number;
  month : number;
  lastMerchantTransaction : number;
  lastCategoryTransaction : number;
  merchantTransactionCount : number;
  categoryTransactionCount : number;
  amountZScore : number;
  isRoundAmount : bool;
  hasPreviousFraud : bool
}.

Definition timeWindows : list Z := [1; 3; 6; 12; 24; 72].

Definition windowTransactions (transaction : Transaction)
    (historicalTransactions : list Transaction) (hours : Z) : list Transaction :=
  filter (λ t, getTime (transactionDate transaction) - getTime (transactionDate t)
               <= hours * 60 * 60 * 1000) historicalTransactions.

(** [new Set(xs).size] *)
Definition Set_size (xs : list string) : number :=
  of_Z (Z.of_nat (size (list_to_set xs : gset string))).

(** [stats.length > 0 ? Math.abs(now - stats[stats.length - 1].date) / 3600000
    : Infinity]: the list has a last entry exactly when it is not empty. *)
Definition hoursSinceLast (transaction : Transaction) (stats : list Transaction)
    : number :=
  match last stats with
  | Some t =>
      div (of_Z (Z.abs (getTime (transactionDate transaction)
                        - getTime (transactionDate t))))
          (of_Z (1000 * 60 * 60))
  | None => Infinity
  end.

(** [xs.slice(-10)] *)
Definition lastTen {A} (xs : list A) : list A := drop (length xs - 10) xs.

Definition extractEnhancedFeatures `{MathLibrary}
    (transaction : Transaction) (historicalTransactions : list Transaction)
    : EnhancedFeatures :=
  let baseFeatures := extractTransactionFeatures transaction historicalTransactions in
  let transactionDate := transactionDate transaction in
  let hour := getHours transactionDate in
  let minute := getMinutes transactionDate in
  let dayOfWeek := getDay transactionDate in
  let dayOfMonth := getDate transactionDate in
  let month := getMonth transactionDate in
  let velocityFeatures :=
    map (λ hours,
           let windowTransactions :=
             windowTransactions transaction historicalTransactions hours in
           {| transactions_h := length_number windowTransactions;
              amount_h := sumAbsAmounts windowTransactions;
              unique_merchants_h := Set_size (map merchant windowTransactions);
              unique_categories_h := Set_size (map category windowTransactions) |})
        timeWindows in
  let merchantStats :=
    filter (λ t, merchant t = merchant transaction) historicalTransactions in
  let lastMerchantTransaction := hoursSinceLast transaction merchantStats in
  let categoryStats :=
    filter (λ t, category t = category transaction) historicalTransactions in
  let lastCategoryTransaction := hoursSinceLast transaction categoryStats in
  let amount := absAmount transaction in
  let recentAmounts := map absAmount (lastTen historicalTransactions) in
  let avgRecentAmount :=
    if bool_decide (0 < Z.of_nat (length recentAmounts))
    then div (foldl add (of_Z 0) recentAmounts) (length_number recentAmounts)
    else amount in
  let stdRecentAmount :=
    if bool_decide (0 < Z.of_nat (length recentAmounts))
    then Math_sqrt
           (div (foldl (λ acc val, add acc (Math_pow (sub val avgRecentAmount) (of_Z 2)))
                       (of_Z 0) recentAmounts)
                (length_number recentAmounts))
    else of_Z 0 in
  {| baseFeatures := baseFeatures;
     velocityFeatures := velocityFeatures;
     e_hour := of_Z hour;
     minute := of_Z minute;
     dayOfWeek := of_Z dayOfWeek;
     dayOfMonth := of_Z dayOfMonth;
     month := of_Z month;
     lastMerchantTransaction := lastMerchantTransaction;
     lastCategoryTransaction := lastCategoryTransaction;
     merchantTransactionCount := length_number merchantStats;
     categoryTransactionCount := length_number categoryStats;
     amountZScore :=
       if negb (strictEquals_zero stdRecentAmount)
       then div (sub amount avgRecentAmount) stdRecentAmount
       else of_Z 0;
     isRoundAmount :=
       strictEquals_zero (remainder amount (of_Z 1))
       || strictEquals_zero (remainder amount (of_Z 5))
       || strictEquals_zero (remainder amount (of_Z 10));
     hasPreviousFraud := existsb isFlagged historicalTransactions |}.

(** [Object.values] of the enhanced features: the keys of the base features
    come first, [hour] keeping its place and taking the later value, then
    the keys of the windows, then the others in the order they are
    written. *)
Definition Object_values_enhanced (f : EnhancedFeatures) : list JsValue :=
  map JsNumber
    (e_hour f :: tail (Object_values (baseFeatures f))
     ++ concat (map (λ w, [transactions_h w; amount_h w; unique_merchants_h w;
                           unique_categories_h w]) (velocityFeatures f))
     ++ [minute f; dayOfWeek f; dayOfMonth f; month f;
         lastMerchantTransaction f; lastCategoryTransaction f;
         merchantTransactionCount f; categoryTransactionCount f; amountZScore f])
  ++ [JsBoolean (isRoundAmount f); JsBoolean (hasPreviousFraud f)].

(** ** The in-memory store ([server/storage.ts]) *)

(** A [Map] with integer keys, as its entries in insertion order. [set]
    on a key that is present replaces the value in place. *)
Abbreviation JsMap V := (list (Z * V)) (only parsing).

Fixpoint Map_set {V} (entries : JsMap V) (key : Z) (value : V) : JsMap V :=
  match entries with
  | [] => [(key, value)]
  | (k, v) :: rest =>
      if bool_decide (k = key) then (k, value) :: rest
      else (k, v) :: Map_set rest key value
  end.

(** [Array.from(map.values())] *)
Definition Map_values {V} (entries : JsMap V) : list V := map snd entries.

(** [xs.sort(compare)] for a comparator that is a difference of integer
    keys. The sort is stable: an element goes before the first element it
    does not compare greater than. *)
Fixpoint sort_insert {A} (compare : A -> A -> Z) (x : A) (sorted : list A) : list A :=
  match sorted with
  | [] => [x]
  | y :: rest =>
      if bool_decide (compare x y <= 0) then x :: y :: rest
      else y :: sort_insert compare x rest
  end.

Definition Array_sort {A} (compare : A -> A -> Z) (xs : list A) : list A :=
  foldr (sort_insert compare) [] xs.

(** A row of the [accounts] table, restricted to the columns read here. *)
Module Account.

Record t := { id : Z; userId : Z }.

End Account.

(** An alert row. The description is a template literal; it is kept as its
    pieces, the interpolated values not converted to text. *)
Module Alert.

Inductive Piece :=
  | Literal (text : string)
  | AmountText (cents : Z)
  | NumberText (x : number).

Record Insert := {
  userId : Z;
  transactionId : Z;
  alertType : string;
  severity : string;
  title : string;
  description : list Piece
}.

(** [{ ...insertAlert, id, createdAt: new Date() }] *)
Record t := {
  inserted : Insert;
  id : Z;
  createdAt : Z
}.

End Alert.

Module MemStorage.

(** The maps of the store that the engine reads or writes, and the id
    counter they share. The constructor fills the maps with sample rows;
    nothing below depends on what they hold. *)
Record t := {
  accounts : JsMap Account.t;
  transactions : JsMap Transaction;
  alerts : JsMap Alert.t;
  currentId : Z
}.

Definition getAccountsByUserId (self : t) (userId : Z) : list Account.t :=
  filter (λ account, Account.userId account = userId) (Map_values (accounts self)).

Definition getAllTransactions (self : t) : list Transaction :=
  Array_sort (λ a b, getTime (transactionDate a) - getTime (transactionDate b))
             (Map_values (transactions self)).

Definition getTransactionsByUserId (self : t) (userId : Z) : list Transaction :=
  let userAccounts := getAccountsByUserId self userId in
  let accountIds := map Account.id userAccounts in
  Array_sort (λ a b, getTime (transactionDate b) - getTime (transactionDate a))
    (filter (λ transaction, accountId transaction ∈ accountIds)
            (Map_values (transactions self))).

(** [createAlert]; [now] is the value of [new Date()]. *)
Definition createAlert (self : t) (insertAlert : Alert.Insert) (now : Z)
    : Alert.t * t :=
  let id := currentId self in
  let alert := {| Alert.inserted := insertAlert; Alert.id := id;
                  Alert.createdAt := now |} in
  (alert,
   {| accounts := accounts self;
      transactions := transactions self;
      alerts := Map_set (alerts self) id alert;
      currentId := id + 1 |}).

End MemStorage.

(** ** The service façade ([MLService])

    The façade imports [FraudDetectionService] from [./models], the module
    that [enhanced-models.ts] takes [extractTransactionFeatures] from and that
    takes [RandomForestClassifier] from it: the one with the autoencoder.
    [console.log] is left out. *)

Module MLService.

Record t := {
  fraudDetectionService : FraudDetectionService.t;
  isInitialized : bool
}.

Definition new : t :=
  {| fraudDetectionService := FraudDetectionService.new; isInitialized := false |}.

Definition initialize `{Backend} (self : t) (storage : MemStorage.t)
    : Completion unit * t :=
  if isInitialized self then (Return (), self)
  else
    let historicalTransactions := MemStorage.getAllTransactions storage in
    match FraudDetectionService.initialize (fraudDetectionService self)
            historicalTransactions with
    | (Throw e, service) =>
        (Throw e, {| fraudDetectionService := service;
                     isInitialized := isInitialized self |})
    | (Return _, service) =>
        (Return (), {| fraudDetectionService := service; isInitialized := true |})
    end.

(** The alert [analyzeTransaction] files for a flagged transaction. *)
Definition suspiciousTransactionAlert (transaction : Transaction) (userId : Z)
    (result : FraudDetectionService.Assessment) : Alert.Insert :=
  {| Alert.userId := userId;
     Alert.transactionId := id transaction;
     Alert.alertType := "suspicious_transaction";
     Alert.severity :=
       if leb (of_Z 90) (FraudDetectionService.suspiciousScore result)
       then "high" else "medium";
     Alert.title := "Suspicious Transaction Detected";
     Alert.description :=
       [ Alert.Literal "Transaction of "; Alert.AmountText (amount transaction);
         Alert.Literal " at "; Alert.Literal (merchant transaction);
         Alert.Literal " has been flagged as suspicious with a risk score of ";
         Alert.NumberText (FraudDetectionService.suspiciousScore result);
         Alert.Literal "/100." ] |}.

(** [analyzeTransaction]; [storage] is the module's shared store and [now]
    the time at which an alert would be created. *)
Definition analyzeTransaction `{Backend} (self : t) (storage : MemStorage.t) (now : Z)
    (transaction : Transaction) (userId : Z)
    : Completion FraudDetectionService.Assessment * t * MemStorage.t :=
  match (if negb (isInitialized self) then initialize self storage
         else (Return (), self)) with
  | (Throw e, self) => (Throw e, self, storage)
  | (Return _, self) =>
      let historicalTransactions := MemStorage.getTransactionsByUserId storage userId in
      match FraudDetectionService.analyzeTransaction (fraudDetectionService self)
              transaction userId historicalTransactions with
      | (Throw e, service) =>
          (Throw e, {| fraudDetectionService := service;
                       isInitialized := isInitialized self |}, storage)
      | (Return result, service) =>
          let self := {| fraudDetectionService := service;
                         isInitialized := isInitialized self |} in
          if FraudDetectionService.isAnomaly result then
            let created :=
              MemStorage.createAlert storage
                (suspiciousTransactionAlert transaction userId result) now in
            (Return result, self, created.2)
          else (Return result, self, storage)
      end
  end.

(** The loop of [analyzeTransactions]; the [n]-th transaction of the batch
    is analysed at time [now n]. *)
Fixpoint analyzeEach `{Backend} (self : t) (storage : MemStorage.t) (now : nat -> Z)
    (transactions : list Transaction)
    (results : JsMap FraudDetectionService.Assessment)
    : Completion (JsMap FraudDetectionService.Assessment) * t * MemStorage.t :=
  match transactions with
  | [] => (Return results, self, storage)
  | transaction :: rest =>
      match analyzeTransaction self storage (now 0%nat) transaction
              (accountId transaction) with
      | (Throw e, self, storage) => (Throw e, self, storage)
      | (Return result, self, storage) =>
          analyzeEach self storage (λ n, now (S n)) rest
            (Map_set results (id transaction) result)
      end
  end.

Definition analyzeTransactions `{Backend} (self : t) (storage : MemStorage.t)
    (now : nat -> Z) (transactions : list Transaction)
    : Completion (JsMap FraudDetectionService.Assessment) * t * MemStorage.t :=
  match (if negb (isInitialized self) then initialize self storage
         else (Return (), self)) with
  | (Throw e, self) => (Throw e, self, storage)
  | (Return _, self) => analyzeEach self storage now transactions []
  end.

End MLService.

(** ** Specification-side definitions *)

(** The fusion rule as the design document words it:
    [round(0.4*a + 0.3*b + 0.3*c)]. *)
Definition fuse (a b c : number) : number :=
  Math_round (add (add (mul (decimal 4 10) a) (mul (decimal 3 10) b))
                  (mul (decimal 3 10) c)).

(** The same rule in exact arithmetic on integer scores, rounding halves
    up: [⌊(4a + 3b + 3c + 5) / 10⌋]. *)
Definition fuse_exact (a b c : Z) : Z := (4 * a + 3 * b + 3 * c + 5) / 10.

(** The sums of a subset of the penalties 20, 15, 10 and 25. *)
Definition penaltySums : list Z := [0; 10; 15; 20; 25; 30; 35; 40; 45; 50; 55; 60; 70].

(** The penalties of the behavioral profiler that do not depend on the
    amount: unfamiliar hour, merchant and category. *)
Definition familiarityPenalty (profile : BehavioralProfiler.Profile)
    (transaction : Transaction) : Z :=
  (if bool_decide (getHours (transactionDate transaction)
                   ∉ BehavioralProfiler.typicalDayHours profile) then 20 else 0)
  + (if bool_decide (merchant transaction ∉ BehavioralProfiler.typicalMerchants profile)
     then 15 else 0)
  + (if bool_decide (category transaction ∉ BehavioralProfiler.typicalCategories profile)
     then 10 else 0).

(** Detectors on which no call of [train] has succeeded so far. *)
Inductive neverTrained `{Backend} : AnomalyDetector.t -> Prop :=
  | neverTrained_new : neverTrained AnomalyDetector.new
  | neverTrained_failed self transactions e self' :
      neverTrained self ->
      AnomalyDetector.train self transactions = (Throw e, self') ->
      neverTrained self'.

(** The classifier [analyzeTransaction] asks for a holder: the one the map
    has, or else the one it trains on the spot. *)
Definition classifierAsked `{Backend} (self : FraudDetectionService.t) (userId : Z)
    (historicalTransactions : list Transaction) : RandomForestClassifier.t :=
  default
    (RandomForestClassifier.train (RandomForestClassifier.new userId)
       historicalTransactions (map isFlagged historicalTransactions)).2
    (FraudDetectionService.userClassifiers self !! userId).

(** The three ways [analyzeTransaction] can throw: the detector has no
    model; the holder has no classifier and the training of one throws; the
    forest of the classifier asked throws. *)
Definition thrownBy `{Backend} (self : FraudDetectionService.t)
    (transaction : Transaction) (userId : Z) (historicalTransactions : list Transaction)
    (e : JsError) : Prop :=
  (AnomalyDetector.model (FraudDetectionService.anomalyDetector self) = None
   ∧ e = Error "Model not trained")
  ∨ (FraudDetectionService.userClassifiers self !! userId = None
     ∧ (RandomForestClassifier.train (RandomForestClassifier.new userId)
          historicalTransactions (map isFlagged historicalTransactions)).1 = Throw e)
  ∨ RandomForestClassifier.predict (classifierAsked self userId historicalTransactions)
      transaction historicalTransactions = Throw e.

(** The amounts of a list, added up as the store holds them, in cents;
    and "the amount is exactly twice the average amount of the list". *)
Definition centsSpent (transactions : list Transaction) : Z :=
  foldr Z.add 0 (map (λ t, Z.abs (amount t)) transactions).

Definition twiceTheAverage (transaction : Transaction)
    (transactions : list Transaction) : Prop :=
  Z.abs (amount transaction) * Z.of_nat (length transactions)
  = 2 * centsSpent transactions.

(** The amounts of a list in dollars, each rounded up to a whole dollar and
    added up; and the numbers no smaller than a cent that sums of amounts
    are: zero, or a positive double whose last bit is worth at least
    [2^-59]. *)
Definition dollarsRoundedUp (transactions : list Transaction) : Z :=
  foldr Z.add 0 (map (λ t, (Z.abs (amount t) + 99) / 100) transactions).

Definition amountSized (x : number) : Prop :=
  x = S754_zero false
  ∨ ∃ m e, x = S754_finite false m e ∧ bounded prec emax m e = true ∧ -59 <= e.

(** The detectors the code can build: a new one, and what [train] leaves,
    whether it returns or throws. *)
Inductive builtByTrain `{Backend} : AnomalyDetector.t -> Prop :=
  | builtByTrain_new : builtByTrain AnomalyDetector.new
  | builtByTrain_train self transactions :
      builtByTrain self ->
      builtByTrain (AnomalyDetector.train self transactions).2.

Inductive neverTrainedIsolation : IsolationAnomalyDetector.t -> Prop :=
  | neverTrainedIsolation_new : neverTrainedIsolation IsolationAnomalyDetector.new
  | neverTrainedIsolation_failed self transactions e self' :
      neverTrainedIsolation self ->
      IsolationAnomalyDetector.train self transactions = (Throw e, self') ->
      neverTrainedIsolation self'.

(** The states an [MLService] can be in: the one it is created in, and
    those its methods leave it in, whatever the store holds at each call. *)
Inductive reachable `{Backend} : MLService.t -> Prop :=
  | reachable_new : reachable MLService.new
  | reachable_initialize self storage :
      reachable self -> reachable (MLService.initialize self storage).2
  | reachable_analyzeTransaction self storage now transaction userId :
      reachable self ->
      reachable (MLService.analyzeTransaction self storage now transaction userId).1.2
  | reachable_analyzeTransactions self storage now transactions :
      reachable self ->
      reachable (MLService.analyzeTransactions self storage now transactions).1.2.

(** An initialised [MLService] holds a detector that has a model and a NaN
    threshold. *)
Definition initializedWithNaN (self : MLService.t) : Prop :=
  MLService.isInitialized self = true →
  ∃ m, FraudDetectionService.anomalyDetector (MLService.fraudDetectionService self)
       = {| AnomalyDetector.model := Some m; AnomalyDetector.threshold := NaN |}.

(** An assessment that raises no alert: NaN suspicion score, not flagged. *)
Definition unflagged (result : FraudDetectionService.Assessment) : Prop :=
  FraudDetectionService.suspiciousScore result = NaN
  ∧ FraudDetectionService.isAnomaly result = false.

(** ** Sample data

    A backend whose autoencoder reconstructs its input exactly and whose
    forest trains on anything and never predicts fraud; a holder with ten
    grocery purchases of $50, one a day at 10 o'clock; and a $450 purchase of
    technology at 3 o'clock at a new merchant. *)

Definition sampleBackend : Backend :=
  {| tf_fit := λ _, {| lm_predict := λ row, row; lm_shape := λ _, eq_refl |};
     forest_train := λ _ _, (Return (), {| rf_predict := λ _ _, Return false |}) |}.

(** A backend whose forest library refuses every training set: [train]
    throws, and the forest it leaves throws when asked. *)
Definition refusal : JsError :=
  {| error_name := "TypeError"; error_message := "refused by the forest library" |}.

Definition refusingBackend : Backend :=
  {| tf_fit := λ _, {| lm_predict := λ row, row; lm_shape := λ _, eq_refl |};
     forest_train := λ _ _, (Throw refusal, {| rf_predict := λ _ _, Throw refusal |}) |}.

Definition groceryPurchase (day : Z) : Transaction :=
  {| id := day; accountId := 7; amount := -5000; merchant := "FreshMart";
     category := "Groceries";
     transactionDate := 1704103200000 + day * 86400000;
     isFlagged := false |}.

Definition groceryHistory : list Transaction :=
  map groceryPurchase [0; 1; 2; 3; 4; 5; 6; 7; 8; 9].

Definition technologyPurchase : Transaction :=
  {| id := 99; accountId := 7; amount := -45000; merchant := "GadgetHub";
     category := "Technology";
     transactionDate := 1704103200000 + 10 * 86400000 - 25200000;
     isFlagged := false |}.

(** One more purchase at the grocer's, at the usual hour, of the given
    number of cents. *)
Definition groceryPurchaseOf (cents : Z) : Transaction :=
  {| id := 98; accountId := 7; amount := cents; merchant := "FreshMart";
     category := "Groceries";
     transactionDate := 1704103200000 + 10 * 86400000;
     isFlagged := false |}.

Definition groceryProfile : BehavioralProfiler.Profile :=
  BehavioralProfiler.buildProfile groceryHistory (groceryPurchase 0) (groceryPurchase 9).

Definition groceryProfiler : BehavioralProfiler.t :=
  (BehavioralProfiler.updateProfile BehavioralProfiler.new 7 groceryHistory).2.

(** Ten grocery purchases that sum to $500.00, so that their average is
    $50.00, while the mean the profile stores is 49.99999999999999; and two
    purchases of $0.10 and $0.70, whose average is $0.40 and whose stored
    mean is 0.39999999999999997. *)
Definition groceryPurchaseWorth (day cents : Z) : Transaction :=
  {| id := day; accountId := 7; amount := - cents; merchant := "FreshMart";
     category := "Groceries";
     transactionDate := 1704103200000 + day * 86400000;
     isFlagged := false |}.

Definition unevenGroceryHistory : list Transaction :=
  zip_with groceryPurchaseWorth [0; 1; 2; 3; 4; 5; 6; 7; 8; 9]
    [5264; 6985; 964; 4893; 2060; 3476; 778; 5020; 1159; 19401].

Definition smallGroceryHistory : list Transaction :=
  [groceryPurchaseWorth 0 10; groceryPurchaseWorth 1 70].

(** A purchase of nothing: amount [0.00]. *)
Definition zeroPurchase : Transaction :=
  {| id := 100; accountId := 7; amount := 0; merchant := "GadgetHub";
     category := "Technology"; transactionDate := 1704103200000;
     isFlagged := false |}.

(** A detector whose fitted model reconstructs every row as zeros, with the
    threshold a detector is created with. *)
Definition zeroModel : LayersModel :=
  {| lm_predict := map (λ _, Float32.zero); lm_shape := λ row, length_map _ row |}.

Definition alarmedDetector : AnomalyDetector.t :=
  {| AnomalyDetector.model := Some zeroModel;
     AnomalyDetector.threshold := decimal 5 10 |}.

(** The service after [initialize] on the grocery history, and a service
    with the same profile whose detector gives its highest score. *)
Definition groceryService : FraudDetectionService.t :=
  (@FraudDetectionService.initialize sampleBackend FraudDetectionService.new
     groceryHistory).2.

(** The service [initialize] leaves after the ten uneven purchases. *)
Definition unevenGroceryService (B : Backend) : FraudDetectionService.t :=
  (@FraudDetectionService.initialize B FraudDetectionService.new unevenGroceryHistory).2.

Definition alarmedService : FraudDetectionService.t :=
  {| FraudDetectionService.anomalyDetector := alarmedDetector;
     FraudDetectionService.behavioralProfiler := groceryProfiler;
     FraudDetectionService.userClassifiers := ∅ |}.

(** A library whose [Math.pow] squares, and a store that holds the grocery
    history on account 7, which belongs to user 1. *)
Definition sampleMath : MathLibrary := {| Math_pow := λ x _, mul x x |}.

Definition sampleStorage : MemStorage.t :=
  {| MemStorage.accounts := [(7, {| Account.id := 7; Account.userId := 1 |})];
     MemStorage.transactions := map (λ t, (id t, t)) groceryHistory;
     MemStorage.alerts := [];
     MemStorage.currentId := 100 |}.

(** Equality of numbers (as values, not [===]) is decidable. *)
#[local] Instance spec_float_eq_dec : EqDecision spec_float.
Proof. solve_decision. Defined.

(** ** Arithmetic of NaN *)

Lemma add_NaN_l x : add NaN x = NaN.
Proof. reflexivity. Qed.

Lemma add_NaN_r x : add x NaN = NaN.
Proof. by destruct x. Qed.

Lemma mul_NaN_l x : mul NaN x = NaN.
Proof. reflexivity. Qed.

Lemma div_NaN_r x : div x NaN = NaN.
Proof. by destruct x. Qed.

Lemma div_NaN_l x : div NaN x = NaN.
Proof. reflexivity. Qed.

Lemma mul_comm x y : mul x y = mul y x.
Proof.
  destruct x as [sx|sx| |sx mx ex], y as [sy|sy| |sy my ey]; simpl;
    rewrite ?(xorb_comm sx sy); try reflexivity.
  unfold mul; simpl. by rewrite (Pos.mul_comm mx my), (Z.add_comm ex ey).
Qed.

Lemma float32_sub_NaN_l p : Float32.sub S754_nan p = S754_nan.
Proof. reflexivity. Qed.

Lemma float32_add_NaN_r x : Float32.add x S754_nan = S754_nan.
Proof. by destruct x. Qed.

Lemma tensor_sum_NaN_acc xs : foldl Float32.add S754_nan xs = S754_nan.
Proof. induction xs as [|x xs IH]; [done|]. simpl. exact IH. Qed.

(** A sum with a NaN summand is NaN. *)
Lemma tensor_sum_NaN xs : S754_nan ∈ xs → tensor_sum xs = S754_nan.
Proof.
  unfold tensor_sum. generalize Float32.zero.
  induction xs as [|x xs IH]; intros acc Hin.
  - by apply not_elem_of_nil in Hin.
  - apply elem_of_cons in Hin as [<- | Hin]; simpl.
    + rewrite float32_add_NaN_r. apply tensor_sum_NaN_acc.
    + by apply IH.
Qed.

(** The squared difference is NaN wherever the label is. *)
Lemma squaredDifference_NaN xs ps :
  length ps = length xs → S754_nan ∈ xs → S754_nan ∈ squaredDifference xs ps.
Proof.
  intros Hlen Hin. apply list_elem_of_lookup in Hin as [i Hi].
  destruct (lookup_lt_is_Some_2 ps i) as [p Hp].
  { rewrite Hlen. by eapply lookup_lt_Some. }
  apply list_elem_of_lookup. exists i. unfold squaredDifference.
  rewrite lookup_zip_with, Hi. simpl. by rewrite Hp.
Qed.

Lemma length_concat_predictions (m : LayersModel) (xs : list (list Float32.float32)) :
  length (concat (map (lm_predict m) xs)) = length (concat xs).
Proof.
  induction xs as [|row xs IH]; [done|]. simpl.
  by rewrite !length_app, lm_shape, IH.
Qed.

(** The loss of any model on a batch with a NaN entry is NaN. *)
Lemma meanSquaredError_NaN (m : LayersModel) (xs : list (list Float32.float32)) :
  S754_nan ∈ concat xs →
  meanSquaredError xs (map (lm_predict m) xs) = S754_nan.
Proof.
  intros Hin. unfold meanSquaredError.
  rewrite tensor_sum_NaN; [done|].
  apply squaredDifference_NaN; [apply length_concat_predictions | done].
Qed.

Lemma tensor2d_NaN (rows : list (list number)) (row : list number) :
  row ∈ rows → NaN ∈ row → S754_nan ∈ concat (tensor2d rows).
Proof.
  intros Hrow Hnan. apply list_elem_of_In, in_concat.
  exists (map Float32.fround row). split; apply list_elem_of_In.
  - unfold tensor2d. apply list_elem_of_fmap. by exists row.
  - apply list_elem_of_fmap. by exists NaN.
Qed.

(** With no history the two frequency features are [0/0]. *)
Lemma merchantFrequency_no_history t :
  merchantFrequency (extractTransactionFeatures t []) = NaN.
Proof. reflexivity. Qed.

Lemma Object_values_no_history t :
  NaN ∈ Object_values (extractTransactionFeatures t []).
Proof.
  unfold Object_values. rewrite merchantFrequency_no_history.
  do 7 apply list_elem_of_further. apply list_elem_of_here.
Qed.

(** Every non-empty list has an entry that none is strictly earlier than. *)
Lemma strictlyEarlier_nil (t0 : Transaction) (l : list Transaction) :
  (∀ x, x ∈ l → transactionDate t0 <= transactionDate x) →
  strictlyEarlier t0 l = [].
Proof.
  unfold strictlyEarlier. induction l as [|u l IH]; intros Hmin; [done|].
  rewrite filter_cons. case_decide as Hlt.
  - specialize (Hmin u (list_elem_of_here _ _)). lia.
  - apply IH. intros x Hx. apply Hmin. by apply list_elem_of_further.
Qed.

Lemma earliest_exists (t : Transaction) (ts : list Transaction) :
  ∃ t0, t0 ∈ t :: ts ∧ strictlyEarlier t0 (t :: ts) = [].
Proof.
  assert (Hmin : ∃ t0, t0 ∈ t :: ts
                       ∧ ∀ x, x ∈ t :: ts → transactionDate t0 <= transactionDate x).
  { revert t. induction ts as [|u ts IH]; intros t.
    - exists t. split; [apply list_elem_of_here|].
      intros x Hx. apply elem_of_cons in Hx as [-> | Hx]; [lia|].
      by apply not_elem_of_nil in Hx.
    - destruct (IH t) as (a & Ha & Hle).
      destruct (decide (transactionDate u < transactionDate a)) as [Hlt|Hge].
      + exists u. split; [apply list_elem_of_further, list_elem_of_here|].
        intros x Hx. apply elem_of_cons in Hx as [-> | Hx].
        { specialize (Hle t (list_elem_of_here _ _)). lia. }
        apply elem_of_cons in Hx as [-> | Hx]; [lia|].
        specialize (Hle x (list_elem_of_further _ _ _ Hx)). lia.
      + exists a. split.
        { apply elem_of_cons in Ha as [-> | Ha];
            [apply list_elem_of_here | by do 2 apply list_elem_of_further]. }
        intros x Hx. apply elem_of_cons in Hx as [-> | Hx].
        { apply Hle, list_elem_of_here. }
        apply elem_of_cons in Hx as [-> | Hx]; [lia|].
        by apply Hle, list_elem_of_further. }
  destruct Hmin as (t0 & Hin & Hle). exists t0. split; [done|].
  by apply strictlyEarlier_nil.
Qed.

(** ** Rounding, minimum and division on particular numbers *)

Example Math_round_half_up :
  Math_round (decimal 25 10) = of_Z 3 ∧ Math_round (decimal (-25) 10) = of_Z (-2).
Proof. by vm_compute. Qed.

Example Math_round_below_half :
  Math_round (S754_finite false 9007199254740991 (-54)) = of_Z 0
  ∧ Math_round (decimal (-5) 10) = S754_zero true.
Proof. by vm_compute. Qed.

Example Math_min_NaN :
  Math_min NaN (of_Z 100) = NaN ∧ Math_min Infinity (of_Z 100) = of_Z 100.
Proof. by vm_compute. Qed.

Example zero_over_zero : div (of_Z 0) (of_Z 0) = NaN.
Proof. reflexivity. Qed.

(** A finite non-zero number divided by itself is 1. *)
Lemma div_self s m e : div (S754_finite s m e) (S754_finite s m e) = of_Z 1.
Proof.
  unfold div, SFdiv, SFdiv_core_binary. rewrite xorb_nilpotent.
  rewrite !Z.sub_diag.
  change (Z.min (fexp prec emax 0) 0) with (-53).
  change (0 - -53) with 53. cbv iota beta.
  rewrite Z.shiftl_mul_pow2 by lia.
  pose proof (Z.div_mul (2 ^ 53) (Z.pos m) ltac:(lia)) as Hq.
  pose proof (Z.mod_mul (2 ^ 53) (Z.pos m) ltac:(lia)) as Hr.
  rewrite (Z.mul_comm (Z.pos m)).
  unfold Z.div, Z.modulo in Hq, Hr.
  destruct (Z.div_eucl (2 ^ 53 * Z.pos m) (Z.pos m)) as [q r].
  subst q r.
  assert (Hloc : new_location (Z.pos m) 0 = loc_Exact).
  { unfold new_location. by destruct (Z.even (Z.pos m)). }
  rewrite Hloc. reflexivity.
Qed.

(** ** Finite doubles as real numbers *)

Lemma digits2_pos_size m : digits2_pos m = Pos.size m.
Proof. induction m; simpl; congruence. Qed.

Lemma digits2_upper m : Z.pos m < 2 ^ Z.pos (digits2_pos m).
Proof.
  rewrite digits2_pos_size. pose proof (Pos.size_gt m) as H.
  rewrite <- Pos2Z.inj_pow. lia.
Qed.

Lemma digits2_lower m : 2 ^ (Z.pos (digits2_pos m) - 1) <= Z.pos m.
Proof.
  rewrite digits2_pos_size. pose proof (Pos.size_le m) as H.
  assert (Hle : 2 ^ Z.pos (Pos.size m) <= 2 * Z.pos m).
  { rewrite <- Pos2Z.inj_pow. lia. }
  replace (Z.pos (Pos.size m)) with (Z.pos (Pos.size m) - 1 + 1) in Hle by lia.
  rewrite Z.pow_add_r in Hle by lia. lia.
Qed.

(** A mantissa and exponent form a double when the exponent is the one the
    format assigns to the magnitude and does not overflow. *)
Lemma bounded_spec m e :
  bounded prec emax m e = true ↔
  e = Z.max (Z.pos (digits2_pos m) + e - 53) (-1074) ∧ e <= 971.
Proof.
  unfold bounded, canonical_mantissa, fexp, emin, prec, emax.
  rewrite andb_true_iff, Z.eqb_eq, Z.leb_le. lia.
Qed.

Lemma bounded_exponent m e : bounded prec emax m e = true → -1074 <= e <= 971.
Proof. intros [Hcanon Hmax]%bounded_spec. lia. Qed.

Lemma bounded_digits m e :
  bounded prec emax m e = true →
  Z.pos m < 2 ^ 53 ∧ (-1074 < e → 2 ^ 52 <= Z.pos m).
Proof.
  intros [Hcanon Hmax]%bounded_spec.
  pose proof (Pos2Z.is_pos (digits2_pos m)) as Hd.
  pose proof (digits2_upper m) as Hup. pose proof (digits2_lower m) as Hlow.
  split.
  - eapply Z.lt_le_trans; [exact Hup|]. apply Z.pow_le_mono_r; lia.
  - intros He. replace (Z.pos (digits2_pos m)) with 53 in Hlow by lia. exact Hlow.
Qed.

Lemma pow2_step a b : 0 <= a → a < b → 2 * 2 ^ a <= 2 ^ b.
Proof.
  intros Ha Hab. rewrite <- Z.pow_succ_r by done. apply Z.pow_le_mono_r; lia.
Qed.

(** Among positive doubles the one with the smaller exponent is smaller. *)
Lemma magnitude_lt m1 e1 m2 e2 :
  bounded prec emax m1 e1 = true → bounded prec emax m2 e2 = true →
  e1 < e2 → Z.pos m1 * 2 ^ (e1 + 1074) < Z.pos m2 * 2 ^ (e2 + 1074).
Proof.
  intros H1 H2 Hlt.
  pose proof (bounded_exponent _ _ H1) as He1.
  pose proof (bounded_exponent _ _ H2) as He2.
  destruct (bounded_digits _ _ H1) as [Hup1 _].
  destruct (bounded_digits _ _ H2) as [_ Hlow2]. specialize (Hlow2 ltac:(lia)).
  pose proof (pow2_step (e1 + 1074) (e2 + 1074) ltac:(lia) ltac:(lia)) as Hstep.
  assert (0 < 2 ^ (e1 + 1074)) by (apply Z.pow_pos_nonneg; lia).
  change (2 ^ 53) with 9007199254740992 in Hup1.
  change (2 ^ 52) with 4503599627370496 in Hlow2.
  nia.
Qed.

Lemma magnitude_compare m1 e1 m2 e2 :
  bounded prec emax m1 e1 = true → bounded prec emax m2 e2 = true →
  match e1 ?= e2 with
  | Lt => Lt
  | Gt => Gt
  | Eq => Pos.compare_cont Eq m1 m2
  end = (Z.pos m1 * 2 ^ (e1 + 1074) ?= Z.pos m2 * 2 ^ (e2 + 1074)).
Proof.
  intros H1 H2. destruct (Z.compare_spec e1 e2) as [-> | Hlt | Hgt].
  - pose proof (bounded_exponent _ _ H2) as He.
    symmetry. rewrite <- Zmult_compare_compat_r; [done|].
    apply Z.lt_gt, Z.pow_pos_nonneg; lia.
  - symmetry. apply Z.compare_lt_iff. by apply magnitude_lt.
  - symmetry. apply Z.compare_gt_iff. by apply magnitude_lt.
Qed.

(** The comparison of two finite doubles is the comparison of the reals they
    stand for. *)
Lemma compare_ulps a b :
  finite_valid a = true → finite_valid b = true →
  SFcompare a b = Some (ulps a ?= ulps b).
Proof.
  unfold finite_valid. intros Ha Hb.
  destruct a as [sa|sa| |sa ma ea], b as [sb|sb| |sb mb eb];
    cbn [is_finite andb valid_binary] in Ha, Hb; try discriminate;
    unfold SFcompare, ulps; [done|..].
  - f_equal. pose proof (bounded_exponent _ _ Hb).
    assert (0 < 2 ^ (eb + 1074)) by (apply Z.pow_pos_nonneg; lia).
    destruct sb; symmetry;
      [apply Z.compare_gt_iff | apply Z.compare_lt_iff]; nia.
  - f_equal. pose proof (bounded_exponent _ _ Ha).
    assert (0 < 2 ^ (ea + 1074)) by (apply Z.pow_pos_nonneg; lia).
    destruct sa; symmetry;
      [apply Z.compare_lt_iff | apply Z.compare_gt_iff]; nia.
  - f_equal. pose proof (bounded_exponent _ _ Ha). pose proof (bounded_exponent _ _ Hb).
    assert (0 < 2 ^ (ea + 1074)) by (apply Z.pow_pos_nonneg; lia).
    assert (0 < 2 ^ (eb + 1074)) by (apply Z.pow_pos_nonneg; lia).
    destruct sa, sb.
    + replace (Z.neg ma * 2 ^ (ea + 1074)) with (- (Z.pos ma * 2 ^ (ea + 1074))) by lia.
      replace (Z.neg mb * 2 ^ (eb + 1074)) with (- (Z.pos mb * 2 ^ (eb + 1074))) by lia.
      rewrite Z.compare_opp, (Z.compare_antisym (Z.pos ma * _)).
      rewrite <- magnitude_compare by done.
      by destruct (ea ?= eb).
    + symmetry. apply Z.compare_lt_iff. nia.
    + symmetry. apply Z.compare_gt_iff. nia.
    + by apply magnitude_compare.
Qed.

Lemma ulps_bound x : finite_valid x = true → - 2 ^ 2098 < ulps x < 2 ^ 2098.
Proof.
  unfold finite_valid. intros Hx.
  assert (Hpos : 0 < 2 ^ 2098) by (by apply Z.pow_pos_nonneg).
  destruct x as [s|s| |s m e]; cbn [is_finite andb valid_binary] in Hx;
    try discriminate; unfold ulps; [lia|].
  pose proof (bounded_exponent _ _ Hx) as He.
  destruct (bounded_digits _ _ Hx) as [Hup _].
  assert (Hle : 2 ^ (e + 1074) <= 2 ^ 2045) by (apply Z.pow_le_mono_r; lia).
  assert (Hp : 0 < 2 ^ (e + 1074)) by (apply Z.pow_pos_nonneg; lia).
  assert (Hsplit : 2 ^ 2098 = 2 ^ 53 * 2 ^ 2045) by (by rewrite <- Z.pow_add_r).
  rewrite Hsplit. clear Hsplit Hpos He Hx.
  remember (2 ^ (e + 1074)) as c eqn:Hc. remember (2 ^ 2045) as b eqn:Hb.
  remember (2 ^ 53) as a eqn:Ha. clear Hc Hb Ha.
  destruct s; nia.
Qed.

(** *** Integers and quotients of normal numbers *)

Lemma digits2_unique p k :
  2 ^ (k - 1) <= Z.pos p < 2 ^ k → Z.pos (digits2_pos p) = k.
Proof.
  intros [Hlow Hup].
  pose proof (digits2_upper p) as Hup'. pose proof (digits2_lower p) as Hlow'.
  pose proof (Pos2Z.is_pos (digits2_pos p)) as Hd.
  assert (Hk : 0 < k).
  { destruct (Z.lt_trichotomy k 0) as [Hn | [-> | Hp]]; [|change (2 ^ 0) with 1 in Hup|]; try lia.
    rewrite (Z.pow_neg_r 2 k Hn) in Hup. lia. }
  destruct (Z.lt_trichotomy (Z.pos (digits2_pos p)) k) as [Hlt | [Heq | Hgt]]; [|done|].
  - assert (2 ^ Z.pos (digits2_pos p) <= 2 ^ (k - 1)) by (apply Z.pow_le_mono_r; lia).
    lia.
  - assert (2 ^ k <= 2 ^ (Z.pos (digits2_pos p) - 1)) by (apply Z.pow_le_mono_r; lia).
    lia.
Qed.

Lemma digits2_iter_xO m k :
  Z.pos (digits2_pos (Pos.iter xO m k)) = Z.pos (digits2_pos m) + Z.pos k.
Proof.
  induction k as [|k IH] using Pos.peano_ind.
  - cbn [Pos.iter digits2_pos]. lia.
  - rewrite Pos.iter_succ. cbn [digits2_pos]. rewrite Pos2Z.inj_succ, IH. lia.
Qed.

(** A mantissa of 53 digits with an exponent in range is a double as it is. *)
Lemma binary_round_aux_normal s m e :
  Z.pos (digits2_pos m) = 53 → -1074 <= e <= 971 →
  binary_round_aux prec emax s (Z.pos m) e loc_Exact = S754_finite s m e.
Proof.
  intros Hd He. unfold binary_round_aux, shr_fexp. cbn [Zdigits2 shr_record_of_loc].
  unfold fexp, emin, prec, emax. rewrite Hd.
  replace (Z.max _ _ - _) with 0 by lia.
  cbn [shr shr_m loc_of_shr_record round_nearest_even Zdigits2]. rewrite Hd.
  replace (Z.max _ _ - _) with 0 by lia.
  cbn [shr shr_m]. by rewrite Zle_imp_le_bool by lia.
Qed.

Lemma of_Z_normal c :
  c ≠ 0 → Z.abs c < 2 ^ 53 →
  ∃ m e, of_Z c = S754_finite (c <? 0) m e
         ∧ Z.pos (digits2_pos m) = 53 ∧ -52 <= e <= 0.
Proof.
  intros Hc Hlt.
  assert (Hpos : ∀ s p, Z.pos p < 2 ^ 53 →
    ∃ m e, binary_round prec emax s p 0 = S754_finite s m e
           ∧ Z.pos (digits2_pos m) = 53 ∧ -52 <= e <= 0).
  { intros s p Hp. unfold binary_round, shl_align, fexp, emin, prec, emax.
    pose proof (Pos2Z.is_pos (digits2_pos p)) as Hd.
    pose proof (digits2_lower p) as Hlow.
    assert (Hd53 : Z.pos (digits2_pos p) <= 53).
    { destruct (decide (Z.pos (digits2_pos p) <= 53)) as [|Hn]; [done|].
      assert (2 ^ 53 <= 2 ^ (Z.pos (digits2_pos p) - 1)) by (apply Z.pow_le_mono_r; lia).
      lia. }
    destruct (Z.max (Z.pos (digits2_pos p) + 0 - 53) (3 - 1024 - 53) - 0) as [|k|k] eqn:Hk;
      [|lia|].
    - exists p, 0. rewrite binary_round_aux_normal by lia. split; [done|]. lia.
    - exists (Pos.iter xO p k), (Z.max (Z.pos (digits2_pos p) + 0 - 53) (3 - 1024 - 53)).
      assert (Hdk : Z.pos (digits2_pos (Pos.iter xO p k)) = 53).
      { rewrite digits2_iter_xO. lia. }
      rewrite binary_round_aux_normal by lia. split; [done|]. lia. }
  destruct c as [|p|p]; [done|..]; apply Hpos; lia.
Qed.

Lemma shr_m_record_of_loc m l : shr_m (shr_record_of_loc m l) = m.
Proof. by destruct l as [|[]]. Qed.

Lemma round_nearest_even_bounds m l : m <= round_nearest_even m l <= m + 1.
Proof. destruct l as [|[]]; simpl; try lia. destruct (Z.even m); lia. Qed.

Lemma digits53_bounds m : Z.pos (digits2_pos m) = 53 → 2 ^ 52 <= Z.pos m < 2 ^ 53.
Proof.
  intros Hd. pose proof (digits2_upper m) as Hup. pose proof (digits2_lower m) as Hlow.
  rewrite Hd in Hup, Hlow. by split.
Qed.

Lemma digits2_53 p : 2 ^ 52 <= Z.pos p < 2 ^ 53 → Z.pos (digits2_pos p) = 53.
Proof. intros Hp. by apply digits2_unique. Qed.

Lemma digits2_54 p : 2 ^ 53 <= Z.pos p < 2 ^ 54 → Z.pos (digits2_pos p) = 54.
Proof. intros Hp. by apply digits2_unique. Qed.

(** Renormalising a rounded mantissa: either it still has 53 digits, or it
    is [2^53] and loses its last zero. *)
Lemma normalise_rounded s m e :
  2 ^ 52 <= m <= 2 ^ 53 → -1074 <= e <= 970 →
  ∃ m' e',
    (let '(mrs'', e'') := shr_fexp prec emax m e loc_Exact in
     match shr_m mrs'' with
     | 0 => S754_zero s
     | Z.pos m0 => if e'' <=? emax - prec then S754_finite s m0 e'' else S754_infinity s
     | Z.neg _ => S754_nan
     end) = S754_finite s m' e'
    ∧ bounded prec emax m' e' = true.
Proof.
  intros Hm He. destruct m as [|p|p]; [lia| |lia].
  destruct (decide (Z.pos p < 2 ^ 53)) as [Hlt|Hge].
  - pose proof (digits2_53 p ltac:(lia)) as Hd.
    exists p, e. unfold shr_fexp. cbn [Zdigits2 shr_record_of_loc].
    unfold fexp, emin, prec, emax. rewrite Hd.
    replace (Z.max _ _ - _) with 0 by lia. cbn [shr shr_m].
    rewrite Zle_imp_le_bool by lia. split; [done|].
    apply bounded_spec. lia.
  - assert (p = 9007199254740992%positive) as -> by lia.
    exists 4503599627370496%positive, (e + 1).
    unfold shr_fexp. cbn [Zdigits2 digits2_pos shr_record_of_loc Pos.succ].
    unfold fexp, emin, prec, emax.
    replace (Z.max _ _ - _) with 1 by lia.
    cbn [shr SpecFloat.iter_pos shr_1 shr_m orb].
    rewrite Zle_imp_le_bool by lia. split; [done|].
    apply bounded_spec. cbn [digits2_pos Pos.succ]. lia.
Qed.

Lemma shr_fexp_53_54 q e l :
  2 ^ 52 <= q < 2 ^ 54 → -1074 <= e →
  ∃ mrs' e', shr_fexp prec emax q e l = (mrs', e')
             ∧ 2 ^ 52 <= shr_m mrs' < 2 ^ 53 ∧ e <= e' <= e + 1.
Proof.
  intros Hq He. destruct q as [|p|p]; [lia| |lia].
  unfold shr_fexp. cbn [Zdigits2]. unfold fexp, emin, prec, emax.
  destruct (decide (Z.pos p < 2 ^ 53)) as [Hlt|Hge].
  - pose proof (digits2_53 p ltac:(lia)) as Hd. rewrite Hd.
    replace (Z.max _ _ - _) with 0 by lia. cbn [shr].
    eexists _, _. split; [done|]. rewrite shr_m_record_of_loc. lia.
  - pose proof (digits2_54 p ltac:(lia)) as Hd. rewrite Hd.
    replace (Z.max _ _ - _) with 1 by lia. cbn [shr SpecFloat.iter_pos].
    eexists _, _. split; [done|].
    destruct l as [|[]], p as [p'|p'|]; cbn [shr_record_of_loc shr_1 shr_m]; lia.
Qed.

Lemma binary_round_aux_53_54 s q e l :
  2 ^ 52 <= q < 2 ^ 54 → -1074 <= e <= 969 →
  ∃ m' e', binary_round_aux prec emax s q e l = S754_finite s m' e'
           ∧ bounded prec emax m' e' = true.
Proof.
  intros Hq He. unfold binary_round_aux.
  destruct (shr_fexp_53_54 q e l Hq ltac:(lia)) as (mrs' & e' & -> & Hm & He').
  pose proof (round_nearest_even_bounds (shr_m mrs') (loc_of_shr_record mrs')) as Hr.
  apply normalise_rounded; lia.
Qed.

(** The quotient of two normal numbers of comparable magnitude is a finite
    non-zero number. *)
Lemma div_normal s1 m1 e1 s2 m2 e2 :
  Z.pos (digits2_pos m1) = 53 → Z.pos (digits2_pos m2) = 53 →
  -1021 <= e1 - e2 <= 1022 →
  ∃ m e, div (S754_finite s1 m1 e1) (S754_finite s2 m2 e2)
         = S754_finite (xorb s1 s2) m e
         ∧ bounded prec emax m e = true.
Proof.
  intros Hd1 Hd2 He. pose proof (digits53_bounds m1 Hd1) as H1.
  pose proof (digits53_bounds m2 Hd2) as H2.
  unfold div, SFdiv, SFdiv_core_binary. cbn [Zdigits2]. rewrite Hd1, Hd2.
  unfold fexp, emin, prec, emax. cbv zeta.
  replace (Z.min _ _) with (e1 - e2 - 53) by lia.
  replace (e1 - e2 - (e1 - e2 - 53)) with 53 by lia. cbv iota beta.
  rewrite Z.shiftl_mul_pow2 by lia.
  pose proof (Z.div_le_lower_bound (Z.pos m1 * 2 ^ 53) (Z.pos m2) (2 ^ 52) ltac:(lia)) as Hlow.
  pose proof (Z.div_lt_upper_bound (Z.pos m1 * 2 ^ 53) (Z.pos m2) (2 ^ 54) ltac:(lia)) as Hup.
  unfold Z.div in Hlow, Hup.
  destruct (Z.div_eucl (Z.pos m1 * 2 ^ 53) (Z.pos m2)) as [q r]. cbn [fst] in Hlow, Hup.
  apply binary_round_aux_53_54; [|lia].
  change (2 ^ 53) with 9007199254740992 in *. change (2 ^ 52) with 4503599627370496 in *.
  change (2 ^ 54) with 18014398509481984 in *. split; [apply Hlow | apply Hup]; nia.
Qed.

(** The amount of a transaction, read from its [decimal(12,2)] column, is
    a finite number, and not zero unless the column is. *)
Lemma absAmount_finite_valid (t : Transaction) :
  Z.abs (amount t) < 10 ^ 12 →
  finite_valid (absAmount t) = true
  ∧ (amount t ≠ 0 → ∃ m e, absAmount t = S754_finite false m e).
Proof.
  intros Hrange. unfold absAmount, parseFloat_amount, decimal.
  destruct (decide (amount t = 0)) as [-> | Hne]; [done|].
  assert (Hrange' : Z.abs (amount t) < 2 ^ 53).
  { eapply Z.lt_trans; [exact Hrange | done]. }
  destruct (of_Z_normal (amount t) Hne Hrange') as (m1 & e1 & -> & Hd1 & He1).
  change (of_Z 100) with (S754_finite false 7036874417766400 (-46)).
  destruct (div_normal (amount t <? 0) m1 e1 false 7036874417766400 (-46) Hd1 eq_refl
              ltac:(lia)) as (m & e & -> & Hb).
  split; [exact Hb | by eauto].
Qed.

(** *** Doubling is exact *)

Lemma digits2_shift52 m :
  Z.pos (digits2_pos (Pos.iter xO m 52)) = Z.pos (digits2_pos m) + 52.
Proof. unfold Pos.iter. cbn [digits2_pos]. rewrite !Pos2Z.inj_succ. lia. Qed.

Lemma shr_shift52 m :
  SpecFloat.iter_pos shr_1 52
    {| shr_m := Z.pos (Pos.iter xO m 52); shr_r := false; shr_s := false |}
  = {| shr_m := Z.pos m; shr_r := false; shr_s := false |}.
Proof. reflexivity. Qed.

Lemma shr_shift51 m :
  SpecFloat.iter_pos shr_1 51
    {| shr_m := Z.pos (Pos.iter xO m 52); shr_r := false; shr_s := false |}
  = {| shr_m := Z.pos m~0; shr_r := false; shr_s := false |}.
Proof. reflexivity. Qed.

(** [x * 2] on a finite double: a normal number gets the next exponent, or
    overflows to an infinity; a subnormal number gets twice the mantissa. *)
Lemma mul_2_finite s m e :
  bounded prec emax m e = true →
  mul (S754_finite s m e) (of_Z 2)
  = if bool_decide (Z.pos (digits2_pos m) = 53)
    then (if bool_decide (e + 1 <= 971)
          then S754_finite s m (e + 1) else S754_infinity s)
    else S754_finite s (m~0) e.
Proof.
  intros [Hcanon Hmax]%bounded_spec.
  pose proof (Pos2Z.is_pos (digits2_pos m)) as Hd.
  change (of_Z 2) with (S754_finite false 4503599627370496 (-51)).
  unfold mul, SFmul. rewrite xorb_false_r, Pos.mul_comm.
  change (4503599627370496 * m)%positive with (Pos.iter xO m 52).
  unfold binary_round_aux, shr_fexp.
  cbn [Zdigits2]. rewrite digits2_shift52.
  unfold fexp, emin, prec, emax. cbn [shr_record_of_loc].
  case_bool_decide as Hnormal.
  - replace (Z.max _ _ - _) with 52 by lia.
    cbn [shr]. rewrite shr_shift52.
    cbn [shr_m loc_of_shr_record round_nearest_even Zdigits2].
    replace (Z.max _ _ - _) with 0 by lia.
    cbn [shr shr_m].
    replace (e + -51 + 52) with (e + 1) by lia.
    change (1024 - 53) with 971.
    case_bool_decide;
      [rewrite Zle_imp_le_bool by done | rewrite (proj2 (Z.leb_gt _ _)) by lia];
      done.
  - replace (Z.max _ _ - _) with 51 by lia.
    cbn [shr]. rewrite shr_shift51.
    cbn [shr_m loc_of_shr_record round_nearest_even Zdigits2 digits2_pos].
    rewrite Pos2Z.inj_succ.
    replace (Z.max _ _ - _) with 0 by lia.
    cbn [shr shr_m].
    replace (e + -51 + 51) with e by lia.
    change (1024 - 53) with 971.
    by rewrite Zle_imp_le_bool by done.
Qed.

(** [x * 2] stands for twice the real [x] stands for, unless it overflows. *)
Lemma mul_2_spec x :
  finite_valid x = true →
  (finite_valid (mul x (of_Z 2)) = true ∧ ulps (mul x (of_Z 2)) = 2 * ulps x)
  ∨ (∃ s, mul x (of_Z 2) = S754_infinity s
          ∧ if s then 2 * ulps x <= - 2 ^ 2098 else 2 ^ 2098 <= 2 * ulps x).
Proof.
  unfold finite_valid. intros Hx.
  destruct x as [s|s| |s m e]; cbn [is_finite andb valid_binary] in Hx;
    try discriminate.
  { left. by destruct s. }
  rewrite (mul_2_finite s m e Hx).
  pose proof Hx as [Hcanon Hmax]%bounded_spec.
  pose proof (Pos2Z.is_pos (digits2_pos m)) as Hd.
  case_bool_decide as Hnormal; [case_bool_decide as Hfits|].
  - left. split.
    + cbn [is_finite andb valid_binary]. apply bounded_spec. lia.
    + unfold ulps. replace (e + 1 + 1074) with (Z.succ (e + 1074)) by lia.
      rewrite Z.pow_succ_r by lia. lia.
  - right. exists s. split; [done|].
    assert (e = 971) as -> by lia.
    destruct (bounded_digits _ _ Hx) as [_ Hlow]. specialize (Hlow ltac:(lia)).
    assert (Hsplit : 2 ^ 2098 = 2 * 2 ^ 52 * 2 ^ (971 + 1074)).
    { change (2 * 2 ^ 52) with (2 ^ 53). by rewrite <- Z.pow_add_r. }
    rewrite Hsplit. clear Hsplit. unfold ulps.
    assert (Hp : 0 < 2 ^ (971 + 1074)) by (by apply Z.pow_pos_nonneg).
    remember (2 ^ (971 + 1074)) as b eqn:Hb. remember (2 ^ 52) as a eqn:Ha.
    clear Hb Ha Hx Hcanon. destruct s; nia.
  - left. split.
    + cbn [is_finite andb valid_binary]. apply bounded_spec.
      cbn [digits2_pos]. rewrite Pos2Z.inj_succ. lia.
    + unfold ulps. destruct s; lia.
Qed.

(** The test [amount > average * 2] compares the real amount with twice the
    real average. *)
Lemma gtb_twice amount average :
  finite_valid amount = true → finite_valid average = true →
  gtb amount (mul average (of_Z 2)) = (2 * ulps average <? ulps amount).
Proof.
  intros Hamount Haverage. unfold gtb, SFltb.
  destruct (mul_2_spec average Haverage) as [[Hvalid Hulps] | (s & Hinf & Hbig)].
  - rewrite (compare_ulps _ _ Hvalid Hamount), Hulps. unfold Z.ltb.
    by destruct (_ ?= _).
  - rewrite Hinf. pose proof (ulps_bound amount Hamount) as Hbound.
    unfold finite_valid in Hamount.
    destruct amount as [sa|sa| |sa ma ea]; try discriminate; cbn [SFcompare];
      destruct s; symmetry;
      first [apply Z.ltb_lt; lia | apply Z.ltb_ge; lia].
Qed.

Lemma value_twice_lt amount average :
  (2 * value average < value amount)%Q ↔ 2 * ulps average < ulps amount.
Proof.
  unfold value, Qlt, Qmult. cbn [Qnum Qden]. rewrite Pos.mul_1_l.
  symmetry. apply Z.mul_lt_mono_pos_r. lia.
Qed.

Lemma value_twice_eq amount average :
  (value amount == 2 * value average)%Q ↔ ulps amount = 2 * ulps average.
Proof.
  unfold value, Qeq, Qmult. cbn [Qnum Qden]. rewrite Pos.mul_1_l.
  split; [|by intros ->]. apply Z.mul_reg_r. lia.
Qed.

(** *** Rounding never passes a double *)

Lemma Pos_iter_xO_value m k : Z.pos (Pos.iter xO m k) = Z.pos m * 2 ^ Z.pos k.
Proof.
  induction k as [|k IH] using Pos.peano_ind.
  - cbn [Pos.iter]. lia.
  - rewrite Pos.iter_succ, Pos2Z.inj_xO, IH, Pos2Z.inj_succ, Z.pow_succ_r by lia. lia.
Qed.

(** Shifting right by [n] bits divides by [2^n], and loses nothing when the
    dropped bits are zero. *)
Lemma shr_1_spec mrs :
  0 <= shr_m mrs →
  shr_m (shr_1 mrs) = shr_m mrs / 2
  ∧ (shr_r mrs = false → shr_s mrs = false → (2 | shr_m mrs) →
     shr_r (shr_1 mrs) = false ∧ shr_s (shr_1 mrs) = false).
Proof.
  destruct mrs as [m r s]. cbn [shr_m shr_r shr_s]. intros Hm.
  destruct m as [|[p|p|]|p]; try lia; cbn [shr_1 shr_m shr_r shr_s].
  - split; [done|]. by intros -> ->.
  - split; [apply (Z.div_unique _ _ _ 1); lia|].
    intros -> -> [k Hk]. lia.
  - split; [apply (Z.div_unique _ _ _ 0); lia|]. by intros -> ->.
  - split; [done|]. intros -> -> [k Hk]. lia.
Qed.

Lemma shr_iter_spec n :
  ∀ mrs, 0 <= shr_m mrs →
    shr_m (SpecFloat.iter_pos shr_1 n mrs) = shr_m mrs / 2 ^ Z.pos n
    ∧ (shr_r mrs = false → shr_s mrs = false → (2 ^ Z.pos n | shr_m mrs) →
       shr_r (SpecFloat.iter_pos shr_1 n mrs) = false
       ∧ shr_s (SpecFloat.iter_pos shr_1 n mrs) = false).
Proof.
  assert (Hstep : ∀ (a b : Z) (f g : shr_record → shr_record),
    0 < a → 0 < b →
    (∀ mrs, 0 <= shr_m mrs →
       shr_m (f mrs) = shr_m mrs / a
       ∧ (shr_r mrs = false → shr_s mrs = false → (a | shr_m mrs) →
          shr_r (f mrs) = false ∧ shr_s (f mrs) = false)) →
    (∀ mrs, 0 <= shr_m mrs →
       shr_m (g mrs) = shr_m mrs / b
       ∧ (shr_r mrs = false → shr_s mrs = false → (b | shr_m mrs) →
          shr_r (g mrs) = false ∧ shr_s (g mrs) = false)) →
    ∀ mrs, 0 <= shr_m mrs →
       shr_m (g (f mrs)) = shr_m mrs / (a * b)
       ∧ (shr_r mrs = false → shr_s mrs = false → (a * b | shr_m mrs) →
          shr_r (g (f mrs)) = false ∧ shr_s (g (f mrs)) = false)).
  { intros a b f g Ha Hb Hf Hg mrs Hm.
    destruct (Hf mrs Hm) as [Hfm Hfe].
    assert (Hfpos : 0 <= shr_m (f mrs)) by (rewrite Hfm; by apply Z.div_pos).
    destruct (Hg (f mrs) Hfpos) as [Hgm Hge].
    split; [by rewrite Hgm, Hfm, Z.div_div by lia|].
    intros Hr Hs [k Hk].
    destruct Hfe as [Hr' Hs']; [done | done | exists (k * b); lia |].
    apply Hge; [done | done |]. rewrite Hfm, Hk.
    exists k. replace (k * (a * b)) with (k * b * a) by lia.
    by rewrite Z.div_mul by lia. }
  induction n as [n IH|n IH|]; intros mrs Hm; cbn [SpecFloat.iter_pos].
  - assert (Hp : 0 < 2 ^ Z.pos n) by (apply Z.pow_pos_nonneg; lia).
    change (Z.pos n~1) with (2 * Z.pos n + 1).
    replace (2 ^ (2 * Z.pos n + 1)) with (2 * 2 ^ Z.pos n * 2 ^ Z.pos n)
      by (replace (2 * Z.pos n + 1) with (1 + Z.pos n + Z.pos n) by lia;
          rewrite !Z.pow_add_r by lia; change (2 ^ 1) with 2; lia).
    pose proof (Hstep 2 (2 ^ Z.pos n) shr_1 (SpecFloat.iter_pos shr_1 n)
                  ltac:(lia) Hp shr_1_spec IH) as Hfirst.
    exact (Hstep (2 * 2 ^ Z.pos n) (2 ^ Z.pos n)
             (λ mrs, SpecFloat.iter_pos shr_1 n (shr_1 mrs))
             (SpecFloat.iter_pos shr_1 n) ltac:(lia) Hp Hfirst IH mrs Hm).
  - assert (Hp : 0 < 2 ^ Z.pos n) by (apply Z.pow_pos_nonneg; lia).
    change (Z.pos n~0) with (2 * Z.pos n).
    replace (2 ^ (2 * Z.pos n)) with (2 ^ Z.pos n * 2 ^ Z.pos n)
      by (rewrite <- Z.pow_add_r by lia; f_equal; lia).
    exact (Hstep (2 ^ Z.pos n) (2 ^ Z.pos n) (SpecFloat.iter_pos shr_1 n)
             (SpecFloat.iter_pos shr_1 n) Hp Hp IH IH mrs Hm).
  - change (2 ^ 1) with 2. by apply shr_1_spec.
Qed.

Lemma loc_of_shr_record_of_loc m l : loc_of_shr_record (shr_record_of_loc m l) = l.
Proof. by destruct l as [|[]]. Qed.

Lemma round_nearest_even_exact m l :
  round_nearest_even m l ≠ m → l ≠ loc_Exact.
Proof. by destruct l. Qed.

(** Renormalising a rounded mantissa keeps its value. *)
Lemma normalise_rounded_value s m e :
  2 ^ 52 <= m <= 2 ^ 53 → -1074 <= e <= 971 → (m = 2 ^ 53 → e <= 970) →
  ∃ m' e',
    (let '(mrs'', e'') := shr_fexp prec emax m e loc_Exact in
     match shr_m mrs'' with
     | 0 => S754_zero s
     | Z.pos m0 => if e'' <=? emax - prec then S754_finite s m0 e'' else S754_infinity s
     | Z.neg _ => S754_nan
     end) = S754_finite s m' e'
    ∧ bounded prec emax m' e' = true
    ∧ e <= e'
    ∧ Z.pos m' * 2 ^ (e' + 1074) = m * 2 ^ (e + 1074).
Proof.
  intros Hm He Htop. destruct m as [|p|p]; [lia| |lia].
  destruct (decide (Z.pos p < 2 ^ 53)) as [Hlt|Hge].
  - pose proof (digits2_53 p ltac:(lia)) as Hd.
    exists p, e. unfold shr_fexp. cbn [Zdigits2 shr_record_of_loc].
    unfold fexp, emin, prec, emax. rewrite Hd.
    replace (Z.max _ _ - _) with 0 by lia. cbn [shr shr_m].
    rewrite Zle_imp_le_bool by lia. split; [done|].
    split; [apply bounded_spec; lia|]. split; [lia | done].
  - assert (p = 9007199254740992%positive) as -> by lia.
    specialize (Htop eq_refl).
    exists 4503599627370496%positive, (e + 1).
    unfold shr_fexp. cbn [Zdigits2 digits2_pos shr_record_of_loc Pos.succ].
    unfold fexp, emin, prec, emax.
    replace (Z.max _ _ - _) with 1 by lia.
    cbn [shr SpecFloat.iter_pos shr_1 shr_m orb].
    rewrite Zle_imp_le_bool by lia. split; [done|].
    split; [apply bounded_spec; cbn [digits2_pos Pos.succ]; lia|]. split; [lia|].
    replace (e + 1 + 1074) with (Z.succ (e + 1074)) by lia.
    rewrite Z.pow_succ_r by lia. lia.
Qed.

(** Rounding a mantissa of at least 53 bits: when the number it stands for
    (the mantissa, and a remainder unless the location is exact) does not
    exceed a double, neither does the rounded result. *)
Lemma binary_round_aux_le s q e l mb eb :
  2 ^ 52 <= q → -1074 <= e →
  bounded prec emax mb eb = true →
  q * 2 ^ (e + 1074) <= Z.pos mb * 2 ^ (eb + 1074) →
  (l ≠ loc_Exact → q * 2 ^ (e + 1074) < Z.pos mb * 2 ^ (eb + 1074)) →
  ∃ m' e', binary_round_aux prec emax s q e l = S754_finite s m' e'
           ∧ bounded prec emax m' e' = true
           ∧ e <= e'
           ∧ Z.pos m' * 2 ^ (e' + 1074) <= Z.pos mb * 2 ^ (eb + 1074).
Proof.
  intros Hq He Hb Hle Hstrict. destruct q as [|p|p]; [lia| |lia].
  pose proof (Pos2Z.is_pos (digits2_pos p)) as Hdpos.
  pose proof (digits2_upper p) as Hup. pose proof (digits2_lower p) as Hlow.
  set (d := Z.pos (digits2_pos p)) in *.
  assert (Hd : 53 <= d).
  { destruct (decide (53 <= d)) as [|Hn]; [done|].
    assert (2 ^ d <= 2 ^ 52) by (apply Z.pow_le_mono_r; lia). lia. }
  set (n := d - 53).
  assert (HN : 0 < 2 ^ n) by (apply Z.pow_pos_nonneg; lia).
  assert (HP : 0 < 2 ^ (e + 1074)) by (apply Z.pow_pos_nonneg; lia).
  assert (Hsplit : 2 ^ (e + n + 1074) = 2 ^ n * 2 ^ (e + 1074)).
  { rewrite <- Z.pow_add_r by lia. f_equal. lia. }
  assert (Hshr : ∃ mrs',
    shr_fexp prec emax (Z.pos p) e l = (mrs', e + n)
    ∧ shr_m mrs' = Z.pos p / 2 ^ n
    ∧ (loc_of_shr_record mrs' ≠ loc_Exact → l ≠ loc_Exact ∨ ¬ (2 ^ n | Z.pos p))).
  { unfold shr_fexp. cbn [Zdigits2]. fold d. unfold fexp, emin, prec, emax.
    replace (Z.max (d + e - 53) (3 - 1024 - 53) - e) with n by lia.
    destruct n as [|k|k] eqn:Hn; [| |lia].
    - eexists. cbn [shr]. split; [by rewrite Z.add_0_r|].
      rewrite shr_m_record_of_loc, loc_of_shr_record_of_loc.
      split; [by rewrite Z.div_1_r | by left].
    - eexists. cbn [shr]. split; [done|].
      destruct (shr_iter_spec k (shr_record_of_loc (Z.pos p) l)) as [Hm Hexact].
      { rewrite shr_m_record_of_loc. lia. }
      rewrite shr_m_record_of_loc in Hm, Hexact. split; [done|].
      intros Hloc. destruct l as [|c]; [right | by left].
      intros Hdiv. apply Hloc. destruct (Hexact eq_refl eq_refl Hdiv) as [Hr Hs].
      destruct (SpecFloat.iter_pos _ _ _) as [m' r' s']. cbn in Hr, Hs. by subst. }
  destruct Hshr as (mrs' & Hshr & Hm1 & Hloc).
  unfold binary_round_aux. rewrite Hshr.
  set (m1 := shr_m mrs') in *. set (l1 := loc_of_shr_record mrs') in *.
  assert (Hm1mul : m1 * 2 ^ n <= Z.pos p).
  { rewrite Hm1, Z.mul_comm. apply Z.mul_div_le. lia. }
  assert (Hm1range : 2 ^ 52 <= m1 < 2 ^ 53).
  { rewrite Hm1. split.
    - apply Z.div_le_lower_bound; [lia|].
      replace (2 ^ n * 2 ^ 52) with (2 ^ (d - 1))
        by (rewrite <- Z.pow_add_r by lia; f_equal; lia). done.
    - apply Z.div_lt_upper_bound; [lia|].
      replace (2 ^ n * 2 ^ 53) with (2 ^ d)
        by (rewrite <- Z.pow_add_r by lia; f_equal; lia). done. }
  pose proof (round_nearest_even_bounds m1 l1) as Hround.
  pose proof (round_nearest_even_exact m1 l1) as Hinexact.
  set (r1 := round_nearest_even m1 l1) in *.
  destruct (bounded_digits _ _ Hb) as [Hmb _].
  pose proof (bounded_exponent _ _ Hb) as Heb.
  set (E1 := 2 ^ (e + n + 1074)) in *.
  assert (HE1 : 0 < E1) by (subst E1; apply Z.pow_pos_nonneg; lia).
  set (Bval := Z.pos mb * 2 ^ (eb + 1074)) in *.
  assert (Hfloor : m1 * E1 <= Bval).
  { rewrite Hsplit. etrans; [|exact Hle]. rewrite Z.mul_assoc.
    apply Z.mul_le_mono_nonneg_r; lia. }
  assert (Hr1 : r1 * E1 <= Bval).
  { destruct (decide (r1 = m1)) as [-> | Hne]; [done|].
    assert (r1 = m1 + 1) as -> by lia.
    assert (Hlt : m1 * E1 < Bval).
    { destruct (Hloc (Hinexact Hne)) as [Hl | Hdiv].
      - eapply Z.le_lt_trans; [|exact (Hstrict Hl)]. rewrite Hsplit, Z.mul_assoc.
        apply Z.mul_le_mono_nonneg_r; lia.
      - assert (m1 * 2 ^ n < Z.pos p).
        { destruct (decide (m1 * 2 ^ n = Z.pos p)) as [Heq|]; [|lia].
          exfalso. apply Hdiv. exists m1. lia. }
        eapply Z.lt_le_trans; [|exact Hle]. rewrite Hsplit, Z.mul_assoc.
        apply Z.mul_lt_mono_pos_r; lia. }
    assert (Hexp : e + n <= eb).
    { destruct (decide (e + n <= eb)) as [|Hn]; [done|]. exfalso.
      pose proof (pow2_step (eb + 1074) (e + n + 1074) ltac:(lia) ltac:(lia)) as Hstep.
      fold E1 in Hstep.
      assert (0 < 2 ^ (eb + 1074)) by (apply Z.pow_pos_nonneg; lia).
      subst Bval. change (2 ^ 53) with (2 * 2 ^ 52) in Hmb. nia. }
    assert (HB : Bval = Z.pos mb * 2 ^ (eb - (e + n)) * E1).
    { subst Bval E1. rewrite <- Z.mul_assoc, <- Z.pow_add_r by lia.
      f_equal. f_equal. lia. }
    rewrite HB in Hlt |- *.
    apply Z.mul_le_mono_nonneg_r; [lia|].
    apply Z.mul_lt_mono_pos_r in Hlt; lia. }
  assert (Htop : Bval < 2 ^ 53 * 2 ^ 2045).
  { subst Bval.
    assert (2 ^ (eb + 1074) <= 2 ^ 2045) by (apply Z.pow_le_mono_r; lia).
    assert (0 < 2 ^ (eb + 1074)) by (apply Z.pow_pos_nonneg; lia).
    nia. }
  assert (He1 : e + n <= 971 ∧ (r1 = 2 ^ 53 → e + n <= 970)).
  { split.
    - destruct (decide (e + n <= 971)) as [|Hn]; [done|]. exfalso.
      assert (2 ^ 2046 <= E1) by (subst E1; apply Z.pow_le_mono_r; lia).
      change (2 ^ 2046) with (2 * 2 ^ 2045) in *. change (2 ^ 53) with (2 * 2 ^ 52) in *.
      remember (2 ^ 2045) as big. remember (2 ^ 52) as small. nia.
    - intros Heq. destruct (decide (e + n <= 970)) as [|Hn]; [done|]. exfalso.
      assert (2 ^ 2045 <= E1) by (subst E1; apply Z.pow_le_mono_r; lia).
      rewrite Heq in Hr1.
      remember (2 ^ 2045) as big. remember (2 ^ 53) as small. nia. }
  destruct He1 as [He1 He1'].
  destruct (normalise_rounded_value s r1 (e + n) ltac:(lia) ltac:(lia) He1')
    as (m' & e' & Hresult & Hbounded & Hexp & Hvalue).
  exists m', e'. split; [exact Hresult|]. split; [done|]. split; [lia|].
  rewrite Hvalue. exact Hr1.
Qed.

(** An integer below [2^53] is a double, and stands for itself. *)
Lemma of_Z_value c :
  c ≠ 0 → Z.abs c < 2 ^ 53 →
  ∃ m e, of_Z c = S754_finite (c <? 0) m e
         ∧ Z.pos (digits2_pos m) = 53 ∧ -52 <= e <= 0
         ∧ Z.pos m * 2 ^ (e + 1074) = Z.abs c * 2 ^ 1074.
Proof.
  intros Hc Hlt.
  assert (Hpos : ∀ s p, Z.pos p < 2 ^ 53 →
    ∃ m e, binary_round prec emax s p 0 = S754_finite s m e
           ∧ Z.pos (digits2_pos m) = 53 ∧ -52 <= e <= 0
           ∧ Z.pos m * 2 ^ (e + 1074) = Z.pos p * 2 ^ 1074).
  { intros s p Hp. unfold binary_round, shl_align, fexp, emin, prec, emax.
    pose proof (Pos2Z.is_pos (digits2_pos p)) as Hd.
    pose proof (digits2_lower p) as Hlow.
    assert (Hd53 : Z.pos (digits2_pos p) <= 53).
    { destruct (decide (Z.pos (digits2_pos p) <= 53)) as [|Hn]; [done|].
      assert (2 ^ 53 <= 2 ^ (Z.pos (digits2_pos p) - 1)) by (apply Z.pow_le_mono_r; lia).
      lia. }
    destruct (Z.max (Z.pos (digits2_pos p) + 0 - 53) (3 - 1024 - 53) - 0) as [|k|k] eqn:Hk;
      [|lia|].
    - exists p, 0. rewrite binary_round_aux_normal by lia. split; [done|]. lia.
    - exists (Pos.iter xO p k), (Z.max (Z.pos (digits2_pos p) + 0 - 53) (3 - 1024 - 53)).
      assert (Hdk : Z.pos (digits2_pos (Pos.iter xO p k)) = 53).
      { rewrite digits2_iter_xO. lia. }
      rewrite binary_round_aux_normal by lia. split; [done|].
      split; [done|]. split; [lia|].
      rewrite Pos_iter_xO_value, <- Z.mul_assoc, <- Z.pow_add_r by lia.
      f_equal. f_equal. lia. }
  destruct c as [|p|p]; [done|..]; apply Hpos; lia.
Qed.

Lemma shl_align_fst mx ex ez :
  ez <= ex → Z.pos (shl_align mx ex ez).1 = Z.pos mx * 2 ^ (ex - ez).
Proof.
  intros Hle. unfold shl_align.
  destruct (ez - ex) as [|k|k] eqn:Hk; cbn [fst]; [|lia|].
  - replace (ex - ez) with 0 by lia. lia.
  - rewrite Pos_iter_xO_value. f_equal. f_equal. lia.
Qed.

(** The sum of two amounts that together do not exceed an integer number of
    dollars does not exceed it after rounding either. *)
Lemma add_le x y D :
  amountSized x → amountSized y → 0 <= D < 2 ^ 53 →
  ulps x + ulps y <= D * 2 ^ 1074 →
  amountSized (add x y) ∧ 0 <= ulps (add x y) <= D * 2 ^ 1074.
Proof.
  assert (Hulps : ∀ m e, bounded prec emax m e = true →
    0 < ulps (S754_finite false m e)).
  { intros m e Hb. pose proof (bounded_exponent _ _ Hb). cbn [ulps].
    apply Z.mul_pos_pos; [lia | apply Z.pow_pos_nonneg; lia]. }
  intros [-> | (mx & ex & -> & Hbx & Hex)] [-> | (my & ey & -> & Hby & Hey)] HD Hle.
  - split; [by left | cbn in *; lia].
  - pose proof (Hulps _ _ Hby). split; [right; by eauto | cbn [add SFadd ulps] in *; lia].
  - pose proof (Hulps _ _ Hbx).
    split; [right; by eauto | cbn [add SFadd ulps] in *; lia].
  - pose proof (Hulps _ _ Hbx) as Hpx. pose proof (Hulps _ _ Hby) as Hpy.
    assert (HDpos : D ≠ 0) by (intros ->; lia).
    destruct (of_Z_value D HDpos ltac:(lia)) as (mb & eb & _ & Hdb & Heb & Hvalue).
    assert (Hb : bounded prec emax mb eb = true) by (apply bounded_spec; lia).
    rewrite Z.abs_eq in Hvalue by lia.
    cbn [ulps] in Hle, Hpx, Hpy.
    unfold add, SFadd. cbn [cond_Zopp]. set (ez := Z.min ex ey).
    pose proof (shl_align_fst mx ex ez ltac:(lia)) as Hax.
    pose proof (shl_align_fst my ey ez ltac:(lia)) as Hay.
    destruct (shl_align mx ex ez) as [a ea], (shl_align my ey ez) as [b eb'].
    cbn [fst] in Hax, Hay |- *.
    change (Z.pos a + Z.pos b) with (Z.pos (a + b)). cbn [binary_normalize].
    destruct (bounded_digits _ _ Hbx) as [_ Hnormal]. specialize (Hnormal ltac:(lia)).
    assert (Hpow : 1 <= 2 ^ (ex - ez)).
    { assert (0 < 2 ^ (ex - ez)) by (apply Z.pow_pos_nonneg; lia). lia. }
    assert (Hbig : 2 ^ 52 <= Z.pos (a + b)).
    { rewrite Pos2Z.inj_add, Hax. nia. }
    pose proof (digits2_upper (a + b)) as Hup.
    assert (Hd : 53 <= Z.pos (digits2_pos (a + b))).
    { destruct (decide (53 <= Z.pos (digits2_pos (a + b)))) as [|Hn]; [done|].
      assert (2 ^ Z.pos (digits2_pos (a + b)) <= 2 ^ 52) by (apply Z.pow_le_mono_r; lia).
      lia. }
    assert (Halign :
      shl_align (a + b) ez (fexp prec emax (Z.pos (digits2_pos (a + b)) + ez))
      = ((a + b)%positive, ez)).
    { unfold shl_align, fexp, emin, prec, emax.
      by destruct (Z.max (Z.pos (digits2_pos (a + b)) + ez - 53) (3 - 1024 - 53) - ez)
        as [|k|k] eqn:Hk; [| |lia]. }
    unfold binary_round. rewrite Halign.
    destruct (binary_round_aux_le false (Z.pos (a + b)) ez loc_Exact mb eb)
      as (m' & e' & -> & Hb' & He' & Hvalue'); [done | lia | done | | done |].
    { rewrite Hvalue, Pos2Z.inj_add, Hax, Hay, Z.mul_add_distr_r.
      rewrite <- !Z.mul_assoc, <- !Z.pow_add_r by lia.
      replace (ex - ez + (ez + 1074)) with (ex + 1074) by lia.
      replace (ey - ez + (ez + 1074)) with (ey + 1074) by lia. done. }
    split; [right; exists m', e'; split_and!; [done | done | lia]|].
    cbn [ulps]. pose proof (Hulps _ _ Hb'). cbn [ulps] in *. lia.
Qed.

Lemma new_location_exact nb_steps : new_location nb_steps 0 = loc_Exact.
Proof. unfold new_location. by destruct (Z.even nb_steps). Qed.

(** The quotient of two normal numbers does not exceed an integer that
    their exact quotient does not exceed. *)
Lemma div_le s1 m1 e1 s2 m2 e2 D :
  Z.pos (digits2_pos m1) = 53 → Z.pos (digits2_pos m2) = 53 →
  -1074 <= e1 → -1074 <= e2 → -1021 <= e1 - e2 →
  0 < D < 2 ^ 53 →
  Z.pos m1 * 2 ^ (e1 + 1074) * 2 ^ 1074
  <= D * 2 ^ 1074 * (Z.pos m2 * 2 ^ (e2 + 1074)) →
  ∃ m e, div (S754_finite s1 m1 e1) (S754_finite s2 m2 e2)
         = S754_finite (xorb s1 s2) m e
         ∧ bounded prec emax m e = true
         ∧ e1 - e2 - 53 <= e
         ∧ Z.pos m * 2 ^ (e + 1074) <= D * 2 ^ 1074.
Proof.
  intros Hd1 Hd2 He1 He2 He HD Hle.
  pose proof (digits53_bounds m1 Hd1) as H1.
  pose proof (digits53_bounds m2 Hd2) as H2.
  destruct (of_Z_value D ltac:(lia) ltac:(lia)) as (mb & eb & _ & Hdb & Heb & Hvalue).
  assert (Hb : bounded prec emax mb eb = true) by (apply bounded_spec; lia).
  rewrite Z.abs_eq in Hvalue by lia.
  unfold div, SFdiv, SFdiv_core_binary. cbn [Zdigits2]. rewrite Hd1, Hd2.
  unfold fexp, emin, prec, emax. cbv zeta.
  replace (Z.min _ _) with (e1 - e2 - 53) by lia.
  replace (e1 - e2 - (e1 - e2 - 53)) with 53 by lia. cbv iota beta.
  rewrite Z.shiftl_mul_pow2 by lia.
  pose proof (Z.div_le_lower_bound (Z.pos m1 * 2 ^ 53) (Z.pos m2) (2 ^ 52) ltac:(lia)) as Hlow.
  pose proof (Z.div_lt_upper_bound (Z.pos m1 * 2 ^ 53) (Z.pos m2) (2 ^ 54) ltac:(lia)) as Hup.
  pose proof (Z.div_mod (Z.pos m1 * 2 ^ 53) (Z.pos m2) ltac:(lia)) as Hdivmod.
  pose proof (Z.mod_pos_bound (Z.pos m1 * 2 ^ 53) (Z.pos m2) ltac:(lia)) as Hmod.
  unfold Z.div, Z.modulo in Hlow, Hup, Hdivmod, Hmod.
  destruct (Z.div_eucl (Z.pos m1 * 2 ^ 53) (Z.pos m2)) as [q r].
  cbn [fst snd] in Hlow, Hup, Hdivmod, Hmod.
  assert (Hq : 2 ^ 52 <= q < 2 ^ 54).
  { change (2 ^ 53) with 9007199254740992 in *.
    change (2 ^ 52) with 4503599627370496 in *.
    change (2 ^ 54) with 18014398509481984 in *. split; [apply Hlow | apply Hup]; nia. }
  set (E := 2 ^ (e1 - e2 - 53 + 1074)).
  set (Y := 2 ^ (e2 + 1074)).
  assert (HE : 0 < E) by (subst E; apply Z.pow_pos_nonneg; lia).
  assert (HY : 0 < Y) by (subst Y; apply Z.pow_pos_nonneg; lia).
  assert (Hscale : 2 ^ 53 * E * Y = 2 ^ (e1 + 1074) * 2 ^ 1074).
  { subst E Y. rewrite <- !Z.pow_add_r by lia. f_equal. lia. }
  assert (Hkey : q * Z.pos m2 * (E * Y) + r * (E * Y)
                 = Z.pos m1 * 2 ^ (e1 + 1074) * 2 ^ 1074).
  { transitivity (Z.pos m1 * 2 ^ 53 * (E * Y)); [rewrite Hdivmod; ring|].
    transitivity (Z.pos m1 * (2 ^ 53 * E * Y)); [ring | rewrite Hscale; ring]. }
  assert (Hcancel : ∀ u v, u * (Z.pos m2 * Y) <= v * (Z.pos m2 * Y) → u <= v).
  { intros u v Huv. apply Z.mul_le_mono_pos_r in Huv; [done|]. lia. }
  assert (Hbound : q * E <= D * 2 ^ 1074).
  { apply Hcancel. fold Y in Hle. nia. }
  destruct (binary_round_aux_le (xorb s1 s2) q (e1 - e2 - 53) (new_location (Z.pos m2) r)
              mb eb) as (m' & e' & Hresult & Hb' & He' & Hvalue');
    [lia | lia | done | by rewrite Hvalue | |].
  { intros Hloc. rewrite Hvalue. fold E.
    assert (Hr : r ≠ 0) by (intros ->; by rewrite new_location_exact in Hloc).
    destruct (decide (q * E < D * 2 ^ 1074)) as [|Hn]; [done|]. exfalso.
    assert (Heq : q * E = D * 2 ^ 1074) by lia.
    fold Y in Hle. rewrite <- Heq in Hle. nia. }
  exists m', e'. split; [exact Hresult|]. split; [done|]. split; [lia|].
  by rewrite <- Hvalue.
Qed.

(** The amount of a transaction does not exceed its number of dollars,
    rounded up. *)
Lemma absAmount_le (t : Transaction) :
  Z.abs (amount t) < 10 ^ 12 →
  amountSized (absAmount t)
  ∧ 0 <= ulps (absAmount t) <= (Z.abs (amount t) + 99) / 100 * 2 ^ 1074.
Proof.
  intros Hrange. unfold absAmount, parseFloat_amount, decimal.
  destruct (decide (amount t = 0)) as [-> | Hne].
  { split; [by left | done]. }
  assert (Hrange' : Z.abs (amount t) < 2 ^ 53).
  { eapply Z.lt_trans; [exact Hrange | done]. }
  destruct (of_Z_value (amount t) Hne Hrange') as (m1 & e1 & -> & Hd1 & He1 & Hvalue).
  change (of_Z 100) with (S754_finite false 7036874417766400 (-46)).
  set (D := (Z.abs (amount t) + 99) / 100).
  assert (HD : 1 <= D ∧ Z.abs (amount t) <= 100 * D ∧ D < 10 ^ 12).
  { subst D. pose proof (Z.div_mod (Z.abs (amount t) + 99) 100 ltac:(lia)).
    pose proof (Z.mod_pos_bound (Z.abs (amount t) + 99) 100 ltac:(lia)).
    split_and!; [apply Z.div_le_lower_bound; lia | lia |
                 apply Z.div_lt_upper_bound; lia]. }
  destruct HD as (HD1 & HD100 & HDmax).
  destruct (div_le (amount t <? 0) m1 e1 false 7036874417766400 (-46) D Hd1 eq_refl
              ltac:(lia) ltac:(lia) ltac:(lia))
    as (m & e & -> & Hb & He & Hle).
  { split; [lia|]. eapply Z.lt_trans; [exact HDmax | done]. }
  { rewrite Hvalue.
    change (7036874417766400 * 2 ^ (-46 + 1074)) with (100 * 2 ^ 1074).
    assert (0 < 2 ^ 1074) by done. nia. }
  cbn [Math_abs SFabs]. split; [right; exists m, e; split_and!; [done | done | lia]|].
  cbn [ulps]. pose proof (bounded_exponent _ _ Hb).
  assert (0 < 2 ^ (e + 1074)) by (apply Z.pow_pos_nonneg; lia). lia.
Qed.

Lemma dollarsRoundedUp_bounds (xs : list Transaction) :
  0 <= dollarsRoundedUp xs
  ∧ 100 * dollarsRoundedUp xs <= centsSpent xs + 99 * Z.of_nat (length xs).
Proof.
  induction xs as [|t xs IH]; [done|].
  unfold dollarsRoundedUp, centsSpent in *. cbn [map foldr length].
  pose proof (Z.div_mod (Z.abs (amount t) + 99) 100 ltac:(lia)).
  pose proof (Z.mod_pos_bound (Z.abs (amount t) + 99) 100 ltac:(lia)).
  assert (0 <= (Z.abs (amount t) + 99) / 100) by (apply Z.div_pos; lia).
  lia.
Qed.

Lemma centsSpent_bounds (xs : list Transaction) :
  0 <= centsSpent xs ∧ Forall (λ t, Z.abs (amount t) <= centsSpent xs) xs.
Proof.
  induction xs as [|t xs [IH0 IH]]; [by split|].
  unfold centsSpent in *. cbn [map foldr]. split; [lia|].
  constructor; [lia|]. eapply Forall_impl; [exact IH|]. intros u Hu. cbv beta in Hu. lia.
Qed.

(** The running sum of the amounts does not exceed the dollars counted so
    far. *)
Lemma sumAbsAmounts_le (xs : list Transaction) :
  ∀ (acc : number) (D0 : Z),
  amountSized acc → 0 <= ulps acc <= D0 * 2 ^ 1074 →
  Forall (λ t, Z.abs (amount t) < 10 ^ 12) xs →
  D0 + dollarsRoundedUp xs < 2 ^ 53 →
  let total := foldl (λ sum t, add sum (absAmount t)) acc xs in
  amountSized total ∧ 0 <= ulps total <= (D0 + dollarsRoundedUp xs) * 2 ^ 1074.
Proof.
  induction xs as [|t xs IH]; intros acc D0 Hacc Hulps Hrange HD; cbv zeta.
  - cbn. unfold dollarsRoundedUp. cbn. by rewrite Z.add_0_r.
  - apply Forall_cons in Hrange as [Ht Hrange].
    destruct (absAmount_le t Ht) as [Hsized Hle].
    destruct (dollarsRoundedUp_bounds xs) as [Hrest _].
    assert (Hd : 0 <= (Z.abs (amount t) + 99) / 100) by (apply Z.div_pos; lia).
    assert (Hcons : dollarsRoundedUp (t :: xs)
                    = (Z.abs (amount t) + 99) / 100 + dollarsRoundedUp xs) by done.
    rewrite Hcons in HD |- *.
    assert (HD0 : 0 <= D0).
    { assert (0 < 2 ^ 1074) by done. nia. }
    destruct (add_le acc (absAmount t) (D0 + (Z.abs (amount t) + 99) / 100))
      as [Hsized' Hle']; [done | done | lia | lia |].
    cbn [foldl].
    pose proof (IH (add acc (absAmount t)) (D0 + (Z.abs (amount t) + 99) / 100)
                  Hsized' Hle' Hrange ltac:(lia)) as Hrec.
    cbv zeta in Hrec. by rewrite <- Z.add_assoc in Hrec.
Qed.

(** The mean a profile stores does not exceed an integer that the average
    of the amounts, each rounded up to a dollar, does not exceed. *)
Lemma averageAmount_le (xs : list Transaction) (Dm : Z) :
  xs ≠ [] →
  Forall (λ t, Z.abs (amount t) < 10 ^ 12) xs →
  0 < Dm → Z.of_nat (length xs) * Dm < 2 ^ 53 →
  dollarsRoundedUp xs <= Z.of_nat (length xs) * Dm →
  let mean := div (sumAbsAmounts xs) (length_number xs) in
  finite_valid mean = true ∧ 0 <= ulps mean <= Dm * 2 ^ 1074.
Proof.
  intros Hne Hrange HDm Hmax Hle mean. subst mean.
  assert (Hn : 0 < Z.of_nat (length xs)) by (destruct xs; [done | simpl; lia]).
  assert (HDmax : 0 < Dm < 2 ^ 53).
  { split; [done|]. eapply Z.le_lt_trans; [|exact Hmax]. nia. }
  assert (Hsum : amountSized (sumAbsAmounts xs)
                 ∧ 0 <= ulps (sumAbsAmounts xs) <= dollarsRoundedUp xs * 2 ^ 1074).
  { pose proof (sumAbsAmounts_le xs (of_Z 0) 0 ltac:(by left) ltac:(done) Hrange
                  ltac:(nia)) as Hsum.
    cbv zeta in Hsum. by rewrite Z.add_0_l in Hsum. }
  destruct Hsum as [Hsized Hulps]. unfold length_number.
  destruct (of_Z_value (Z.of_nat (length xs)) ltac:(lia) ltac:(nia))
    as (m2 & e2 & -> & Hd2 & He2 & Hvalue).
  replace (Z.of_nat (length xs) <? 0) with false by (symmetry; apply Z.ltb_ge; lia).
  rewrite Z.abs_eq in Hvalue by lia.
  destruct Hsized as [Hs | (m1 & e1 & Hs & Hb & He1)]; rewrite Hs in Hulps |- *.
  { split; [done|]. change (0 <= 0 <= Dm * 2 ^ 1074).
    assert (0 < 2 ^ 1074) by done. nia. }
  destruct (bounded_digits _ _ Hb) as [Hup Hlow]. specialize (Hlow ltac:(lia)).
  pose proof (digits2_53 m1 ltac:(lia)) as Hd1.
  cbn [ulps] in Hulps.
  destruct (div_le false m1 e1 false m2 e2 Dm Hd1 Hd2 ltac:(lia) ltac:(lia) ltac:(lia))
    as (m & e & -> & Hb' & He & Hle'); [done | |].
  { rewrite Hvalue. assert (HW : 0 < 2 ^ 1074) by done.
    transitivity (dollarsRoundedUp xs * 2 ^ 1074 * 2 ^ 1074);
      [apply Z.mul_le_mono_nonneg_r; lia|].
    replace (Dm * 2 ^ 1074 * (Z.of_nat (length xs) * 2 ^ 1074))
      with (Z.of_nat (length xs) * Dm * 2 ^ 1074 * 2 ^ 1074) by ring.
    apply Z.mul_le_mono_nonneg_r; [lia|]. apply Z.mul_le_mono_nonneg_r; lia. }
  cbn [xorb]. split; [exact Hb'|]. cbn [ulps].
  pose proof (bounded_exponent _ _ Hb').
  assert (0 < 2 ^ (e + 1074)) by (apply Z.pow_pos_nonneg; lia). lia.
Qed.

(** ** Integer-valued scores *)

(** Membership in a range of integers, as membership in a finite list. *)
Lemma integer_in_list lo hi x :
  integer_in lo hi x ↔ x ∈ map of_Z (seqZ lo (hi - lo + 1)).
Proof.
  unfold integer_in. split.
  - intros (k & Hk & ->). apply list_elem_of_fmap. exists k. split; [done|].
    apply elem_of_seqZ. lia.
  - intros (k & -> & Hk)%list_elem_of_fmap. exists k. split; [|done].
    apply elem_of_seqZ in Hk. lia.
Qed.

Lemma NaN_not_integer_in_0_100 : ¬ integer_in 0 100 NaN.
Proof.
  rewrite integer_in_list. apply (bool_decide_unpack _). vm_compute. exact I.
Qed.

Section Properties.
Context `{B : Backend}.

(** ** The anomaly detector *)

Lemma neverTrained_model self : neverTrained self → AnomalyDetector.model self = None.
Proof.
  induction 1 as [|self txs e self' _ IH Htrain]; [done|].
  unfold AnomalyDetector.train in Htrain.
  destruct (map Object_values _); by inversion Htrain; subst.
Qed.

Lemma neverTrainedIsolation_model self :
  neverTrainedIsolation self → IsolationAnomalyDetector.model self = None.
Proof.
  induction 1 as [|self txs e self' _ IH Htrain]; [done|].
  unfold IsolationAnomalyDetector.train in Htrain. by injection Htrain as _ <-.
Qed.

(** Whatever the fitted model is, training on a non-empty list stores a NaN
    threshold: the earliest transaction has no history, so its frequency
    features are [0/0] and the training loss is NaN. *)
Lemma train_threshold_NaN self (t : Transaction) (ts : list Transaction) :
  ∃ m, AnomalyDetector.train self (t :: ts)
       = (Return (), {| AnomalyDetector.model := Some m;
                        AnomalyDetector.threshold := NaN |}).
Proof.
  unfold AnomalyDetector.train.
  set (features := map _ (t :: ts)).
  set (featureMatrix := map Object_values features).
  assert (Hnan : S754_nan ∈ concat (tensor2d featureMatrix)).
  { destruct (earliest_exists t ts) as (t0 & Hin & Hearly).
    apply (tensor2d_NaN _ (Object_values (extractTransactionFeatures t0 []))).
    - subst featureMatrix features. apply list_elem_of_fmap. eexists. split; [done|].
      apply list_elem_of_fmap. exists t0. by rewrite Hearly.
    - apply Object_values_no_history. }
  destruct featureMatrix as [|row rows] eqn:Hrows; [done|].
  eexists. cbv zeta. rewrite meanSquaredError_NaN by done. done.
Qed.

Lemma detectAnomaly_threshold_NaN self m tx hist :
  AnomalyDetector.model self = Some m →
  AnomalyDetector.threshold self = NaN →
  ∃ r, AnomalyDetector.detectAnomaly self tx hist = Return r
       ∧ AnomalyDetector.score r = NaN ∧ AnomalyDetector.isAnomaly r = false.
Proof.
  intros Hm Hthr. unfold AnomalyDetector.detectAnomaly. rewrite Hm, Hthr.
  eexists. split; [done|]. simpl. by rewrite div_NaN_r.
Qed.

Lemma detectAnomaly_no_history self m tx :
  AnomalyDetector.model self = Some m →
  ∃ r, AnomalyDetector.detectAnomaly self tx [] = Return r
       ∧ AnomalyDetector.score r = NaN ∧ AnomalyDetector.isAnomaly r = false.
Proof.
  intros Hm. unfold AnomalyDetector.detectAnomaly. rewrite Hm.
  eexists. split; [done|]. cbv zeta. cbn [AnomalyDetector.score AnomalyDetector.isAnomaly].
  rewrite meanSquaredError_NaN; [done|].
  eapply tensor2d_NaN; [apply list_elem_of_here | apply Object_values_no_history].
Qed.

(** A detector the code has built has no model or a NaN threshold. *)
Lemma builtByTrain_NaN self :
  builtByTrain self →
  AnomalyDetector.model self = None ∨ AnomalyDetector.threshold self = NaN.
Proof.
  induction 1 as [|self [|t ts] _ IH]; [by left | done |].
  destruct (train_threshold_NaN self t ts) as [m ->]. by right.
Qed.

(** The classifier step: the answer of the classifier asked, unless the
    training of a new classifier throws first. *)
Lemma classify_cases (self : FraudDetectionService.t) tx uid hist :
  let trained :=
    RandomForestClassifier.train (RandomForestClassifier.new uid) hist
      (map isFlagged hist) in
  let step :=
    FraudDetectionService.classify (FraudDetectionService.userClassifiers self)
      tx uid hist in
  match FraudDetectionService.userClassifiers self !! uid, trained.1 with
  | None, Throw e =>
      step = (Throw e, FraudDetectionService.userClassifiers self)
  | None, Return _ =>
      step = (RandomForestClassifier.predict (classifierAsked self uid hist) tx hist,
              <[uid := trained.2]> (FraudDetectionService.userClassifiers self))
  | Some _, _ =>
      step = (RandomForestClassifier.predict (classifierAsked self uid hist) tx hist,
              FraudDetectionService.userClassifiers self)
  end.
Proof.
  intros trained step. subst trained step.
  unfold FraudDetectionService.classify, classifierAsked.
  destruct (FraudDetectionService.userClassifiers self !! uid) as [classifier|]; [done|].
  by destruct (RandomForestClassifier.train _ _ _) as [[[]|e] classifier].
Qed.

Lemma predict_0_or_100 classifier transaction historicalTransactions c :
  RandomForestClassifier.predict classifier transaction historicalTransactions = Return c →
  ∃ fraud : bool, c = if fraud then of_Z 100 else of_Z 0.
Proof.
  unfold RandomForestClassifier.predict.
  destruct (RandomForestClassifier.model classifier) as [m|].
  - destruct (rf_predict m transaction historicalTransactions) as [fraud|e]; [|done].
    intros [= <-]. by exists fraud.
  - intros [= <-]. by exists false.
Qed.

End Properties.

Section Claims.
Context `{B : Backend}.

(** ** The behavioral score as a sum of penalties *)

Lemma behavioral_score_sum
    (profiler : BehavioralProfiler.t) (userId : Z)
    (profile : BehavioralProfiler.Profile) (transaction : Transaction) :
  BehavioralProfiler.userProfiles profiler !! userId = Some profile →
  let unusualAmount :=
    gtb (absAmount transaction)
        (mul (BehavioralProfiler.averageAmount profile) (of_Z 2)) in
  let riskScore :=
    familiarityPenalty profile transaction + (if unusualAmount then 25 else 0) in
  BehavioralProfiler.analyzeTransaction profiler userId transaction = of_Z riskScore
  ∧ Math_min (of_Z riskScore) (of_Z 100) = of_Z riskScore
  ∧ riskScore ∈ penaltySums
  ∧ leb (of_Z riskScore) (of_Z 70) = true
  ∧ of_Z riskScore ≠ of_Z 100.
Proof.
  intros Hprofile unusualAmount riskScore. subst riskScore unusualAmount.
  unfold BehavioralProfiler.analyzeTransaction, familiarityPenalty.
  rewrite Hprofile. cbv zeta.
  destruct (bool_decide (getHours _ ∉ _)), (bool_decide (merchant _ ∉ _)),
    (bool_decide (category _ ∉ _)), (gtb _ _);
    (split_and!; [by vm_compute | by vm_compute | | by vm_compute | by vm_compute]);
    apply (bool_decide_unpack _); by vm_compute.
Qed.

Lemma behavioral_score_in_penaltySums (profiler : BehavioralProfiler.t) userId transaction :
  ∃ b, b ∈ penaltySums
       ∧ BehavioralProfiler.analyzeTransaction profiler userId transaction = of_Z b.
Proof.
  destruct (BehavioralProfiler.userProfiles profiler !! userId) as [profile|] eqn:Hp.
  - destruct (behavioral_score_sum profiler userId profile transaction Hp)
      as (Hscore & _ & Hin & _).
    eexists. split; [exact Hin | exact Hscore].
  - exists 0. split; [apply list_elem_of_here|].
    unfold BehavioralProfiler.analyzeTransaction. by rewrite Hp.
Qed.

(** ** Score fusion *)

Lemma fuse_combined a b c :
  Math_round (add (add (mul a (decimal 4 10)) (mul b (decimal 3 10)))
                  (mul c (decimal 3 10)))
  = fuse a b c.
Proof.
  unfold fuse.
  by rewrite (mul_comm a), (mul_comm b), (mul_comm c).
Qed.

Lemma fuse_NaN b c : fuse NaN b c = NaN.
Proof. reflexivity. Qed.

(** What an assessment is made of, and what a throw comes from. *)
Lemma analyzeTransaction_inv
    (self : FraudDetectionService.t) (transaction : Transaction) (userId : Z)
    (historicalTransactions : list Transaction) :
  match FraudDetectionService.analyzeTransaction self transaction userId
          historicalTransactions with
  | (Return r, _) =>
      (∃ anomalyResult,
          AnomalyDetector.detectAnomaly (FraudDetectionService.anomalyDetector self)
            transaction historicalTransactions = Return anomalyResult
          ∧ FraudDetectionService.anomalyScore r = AnomalyDetector.score anomalyResult)
      ∧ FraudDetectionService.behavioralScore r
        = BehavioralProfiler.analyzeTransaction
            (FraudDetectionService.behavioralProfiler self) userId transaction
      ∧ RandomForestClassifier.predict
          (classifierAsked self userId historicalTransactions)
          transaction historicalTransactions
        = Return (FraudDetectionService.classifierScore r)
      ∧ FraudDetectionService.suspiciousScore r
        = fuse (FraudDetectionService.anomalyScore r)
               (FraudDetectionService.behavioralScore r)
               (FraudDetectionService.classifierScore r)
      ∧ FraudDetectionService.isAnomaly r
        = gtb (FraudDetectionService.suspiciousScore r) (of_Z 70)
  | (Throw e, _) => thrownBy self transaction userId historicalTransactions e
  end.
Proof.
  pose proof (classify_cases self transaction userId historicalTransactions) as Hstep.
  cbv zeta in Hstep.
  unfold FraudDetectionService.analyzeTransaction, AnomalyDetector.detectAnomaly, thrownBy.
  destruct (AnomalyDetector.model _) as [m|]; [|by left].
  destruct (FraudDetectionService.userClassifiers self !! userId) as [classifier|] eqn:Hc.
  - rewrite Hstep.
    destruct (RandomForestClassifier.predict _ _ _) as [c|e]; [|by right; right].
    cbv beta zeta iota. cbn [FraudDetectionService.suspiciousScore].
    rewrite fuse_combined. eauto 10.
  - destruct (RandomForestClassifier.train _ _ _).1 as [[]|e] eqn:Htrain.
    + rewrite Hstep.
      destruct (RandomForestClassifier.predict _ _ _) as [c|e]; [|by right; right].
      cbv beta zeta iota. cbn [FraudDetectionService.suspiciousScore].
      rewrite fuse_combined. eauto 10.
    + rewrite Hstep. right; left. by split.
Qed.

(** The fused score for a behavioral score of 70, for every integer anomaly
    score of [0,100] and both classifier scores. *)
Lemma fuse_behavioral_70 (k : Z) (fraud : bool) :
  0 <= k <= 100 →
  gtb (fuse (of_Z k) (of_Z 70) (if fraud then of_Z 100 else of_Z 0)) (of_Z 70)
  = fraud && (49 <=? k)
  ∧ (fraud = false →
     leb (fuse (of_Z k) (of_Z 70) (of_Z 0)) (of_Z 61) = true).
Proof.
  intros Hk.
  assert (Htable :
    Forall (λ k, gtb (fuse (of_Z k) (of_Z 70) (of_Z 100)) (of_Z 70) = (49 <=? k)
                 ∧ gtb (fuse (of_Z k) (of_Z 70) (of_Z 0)) (of_Z 70) = false
                 ∧ leb (fuse (of_Z k) (of_Z 70) (of_Z 0)) (of_Z 61) = true)
           (seqZ 0 101)).
  { apply (bool_decide_unpack _). by vm_compute. }
  rewrite Forall_forall in Htable.
  destruct (Htable k) as (H100 & H0 & H61); [apply elem_of_seqZ; lia|].
  by destruct fraud.
Qed.

(** On the scores the components can give, floating-point fusion agrees with
    exact arithmetic. (It does not on all integers: 0.4*1 + 0.3*57 rounds
    to 17, and 17.5 to 18.) *)
Lemma fuse_exact_on_component_scores (a b : Z) (fraud : bool) :
  0 <= a <= 100 → b ∈ penaltySums →
  let c := if fraud then 100 else 0 in
  fuse (of_Z a) (of_Z b) (of_Z c) = of_Z (fuse_exact a b c)
  ∧ 0 <= fuse_exact a b c <= 100.
Proof.
  intros Ha Hb c. subst c.
  assert (Htable :
    Forall (λ a, Forall (λ b, Forall (λ c,
      fuse (of_Z a) (of_Z b) (of_Z c) = of_Z (fuse_exact a b c)
      ∧ 0 <= fuse_exact a b c <= 100) [0; 100]) penaltySums) (seqZ 0 101)).
  { apply (bool_decide_unpack _). by vm_compute. }
  rewrite Forall_forall in Htable. specialize (Htable a ltac:(apply elem_of_seqZ; lia)).
  rewrite Forall_forall in Htable. specialize (Htable b Hb).
  rewrite Forall_forall in Htable. apply Htable.
  destruct fraud; [apply list_elem_of_further|]; apply list_elem_of_here.
Qed.

Example fuse_inexact :
  fuse (of_Z 1) (of_Z 57) (of_Z 0) = of_Z 17 ∧ fuse_exact 1 57 0 = 18.
Proof. by vm_compute. Qed.

(** When the anomaly score is an integer of [0,100], the suspicion score is
    the exactly rounded weighted sum, again an integer of [0,100]. *)
Lemma suspiciousScore_exact
    (self : FraudDetectionService.t) (transaction : Transaction) (userId : Z)
    (historicalTransactions : list Transaction)
    (r : FraudDetectionService.Assessment) (self' : FraudDetectionService.t) :
  FraudDetectionService.analyzeTransaction self transaction userId historicalTransactions
  = (Return r, self') →
  integer_in 0 100 (FraudDetectionService.anomalyScore r) →
  ∃ a b c,
    FraudDetectionService.anomalyScore r = of_Z a
    ∧ FraudDetectionService.behavioralScore r = of_Z b
    ∧ FraudDetectionService.classifierScore r = of_Z c
    ∧ FraudDetectionService.suspiciousScore r = of_Z (fuse_exact a b c)
    ∧ integer_in 0 100 (FraudDetectionService.suspiciousScore r).
Proof.
  intros Hrun (a & Ha & Hanomaly).
  pose proof (analyzeTransaction_inv self transaction userId historicalTransactions)
    as Hinv.
  rewrite Hrun in Hinv. destruct Hinv as (_ & Hb & Hc & Hs & _).
  destruct (behavioral_score_in_penaltySums
              (FraudDetectionService.behavioralProfiler self) userId transaction)
    as (b & Hin & Hbehavioral).
  destruct (predict_0_or_100 _ _ _ _ Hc) as [fraud Hfraud].
  destruct (fuse_exact_on_component_scores a b fraud Ha Hin) as [Hfuse Hrange].
  exists a, b, (if fraud then 100 else 0).
  assert (Hclassifier :
    FraudDetectionService.classifierScore r = of_Z (if fraud then 100 else 0)).
  { rewrite Hfraud. by destruct fraud. }
  assert (Hscore :
    FraudDetectionService.suspiciousScore r
    = of_Z (fuse_exact a b (if fraud then 100 else 0))).
  { by rewrite Hs, Hanomaly, Hb, Hbehavioral, Hclassifier, Hfuse. }
  split_and!; [done | by rewrite Hb | done | done |].
  rewrite Hscore. by eexists.
Qed.

(** C1. An assessment of [FraudDetectionService.analyzeTransaction]
    carries the three component scores computed by the detector, the
    profiler and the holder's classifier (trained on the spot when absent);
    its suspicion score is [round(0.4*anomalyScore + 0.3*behavioralScore +
    0.3*classifierScore)] and [isAnomaly] is [suspiciousScore > 70].  The
    call throws when the detector has no model, when the training of a new
    classifier throws, or when the classifier's forest throws.  The rounding
    is to the nearest integer, halves up: on every integer anomaly score of
    [0,100], every sum of behavioral penalties and both classifier scores
    the fused score is [⌊(4a + 3b + 3c + 5) / 10⌋].  For component scores
    80, 60, 40 the fused score is 62, not above 70; for 95, 90, 90 it is 92,
    above 70; 81, 60, 40 (62.4) gives 62 and 84, 60, 40 (63.6) gives 64;
    0, 15, 0 (4.5) gives 5; 100, 70, 100 gives 91; a fused score of exactly
    70 is not above 70. *)
Theorem analyzeTransaction_fuses_scores
    (self : FraudDetectionService.t) (transaction : Transaction) (userId : Z)
    (historicalTransactions : list Transaction) :
  match FraudDetectionService.analyzeTransaction self transaction userId
          historicalTransactions with
  | (Return r, _) =>
      (∃ anomalyResult,
          AnomalyDetector.detectAnomaly (FraudDetectionService.anomalyDetector self)
            transaction historicalTransactions = Return anomalyResult
          ∧ FraudDetectionService.anomalyScore r = AnomalyDetector.score anomalyResult)
      ∧ FraudDetectionService.behavioralScore r
        = BehavioralProfiler.analyzeTransaction
            (FraudDetectionService.behavioralProfiler self) userId transaction
      ∧ RandomForestClassifier.predict
          (classifierAsked self userId historicalTransactions)
          transaction historicalTransactions
        = Return (FraudDetectionService.classifierScore r)
      ∧ FraudDetectionService.suspiciousScore r
        = Math_round
            (add (add (mul (decimal 4 10) (FraudDetectionService.anomalyScore r))
                      (mul (decimal 3 10) (FraudDetectionService.behavioralScore r)))
                 (mul (decimal 3 10) (FraudDetectionService.classifierScore r)))
      ∧ FraudDetectionService.isAnomaly r
        = gtb (FraudDetectionService.suspiciousScore r) (of_Z 70)
  | (Throw e, _) => thrownBy self transaction userId historicalTransactions e
  end
  ∧ (∀ (a b : Z) (fraud : bool),
       0 <= a <= 100 → b ∈ penaltySums →
       fuse (of_Z a) (of_Z b) (of_Z (if fraud then 100 else 0))
       = of_Z ((4 * a + 3 * b + 3 * (if fraud then 100 else 0) + 5) / 10))
  ∧ fuse (of_Z 80) (of_Z 60) (of_Z 40) = of_Z 62
  ∧ gtb (of_Z 62) (of_Z 70) = false
  ∧ fuse (of_Z 95) (of_Z 90) (of_Z 90) = of_Z 92
  ∧ gtb (of_Z 92) (of_Z 70) = true
  ∧ fuse (of_Z 81) (of_Z 60) (of_Z 40) = of_Z 62
  ∧ fuse (of_Z 84) (of_Z 60) (of_Z 40) = of_Z 64
  ∧ fuse (of_Z 0) (of_Z 15) (of_Z 0) = of_Z 5
  ∧ fuse (of_Z 100) (of_Z 70) (of_Z 100) = of_Z 91
  ∧ fuse (of_Z 100) (of_Z 0) (of_Z 100) = of_Z 70
  ∧ gtb (of_Z 70) (of_Z 70) = false
  ∧ gtb (of_Z 71) (of_Z 70) = true.
Proof.
  split; [|split; [|by vm_compute]].
  - pose proof (analyzeTransaction_inv self transaction userId historicalTransactions)
      as Hinv.
    destruct (FraudDetectionService.analyzeTransaction _ _ _ _) as [[r|e] self']; [|done].
    destruct Hinv as (Ha & Hb & Hc & Hs & Hi). by split_and!.
  - intros a b fraud Ha Hb.
    by destruct (fuse_exact_on_component_scores a b fraud Ha Hb) as [-> _].
Qed.

(** C2. The scores are not always integers of [0,100]. [train] succeeds on
    any non-empty list, and whatever model was fitted the stored threshold is
    NaN, so that every later [detectAnomaly] returns the score NaN; a
    detector with any model and any threshold returns the score NaN for a
    transaction with no history; and every assessment the service makes with
    the trained detector has the suspicion score NaN (the call throws only
    from the classifier step), one being made for every holder without a
    classifier and with no history. *)
Theorem trained_detector_scores_NaN
    (t : Transaction) (ts : list Transaction)
    (self : FraudDetectionService.t) (userId : Z)
    (transaction : Transaction) (historicalTransactions : list Transaction)
    (anyModel : LayersModel) (anyThreshold : number) :
  let attempt := AnomalyDetector.train AnomalyDetector.new (t :: ts) in
  let service :=
    {| FraudDetectionService.anomalyDetector := attempt.2;
       FraudDetectionService.behavioralProfiler :=
         FraudDetectionService.behavioralProfiler self;
       FraudDetectionService.userClassifiers :=
         FraudDetectionService.userClassifiers self |} in
  attempt.1 = Return ()
  ∧ (∃ r, AnomalyDetector.detectAnomaly attempt.2 transaction historicalTransactions
          = Return r
          ∧ AnomalyDetector.score r = NaN
          ∧ ¬ integer_in 0 100 (AnomalyDetector.score r))
  ∧ (∃ r, AnomalyDetector.detectAnomaly
            {| AnomalyDetector.model := Some anyModel;
               AnomalyDetector.threshold := anyThreshold |} transaction []
          = Return r
          ∧ AnomalyDetector.score r = NaN)
  ∧ match FraudDetectionService.analyzeTransaction service transaction userId
            historicalTransactions with
    | (Return r, _) =>
        FraudDetectionService.suspiciousScore r = NaN
        ∧ ¬ integer_in 0 100 (FraudDetectionService.suspiciousScore r)
    | (Throw e, _) =>
        (FraudDetectionService.userClassifiers self !! userId = None
         ∧ (RandomForestClassifier.train (RandomForestClassifier.new userId)
              historicalTransactions (map isFlagged historicalTransactions)).1 = Throw e)
        ∨ RandomForestClassifier.predict
            (classifierAsked self userId historicalTransactions)
            transaction historicalTransactions = Throw e
    end
  ∧ (FraudDetectionService.userClassifiers self !! userId = None →
     ∃ r service',
       FraudDetectionService.analyzeTransaction service transaction userId []
       = (Return r, service')
       ∧ FraudDetectionService.suspiciousScore r = NaN
       ∧ ¬ integer_in 0 100 (FraudDetectionService.suspiciousScore r)).
Proof.
  intros attempt service. subst service.
  destruct (train_threshold_NaN AnomalyDetector.new t ts) as [m Htrain].
  subst attempt. rewrite Htrain. cbn [fst snd].
  set (detector := {| AnomalyDetector.model := Some m |}).
  destruct (detectAnomaly_threshold_NaN detector m transaction historicalTransactions)
    as (r & Hr & Hscore & Hflag); [done..|].
  destruct (detectAnomaly_no_history
              {| AnomalyDetector.model := Some anyModel;
                 AnomalyDetector.threshold := anyThreshold |} anyModel transaction)
    as (r0 & Hr0 & Hscore0 & _); [done|].
  split; [done|]. split.
  { exists r. rewrite Hscore. split_and!; [done..|apply NaN_not_integer_in_0_100]. }
  split; [by exists r0|].
  set (service := {| FraudDetectionService.anomalyDetector := detector |}).
  assert (Hruns : ∀ hist,
    match FraudDetectionService.analyzeTransaction service transaction userId hist with
    | (Return r, _) =>
        FraudDetectionService.suspiciousScore r = NaN
        ∧ ¬ integer_in 0 100 (FraudDetectionService.suspiciousScore r)
    | (Throw e, _) =>
        (FraudDetectionService.userClassifiers self !! userId = None
         ∧ (RandomForestClassifier.train (RandomForestClassifier.new userId)
              hist (map isFlagged hist)).1 = Throw e)
        ∨ RandomForestClassifier.predict (classifierAsked self userId hist)
            transaction hist = Throw e
    end).
  { intros hist.
    pose proof (analyzeTransaction_inv service transaction userId hist) as Hinv.
    destruct (FraudDetectionService.analyzeTransaction service _ _ _) as [[a|e] service'].
    - destruct Hinv as ((ar & Har & Ha) & _ & _ & Hs & _).
      destruct (detectAnomaly_threshold_NaN detector m transaction hist)
        as (ar' & Har' & Hscore' & _); [done..|].
      change (FraudDetectionService.anomalyDetector service) with detector in Har.
      rewrite Har' in Har. injection Har as <-.
      assert (Hnan : FraudDetectionService.suspiciousScore a = NaN).
      { rewrite Hs, Ha, Hscore'. apply fuse_NaN. }
      rewrite Hnan. split; [done | apply NaN_not_integer_in_0_100].
    - destruct Hinv as [[Hnone _] | Hinv]; [done|]. exact Hinv. }
  split; [apply Hruns|].
  intros Hnone. specialize (Hruns []).
  destruct (FraudDetectionService.analyzeTransaction service _ _ _) as [[a|e] service']
    eqn:Hrun.
  - by exists a, service'.
  - exfalso. destruct Hruns as [[_ Hthrow] | Hthrow]; [done|].
    unfold classifierAsked in Hthrow.
    change (FraudDetectionService.userClassifiers service)
      with (FraudDetectionService.userClassifiers self) in Hthrow.
    by rewrite Hnone in Hthrow.
Qed.

(** ** Training on nothing *)

(** C5, as the code has it. Training a classifier on an empty list returns
    normally and leaves the classifier as it was, so a classifier that had no
    model still predicts 0. Training the anomaly detector on an empty list
    does not complete: an error is thrown before any model or threshold is
    assigned, and the detector is left as it was. The error is the runtime's
    [TypeError] for reading the length of the missing first feature row, not
    one named [DegenerateTrainingSetError]. *)
Theorem train_on_empty_list
    (classifier : RandomForestClassifier.t) (labels : list bool) (userId : Z)
    (transaction : Transaction) (historicalTransactions : list Transaction)
    (detector : AnomalyDetector.t) :
  RandomForestClassifier.train classifier [] labels = (Return (), classifier)
  ∧ RandomForestClassifier.predict
      (RandomForestClassifier.train (RandomForestClassifier.new userId) [] labels).2
      transaction historicalTransactions = Return (of_Z 0)
  ∧ ∃ e, AnomalyDetector.train detector [] = (Throw e, detector)
         ∧ e = TypeError_undefined "length"
         ∧ error_name e ≠ "DegenerateTrainingSetError".
Proof. split_and!; [done..|]. eexists. by split_and!. Qed.

(** ** Querying an untrained detector *)

(** C6. As long as no call of [train] has succeeded, [detectAnomaly] throws
    the error "Model not trained", for every transaction and history and
    in both variants of the detector; it never returns a score. *)
Theorem detectAnomaly_before_training
    (autoencoder : AnomalyDetector.t) (isolation : IsolationAnomalyDetector.t)
    (transaction : Transaction) (historicalTransactions : list Transaction) :
  neverTrained autoencoder →
  neverTrainedIsolation isolation →
  AnomalyDetector.detectAnomaly autoencoder transaction historicalTransactions
  = Throw (Error "Model not trained")
  ∧ IsolationAnomalyDetector.detectAnomaly isolation transaction historicalTransactions
    = Throw (Error "Model not trained").
Proof.
  intros Ha Hi. unfold AnomalyDetector.detectAnomaly, IsolationAnomalyDetector.detectAnomaly.
  by rewrite (neverTrained_model _ Ha), (neverTrainedIsolation_model _ Hi).
Qed.

(** ** Cold start *)

(** C8. Without a profile for the holder the behavioral score is exactly 0,
    and a classifier without a model predicts exactly 0; neither throws. *)
Theorem cold_start_scores
    (profiler : BehavioralProfiler.t) (userId : Z)
    (classifier : RandomForestClassifier.t)
    (transaction : Transaction) (historicalTransactions : list Transaction) :
  BehavioralProfiler.userProfiles profiler !! userId = None →
  RandomForestClassifier.model classifier = None →
  BehavioralProfiler.analyzeTransaction profiler userId transaction = of_Z 0
  ∧ RandomForestClassifier.predict classifier transaction historicalTransactions
    = Return (of_Z 0)
  ∧ RandomForestClassifier.predict (RandomForestClassifier.new userId) transaction
      historicalTransactions = Return (of_Z 0).
Proof.
  intros Hprofile Hmodel.
  unfold BehavioralProfiler.analyzeTransaction, RandomForestClassifier.predict.
  by rewrite Hprofile, Hmodel.
Qed.

(** ** Feedback *)

(** C9. [updateModels] leaves the anomaly detector (model and threshold)
    as it was, whether it returns or throws. The holder's profile becomes the
    one rebuilt from the history followed by the transaction. The holder's
    classifier, if there is one, becomes what its [updateModel] leaves: it
    holds the new forest, on which the library was called with the history
    followed by the transaction and with their labels, and the call completes
    as that library call does; no classifier is created for a holder who has
    none, and the call then returns. The profiles and classifiers of all
    other holders are unchanged. *)
Theorem updateModels_frame
    (self : FraudDetectionService.t) (transaction : Transaction) (userId : Z)
    (isActuallyFraud : bool) (historicalTransactions : list Transaction) :
  let result :=
    FraudDetectionService.updateModels self transaction userId isActuallyFraud
      historicalTransactions in
  let profiles s :=
    BehavioralProfiler.userProfiles (FraudDetectionService.behavioralProfiler s) in
  let allTransactions := historicalTransactions ++ [transaction] in
  let library :=
    forest_train (map (λ t, (t, strictlyEarlier t allTransactions)) allTransactions)
      (map isFlagged historicalTransactions ++ [isActuallyFraud]) in
  FraudDetectionService.anomalyDetector result.2
  = FraudDetectionService.anomalyDetector self
  ∧ profiles result.2 !! userId
    = Some (BehavioralProfiler.buildProfile allTransactions
              (default transaction (head historicalTransactions)) transaction)
  ∧ match FraudDetectionService.userClassifiers self !! userId with
    | Some classifier =>
        result.1 = library.1
        ∧ FraudDetectionService.userClassifiers result.2 !! userId
          = Some {| RandomForestClassifier.model := Some library.2;
                    RandomForestClassifier.userId :=
                      RandomForestClassifier.userId classifier |}
    | None =>
        result.1 = Return ()
        ∧ FraudDetectionService.userClassifiers result.2 !! userId = None
    end
  ∧ ∀ other, other ≠ userId →
      profiles result.2 !! other = profiles self !! other
      ∧ FraudDetectionService.userClassifiers result.2 !! other
        = FraudDetectionService.userClassifiers self !! other.
Proof.
  intros result profiles allTransactions library.
  subst result profiles library allTransactions.
  unfold FraudDetectionService.updateModels, BehavioralProfiler.updateProfile.
  assert (Hhead : head (historicalTransactions ++ [transaction])
                  = Some (default transaction (head historicalTransactions))).
  { by destruct historicalTransactions. }
  rewrite Hhead, last_snoc.
  destruct (FraudDetectionService.userClassifiers self !! userId) as [classifier|] eqn:Hc.
  - unfold RandomForestClassifier.updateModel, RandomForestClassifier.train.
    rewrite bool_decide_eq_false_2 by (rewrite length_app; simpl; lia).
    cbn -[BehavioralProfiler.buildProfile]. rewrite !lookup_insert_eq.
    split_and!; try done.
    intros other Hne. by rewrite !lookup_insert_ne.
  - cbn -[BehavioralProfiler.buildProfile]. rewrite lookup_insert_eq, Hc.
    split_and!; try done.
    intros other Hne. by rewrite lookup_insert_ne.
Qed.

(** ** Range of the behavioral score *)

(** C10. For a holder with a profile the behavioral score is the sum of the
    penalties that apply among 20 (hour), 15 (merchant), 10 (category) and
    25 (amount); it is an integer between 0 and 70, and the cap at 100 never
    changes it. *)
Theorem behavioral_score_at_most_70
    (profiler : BehavioralProfiler.t) (userId : Z)
    (profile : BehavioralProfiler.Profile) (transaction : Transaction) :
  BehavioralProfiler.userProfiles profiler !! userId = Some profile →
  let unusualAmount :=
    gtb (absAmount transaction)
        (mul (BehavioralProfiler.averageAmount profile) (of_Z 2)) in
  let riskScore :=
    familiarityPenalty profile transaction + (if unusualAmount then 25 else 0) in
  BehavioralProfiler.analyzeTransaction profiler userId transaction = of_Z riskScore
  ∧ Math_min (of_Z riskScore) (of_Z 100) = of_Z riskScore
  ∧ 0 <= riskScore <= 70
  ∧ integer_in 0 70 (BehavioralProfiler.analyzeTransaction profiler userId transaction)
  ∧ leb (BehavioralProfiler.analyzeTransaction profiler userId transaction) (of_Z 70)
    = true
  ∧ BehavioralProfiler.analyzeTransaction profiler userId transaction ≠ of_Z 100.
Proof.
  intros Hprofile unusualAmount riskScore.
  destruct (behavioral_score_sum profiler userId profile transaction Hprofile)
    as (Heq & Hmin & Hin & Hle & Hne).
  fold unusualAmount riskScore in Heq, Hmin, Hin, Hle, Hne.
  assert (Hrange : 0 <= riskScore <= 70).
  { revert Hin. generalize riskScore. apply Forall_forall.
    apply (bool_decide_unpack _). by vm_compute. }
  rewrite Heq. split_and!; first [done | lia | by exists riskScore].
Qed.

(** ** The unusual-amount penalty *)

(** The +25 penalty is decided by the strict comparison
    [amount > averageAmount * 2] on the numbers the code holds, and doubling
    is exact: for every profile whose stored average is a finite number and
    every transaction (of an amount that fits its [decimal(12,2)] column), a
    transaction whose amount, as a number, is exactly twice the stored average
    scores only the penalties for hour, merchant and category, and one whose
    amount is greater than twice the stored average, by however little,
    scores 25 more. *)
Lemma unusual_amount_penalty_is_strict
    (profiler : BehavioralProfiler.t) (userId : Z)
    (profile : BehavioralProfiler.Profile) (transaction : Transaction) :
  BehavioralProfiler.userProfiles profiler !! userId = Some profile →
  finite_valid (BehavioralProfiler.averageAmount profile) = true →
  Z.abs (amount transaction) < 10 ^ 12 →
  let average := value (BehavioralProfiler.averageAmount profile) in
  let amount := value (absAmount transaction) in
  ((amount == 2 * average)%Q →
   BehavioralProfiler.analyzeTransaction profiler userId transaction
   = of_Z (familiarityPenalty profile transaction))
  ∧ ((2 * average < amount)%Q →
     BehavioralProfiler.analyzeTransaction profiler userId transaction
     = of_Z (familiarityPenalty profile transaction + 25))
  ∧ (gtb (absAmount transaction)
         (mul (BehavioralProfiler.averageAmount profile) (of_Z 2)) = true
     ↔ (2 * average < amount)%Q).
Proof.
  intros Hprofile Haverage Hrange average amount. subst average amount.
  destruct (absAmount_finite_valid transaction Hrange) as [Hamount _].
  pose proof (gtb_twice _ _ Hamount Haverage) as Hgtb.
  unfold BehavioralProfiler.analyzeTransaction, familiarityPenalty.
  rewrite Hprofile. cbv zeta. rewrite Hgtb. split_and!.
  - intros Heq%value_twice_eq. rewrite (proj2 (Z.ltb_ge _ _)) by lia.
    by destruct (bool_decide (getHours _ ∉ _)), (bool_decide (merchant _ ∉ _)),
      (bool_decide (category _ ∉ _)); vm_compute.
  - intros Hlt%value_twice_lt. rewrite (proj2 (Z.ltb_lt _ _)) by done.
    by destruct (bool_decide (getHours _ ∉ _)), (bool_decide (merchant _ ∉ _)),
      (bool_decide (category _ ∉ _)); vm_compute.
  - by rewrite Z.ltb_lt, value_twice_lt.
Qed.

(** ** Ratio features *)

Lemma filter_none {A} (P : A → Prop) `{∀ x, Decision (P x)} (l : list A) :
  Forall (λ x, ¬ P x) l → filter P l = [].
Proof.
  induction 1 as [|x l Hx _ IH]; [done|]. by rewrite filter_cons_False.
Qed.

(** Where the fallback does work: a non-zero amount with no earlier
    transaction at the merchant, or none in the category, gives the
    ratio 1. *)
Lemma ratio_features_without_history
    (transaction : Transaction) (historicalTransactions : list Transaction) :
  amount transaction ≠ 0 → Z.abs (amount transaction) < 10 ^ 12 →
  let features := extractTransactionFeatures transaction historicalTransactions in
  (Forall (λ t, merchant t ≠ merchant transaction) historicalTransactions →
   amountVsMerchantAvg features = of_Z 1)
  ∧ (Forall (λ t, category t ≠ category transaction) historicalTransactions →
     amountVsCategoryAvg features = of_Z 1).
Proof.
  intros Hne Hrange features. subst features.
  destruct (absAmount_finite_valid transaction Hrange) as [_ Hfinite].
  destruct (Hfinite Hne) as (m & e & Hamount).
  unfold extractTransactionFeatures. cbv zeta.
  cbn [amountVsMerchantAvg amountVsCategoryAvg]. rewrite Hamount. split.
  - intros Hmerchant.
    rewrite (filter_none (λ t, merchant t = merchant transaction)) by done.
    apply div_self.
  - intros Hcategory.
    rewrite (filter_none (λ t, category t = category transaction)) by done.
    apply div_self.
Qed.

(** C4, at its failing input. For a transaction of amount [0.00] with no
    earlier transaction at its merchant and none in its category, the fallback
    denominator is the amount itself, both ratios are [0/0], and the two
    features are NaN: neither finite nor equal to 1. *)
Theorem ratio_features_NaN_for_zero_amount
    (transaction : Transaction) (historicalTransactions : list Transaction) :
  amount transaction = 0 →
  Forall (λ t, merchant t ≠ merchant transaction) historicalTransactions →
  Forall (λ t, category t ≠ category transaction) historicalTransactions →
  let features := extractTransactionFeatures transaction historicalTransactions in
  amountVsMerchantAvg features = NaN
  ∧ amountVsCategoryAvg features = NaN
  ∧ is_finite (amountVsMerchantAvg features) = false
  ∧ is_finite (amountVsCategoryAvg features) = false
  ∧ amountVsMerchantAvg features ≠ of_Z 1
  ∧ amountVsCategoryAvg features ≠ of_Z 1.
Proof.
  intros Hamount Hmerchant Hcategory features.
  assert (Hm : amountVsMerchantAvg features = NaN).
  { subst features. unfold extractTransactionFeatures. cbv zeta.
    cbn [amountVsMerchantAvg].
    rewrite (filter_none (λ t, merchant t = merchant transaction)) by done.
    unfold absAmount, parseFloat_amount. by rewrite Hamount. }
  assert (Hc : amountVsCategoryAvg features = NaN).
  { subst features. unfold extractTransactionFeatures. cbv zeta.
    cbn [amountVsCategoryAvg].
    rewrite (filter_none (λ t, category t = category transaction)) by done.
    unfold absAmount, parseFloat_amount. by rewrite Hamount. }
  rewrite Hm, Hc. by split_and!.
Qed.

(** C7, at its failing input. The average a profile stores is the
    floating-point mean of the amounts, which can lie below their average. A
    profile built from purchases of $0.10 and $0.70 stores
    0.39999999999999997 (7205759403792793 * 2^-54), and a purchase of $0.80, exactly twice their average
    of $0.40, at the same merchant, category and hour, scores 25. Likewise
    ten purchases that sum to $500.00 give the stored mean 49.99999999999999,
    and a purchase of $100.00 scores 25; after ten purchases of $50.00 each,
    a purchase of $100.00 scores 0 and one of $100.50 scores 25. *)
Theorem unusual_amount_penalty_at_twice_the_average :
  let profilerOf transactions :=
    (BehavioralProfiler.updateProfile BehavioralProfiler.new 7 transactions).2 in
  let storedAverage transactions :=
    BehavioralProfiler.averageAmount <$>
      BehavioralProfiler.userProfiles (profilerOf transactions) !! 7 in
  map amount smallGroceryHistory = [-10; -70]
  ∧ amount (groceryPurchaseOf 80) = 80
  ∧ twiceTheAverage (groceryPurchaseOf 80) smallGroceryHistory
  ∧ storedAverage smallGroceryHistory = Some (S754_finite false 7205759403792793 (-54))
  ∧ (value (S754_finite false 7205759403792793 (-54)) < 2 # 5)%Q
  ∧ gtb (absAmount (groceryPurchaseOf 80))
        (mul (S754_finite false 7205759403792793 (-54)) (of_Z 2)) = true
  ∧ BehavioralProfiler.analyzeTransaction (profilerOf smallGroceryHistory) 7
      (groceryPurchaseOf 80) = of_Z 25
  ∧ length unevenGroceryHistory = 10%nat
  ∧ twiceTheAverage (groceryPurchaseOf 10000) unevenGroceryHistory
  ∧ storedAverage unevenGroceryHistory = Some (S754_finite false 7036874417766399 (-47))
  ∧ (value (S754_finite false 7036874417766399 (-47)) < 50)%Q
  ∧ BehavioralProfiler.analyzeTransaction (profilerOf unevenGroceryHistory) 7
      (groceryPurchaseOf 10000) = of_Z 25
  ∧ twiceTheAverage (groceryPurchaseOf 10000) groceryHistory
  ∧ storedAverage groceryHistory = Some (of_Z 50)
  ∧ BehavioralProfiler.analyzeTransaction (profilerOf groceryHistory) 7
      (groceryPurchaseOf 10000) = of_Z 0
  ∧ BehavioralProfiler.analyzeTransaction (profilerOf groceryHistory) 7
      (groceryPurchaseOf 10050) = of_Z 25.
Proof. vm_compute. by repeat split. Qed.

(** ** The end-to-end scenario *)

(** With a NaN threshold every assessment has NaN scores and no flag. *)
Lemma assessment_NaN_threshold
    (self : FraudDetectionService.t) (transaction : Transaction) (userId : Z)
    (historicalTransactions : list Transaction)
    (r : FraudDetectionService.Assessment) (self' : FraudDetectionService.t) :
  FraudDetectionService.analyzeTransaction self transaction userId historicalTransactions
  = (Return r, self') →
  AnomalyDetector.threshold (FraudDetectionService.anomalyDetector self) = NaN →
  FraudDetectionService.anomalyScore r = NaN
  ∧ FraudDetectionService.suspiciousScore r = NaN
  ∧ FraudDetectionService.isAnomaly r = false.
Proof.
  intros Hrun Hthreshold.
  pose proof (analyzeTransaction_inv self transaction userId historicalTransactions)
    as Hinv.
  rewrite Hrun in Hinv. destruct Hinv as ((ar & Har & Ha) & _ & _ & Hs & Hi).
  destruct (AnomalyDetector.model (FraudDetectionService.anomalyDetector self))
    as [m|] eqn:Hm.
  - destruct (detectAnomaly_threshold_NaN _ m transaction historicalTransactions
                Hm Hthreshold) as (ar' & Har' & Hscore & _).
    rewrite Har' in Har. injection Har as <-.
    assert (Hanomaly : FraudDetectionService.anomalyScore r = NaN) by by rewrite Ha.
    assert (Hnan : FraudDetectionService.suspiciousScore r = NaN).
    { rewrite Hs, Hanomaly. apply fuse_NaN. }
    split_and!; [done..|]. by rewrite Hi, Hnan.
  - unfold AnomalyDetector.detectAnomaly in Har. by rewrite Hm in Har.
Qed.

(** The behavioral score of the scenario: whatever the ten amounts that
    sum to $500.00 are, the mean the profile stores is at most 51, so that
    $450 is above twice the mean. *)
Lemma technology_purchase_behavioral_score
    (profiler : BehavioralProfiler.t) (userId : Z)
    (historicalTransactions : list Transaction) (first last : Transaction)
    (transaction : Transaction) :
  let profile := BehavioralProfiler.buildProfile historicalTransactions first last in
  length historicalTransactions = 10%nat →
  centsSpent historicalTransactions = 50000 →
  Forall (λ t, category t = "Groceries") historicalTransactions →
  BehavioralProfiler.userProfiles profiler !! userId = Some profile →
  Z.abs (amount transaction) = 45000 →
  category transaction = "Technology" →
  merchant transaction ∉ map merchant historicalTransactions →
  getHours (transactionDate transaction)
    ∉ map (λ t, getHours (transactionDate t)) historicalTransactions →
  BehavioralProfiler.analyzeTransaction profiler userId transaction = of_Z 70.
Proof.
  intros profile Hlen Hcents Hall Hprofile Hamount Hcategory Hmerchant Hhour.
  assert (Haverage :
    finite_valid (BehavioralProfiler.averageAmount profile) = true
    ∧ 0 <= ulps (BehavioralProfiler.averageAmount profile) <= 51 * 2 ^ 1074).
  { subst profile. unfold BehavioralProfiler.buildProfile.
    cbn [BehavioralProfiler.averageAmount].
    destruct (dollarsRoundedUp_bounds historicalTransactions) as [_ Hdollars].
    destruct (centsSpent_bounds historicalTransactions) as [_ Heach].
    rewrite Hcents, Hlen in Hdollars.
    apply averageAmount_le; rewrite ?Hlen; [by intros -> | | done | done | lia].
    eapply Forall_impl; [exact Heach|]. intros t Ht. cbv beta in Ht.
    rewrite Hcents in Ht. eapply Z.le_lt_trans; [exact Ht | done]. }
  destruct Haverage as [Hvalid Haverage].
  unfold BehavioralProfiler.analyzeTransaction. rewrite Hprofile. cbv zeta.
  rewrite (bool_decide_eq_true_2 (getHours _ ∉ _)); cycle 1.
  { subst profile. unfold BehavioralProfiler.buildProfile.
    cbn [BehavioralProfiler.typicalDayHours].
    by rewrite elem_of_list_to_set. }
  rewrite (bool_decide_eq_true_2 (merchant _ ∉ _)); cycle 1.
  { subst profile. unfold BehavioralProfiler.buildProfile.
    cbn [BehavioralProfiler.typicalMerchants].
    by rewrite elem_of_list_to_set. }
  rewrite (bool_decide_eq_true_2 (category _ ∉ _)); cycle 1.
  { subst profile. unfold BehavioralProfiler.buildProfile.
    cbn [BehavioralProfiler.typicalCategories].
    rewrite elem_of_list_to_set, Hcategory.
    intros (t & Ht & Hin)%list_elem_of_fmap.
    rewrite Forall_forall in Hall. specialize (Hall t Hin).
    by rewrite Hall in Ht. }
  assert (Hfour : absAmount transaction = of_Z 450).
  { unfold absAmount, parseFloat_amount.
    assert (Hcases : amount transaction = 45000 ∨ amount transaction = -45000) by lia.
    by destruct Hcases as [-> | ->]; vm_compute. }
  rewrite Hfour, (gtb_twice (of_Z 450) _ eq_refl Hvalid).
  assert (Hlt : 2 * ulps (BehavioralProfiler.averageAmount profile) < ulps (of_Z 450)).
  { change (ulps (of_Z 450)) with (450 * 2 ^ 1074).
    assert (0 < 2 ^ 1074) by done. lia. }
  rewrite (proj2 (Z.ltb_lt _ _) Hlt). by vm_compute.
Qed.

(** C3, as the code has it. A holder's profile is built from ten unflagged
    grocery transactions that average $50 (their amounts sum to $500.00,
    whatever mean the profile stores for them); a new transaction of $450 in
    category "Technology" comes at a merchant and at an hour the history
    does not have. Its behavioral score is exactly 70. An assessment carries that
    score and a classifier score of 0 or 100. Its anomaly score is NaN when
    the detector is one the code has built; and when the anomaly score is NaN
    or an integer of [0,100], [isAnomaly] holds exactly when the classifier
    score is 100 and the anomaly score is an integer of at least 49, so that
    with a classifier score of 0 the transaction is not flagged. The call
    throws when the detector has no model or the classifier step throws. *)
Theorem technology_purchase_assessment
    (self : FraudDetectionService.t) (userId : Z)
    (historicalTransactions : list Transaction) (first last : Transaction)
    (transaction : Transaction) :
  let profile := BehavioralProfiler.buildProfile historicalTransactions first last in
  length historicalTransactions = 10%nat →
  Forall (λ t, category t = "Groceries" ∧ isFlagged t = false) historicalTransactions →
  centsSpent historicalTransactions = 50000 →
  BehavioralProfiler.userProfiles (FraudDetectionService.behavioralProfiler self)
    !! userId = Some profile →
  Z.abs (amount transaction) = 45000 →
  category transaction = "Technology" →
  merchant transaction ∉ map merchant historicalTransactions →
  getHours (transactionDate transaction)
    ∉ map (λ t, getHours (transactionDate t)) historicalTransactions →
  BehavioralProfiler.analyzeTransaction (FraudDetectionService.behavioralProfiler self)
    userId transaction = of_Z 70
  ∧ match FraudDetectionService.analyzeTransaction self transaction userId
            historicalTransactions with
    | (Return r, _) =>
        FraudDetectionService.behavioralScore r = of_Z 70
        ∧ (FraudDetectionService.classifierScore r = of_Z 0
           ∨ FraudDetectionService.classifierScore r = of_Z 100)
        ∧ (builtByTrain (FraudDetectionService.anomalyDetector self) →
           FraudDetectionService.anomalyScore r = NaN)
        ∧ (FraudDetectionService.anomalyScore r = NaN
           ∨ integer_in 0 100 (FraudDetectionService.anomalyScore r) →
           (FraudDetectionService.isAnomaly r = true
            ↔ FraudDetectionService.classifierScore r = of_Z 100
              ∧ integer_in 49 100 (FraudDetectionService.anomalyScore r))
           ∧ (FraudDetectionService.classifierScore r = of_Z 0 →
              FraudDetectionService.isAnomaly r = false))
    | (Throw e, _) => thrownBy self transaction userId historicalTransactions e
    end.
Proof.
  intros profile Hlen Hall Hcents Hprofile Hamount Hcategory Hmerchant Hhour.
  assert (Hbehavioral :
    BehavioralProfiler.analyzeTransaction (FraudDetectionService.behavioralProfiler self)
      userId transaction = of_Z 70).
  { apply (technology_purchase_behavioral_score _ _ historicalTransactions first last);
      try done.
    eapply Forall_impl; [exact Hall|]. by intros t [Ht _]. }
  split; [done|].
  pose proof (analyzeTransaction_inv self transaction userId historicalTransactions)
    as Hinv.
  destruct (FraudDetectionService.analyzeTransaction _ _ _ _) as [[r|e] self'] eqn:Hrun;
    [|done].
  destruct Hinv as ((ar & Har & Ha) & Hb & Hc & Hs & Hi).
  rewrite Hbehavioral in Hb.
  destruct (predict_0_or_100 _ _ _ _ Hc) as [fraud Hfraud].
  assert (Hclassifier :
    FraudDetectionService.classifierScore r = if fraud then of_Z 100 else of_Z 0).
  { rewrite Hfraud. by destruct fraud. }
  split; [done|]. split; [rewrite Hclassifier; destruct fraud; auto|]. split.
  { intros Hbuilt. destruct (builtByTrain_NaN _ Hbuilt) as [Hnone | Hthreshold].
    - unfold AnomalyDetector.detectAnomaly in Har. by rewrite Hnone in Har.
    - by destruct (assessment_NaN_threshold _ _ _ _ _ _ Hrun Hthreshold) as [-> _]. }
  intros [Hnan | Hanomaly].
  - assert (Hflag : FraudDetectionService.isAnomaly r = false).
    { rewrite Hi, Hs, Hnan. by rewrite fuse_NaN. }
    rewrite Hflag, Hnan. split; [|done]. split; [done|].
    intros [_ Hin]. revert Hin. rewrite integer_in_list.
    apply (bool_decide_unpack _). vm_compute. exact I.
  - rewrite Hi, Hs, Hb, Hclassifier. split; [split|].
    + destruct Hanomaly as (k & Hk & ->).
      destruct (fuse_behavioral_70 k fraud Hk) as [-> _].
      intros [-> Hge%Z.leb_le]%andb_true_iff. split; [done|].
      exists k. split; [lia | done].
    + intros [H100 (k & Hk & ->)].
      destruct (fuse_behavioral_70 k fraud) as [-> _]; [lia|].
      destruct fraud; [|by vm_compute in H100]. apply Z.leb_le. lia.
    + intros H0. destruct Hanomaly as (k & Hk & ->).
      destruct fraud; [by vm_compute in H0|].
      by destruct (fuse_behavioral_70 k false Hk) as [-> _].
Qed.

End Claims.

(** ** Instances on the sample data *)

Lemma detectAnomaly_before_training_witness :
  let autoencoder := (@AnomalyDetector.train sampleBackend AnomalyDetector.new []).2 in
  AnomalyDetector.detectAnomaly autoencoder technologyPurchase groceryHistory
  = Throw (Error "Model not trained")
  ∧ IsolationAnomalyDetector.detectAnomaly IsolationAnomalyDetector.new
      technologyPurchase groceryHistory
    = Throw (Error "Model not trained").
Proof.
  apply (@detectAnomaly_before_training sampleBackend).
  - apply (@neverTrained_failed sampleBackend AnomalyDetector.new []
             (TypeError_undefined "length"));
      [apply (@neverTrained_new sampleBackend) | reflexivity].
  - apply neverTrainedIsolation_new.
Defined.

Lemma cold_start_scores_witness :
  BehavioralProfiler.analyzeTransaction BehavioralProfiler.new 7 technologyPurchase
  = of_Z 0
  ∧ RandomForestClassifier.predict (RandomForestClassifier.new 7) technologyPurchase
      groceryHistory = Return (of_Z 0)
  ∧ RandomForestClassifier.predict (RandomForestClassifier.new 7) technologyPurchase
      groceryHistory = Return (of_Z 0).
Proof. apply cold_start_scores; reflexivity. Defined.

Lemma behavioral_score_at_most_70_witness :
  BehavioralProfiler.userProfiles groceryProfiler !! 7 = Some groceryProfile
  ∧ BehavioralProfiler.analyzeTransaction groceryProfiler 7 technologyPurchase = of_Z 70
  ∧ BehavioralProfiler.analyzeTransaction groceryProfiler 7 technologyPurchase
    ≠ of_Z 100.
Proof.
  assert (Hprofile :
    BehavioralProfiler.userProfiles groceryProfiler !! 7 = Some groceryProfile)
    by reflexivity.
  split; [exact Hprofile|].
  pose proof (behavioral_score_at_most_70 groceryProfiler 7 groceryProfile
                technologyPurchase Hprofile) as (Hscore & _ & _ & _ & _ & Hcap).
  split; [exact Hscore | exact Hcap].
Defined.

Lemma unusual_amount_penalty_is_strict_witness :
  (value (BehavioralProfiler.averageAmount groceryProfile) == 50)%Q
  ∧ (value (absAmount (groceryPurchaseOf 10000))
     == 2 * value (BehavioralProfiler.averageAmount groceryProfile))%Q
  ∧ BehavioralProfiler.analyzeTransaction groceryProfiler 7 (groceryPurchaseOf 10000)
    = of_Z 0
  ∧ (value (absAmount (groceryPurchaseOf 10050))
     == (201 # 100) * value (BehavioralProfiler.averageAmount groceryProfile))%Q
  ∧ BehavioralProfiler.analyzeTransaction groceryProfiler 7 (groceryPurchaseOf 10050)
    = of_Z 25.
Proof.
  assert (Hprofile :
    BehavioralProfiler.userProfiles groceryProfiler !! 7 = Some groceryProfile)
    by reflexivity.
  split; [reflexivity|]. split; [reflexivity|]. split.
  - apply (proj1 (unusual_amount_penalty_is_strict groceryProfiler 7 groceryProfile
                    (groceryPurchaseOf 10000) Hprofile eq_refl eq_refl)).
    reflexivity.
  - split; [reflexivity|].
    apply (proj1 (proj2 (unusual_amount_penalty_is_strict groceryProfiler 7
                           groceryProfile (groceryPurchaseOf 10050) Hprofile
                           eq_refl eq_refl))).
    reflexivity.
Defined.

Lemma ratio_features_NaN_for_zero_amount_witness :
  amount zeroPurchase = 0
  ∧ amountVsMerchantAvg (extractTransactionFeatures zeroPurchase groceryHistory) = NaN
  ∧ amountVsCategoryAvg (extractTransactionFeatures zeroPurchase groceryHistory) = NaN.
Proof.
  split; [reflexivity|].
  assert (Hmerchant : Forall (λ t, merchant t ≠ merchant zeroPurchase) groceryHistory)
    by (repeat constructor; discriminate).
  assert (Hcategory : Forall (λ t, category t ≠ category zeroPurchase) groceryHistory)
    by (repeat constructor; discriminate).
  pose proof (ratio_features_NaN_for_zero_amount zeroPurchase groceryHistory
                eq_refl Hmerchant Hcategory) as (Hm & Hc & _).
  split; [exact Hm | exact Hc].
Defined.

Lemma technology_purchase_assessment_witness :
  length unevenGroceryHistory = 10%nat
  ∧ centsSpent unevenGroceryHistory = 50000
  ∧ BehavioralProfiler.averageAmount <$>
      BehavioralProfiler.userProfiles
        (FraudDetectionService.behavioralProfiler (unevenGroceryService refusingBackend))
        !! 7
    = Some (S754_finite false 7036874417766399 (-47))
  ∧ BehavioralProfiler.analyzeTransaction
      (FraudDetectionService.behavioralProfiler (unevenGroceryService refusingBackend))
      7 technologyPurchase
    = of_Z 70.
Proof.
  split; [reflexivity|]. split; [reflexivity|]. split; [vm_compute; reflexivity|].
  assert (Hhistory :
    Forall (λ t, category t = "Groceries" ∧ isFlagged t = false) unevenGroceryHistory)
    by (repeat constructor).
  assert (Hmerchant : merchant technologyPurchase ∉ map merchant unevenGroceryHistory)
    by (apply (bool_decide_unpack _); vm_compute; exact I).
  assert (Hhour :
    getHours (transactionDate technologyPurchase)
      ∉ map (λ t, getHours (transactionDate t)) unevenGroceryHistory)
    by (apply (bool_decide_unpack _); vm_compute; exact I).
  assert (Hprofile :
    BehavioralProfiler.userProfiles
      (FraudDetectionService.behavioralProfiler (unevenGroceryService refusingBackend))
      !! 7
    = Some (BehavioralProfiler.buildProfile unevenGroceryHistory
              (groceryPurchaseWorth 0 5264) (groceryPurchaseWorth 9 19401)))
    by (vm_compute; reflexivity).
  pose proof (@technology_purchase_assessment refusingBackend
                (unevenGroceryService refusingBackend) 7
                unevenGroceryHistory (groceryPurchaseWorth 0 5264)
                (groceryPurchaseWorth 9 19401)
                technologyPurchase eq_refl Hhistory eq_refl Hprofile eq_refl eq_refl
                Hmerchant Hhour) as [Hbehavioral _].
  exact Hbehavioral.
Defined.

(** ** Counterexamples *)

(** C3 fails as worded: in the scenario the behavioral score is 70, yet no
    assessment flags the transaction. Whatever the libraries do, after
    [initialize] on the holder's ten purchases the detector has a model, and
    [analyzeTransaction] either throws from the classifier step or returns an
    assessment whose suspicion score is not above 70; with a forest library
    that accepts the training set it returns one. *)
Lemma technology_purchase_not_flagged :
  length groceryHistory = 10%nat
  ∧ Forall (λ t, category t = "Groceries" ∧ isFlagged t = false) groceryHistory
  ∧ centsSpent groceryHistory = 50000
  ∧ BehavioralProfiler.averageAmount groceryProfile = of_Z 50
  ∧ absAmount technologyPurchase = of_Z 450
  ∧ getHours (transactionDate technologyPurchase) = 3
  ∧ (∀ B : Backend,
       let service :=
         (@FraudDetectionService.initialize B FraudDetectionService.new
            groceryHistory).2 in
       BehavioralProfiler.userProfiles (FraudDetectionService.behavioralProfiler service)
         !! 7 = Some groceryProfile
       ∧ AnomalyDetector.model (FraudDetectionService.anomalyDetector service) ≠ None
       ∧ BehavioralProfiler.analyzeTransaction
           (FraudDetectionService.behavioralProfiler service) 7 technologyPurchase
         = of_Z 70
       ∧ match @FraudDetectionService.analyzeTransaction B service technologyPurchase 7
                 groceryHistory with
         | (Return r, _) =>
             FraudDetectionService.behavioralScore r = of_Z 70
             ∧ gtb (FraudDetectionService.suspiciousScore r) (of_Z 70) = false
             ∧ FraudDetectionService.isAnomaly r = false
         | (Throw e, _) =>
             @thrownBy B service technologyPurchase 7 groceryHistory e
         end)
  ∧ (∃ r service',
        @FraudDetectionService.analyzeTransaction sampleBackend groceryService
          technologyPurchase 7 groceryHistory = (Return r, service')
        ∧ FraudDetectionService.behavioralScore r = of_Z 70
        ∧ FraudDetectionService.isAnomaly r = false).
Proof.
  split; [reflexivity|]. split; [repeat constructor|]. split; [reflexivity|].
  split; [reflexivity|]. split; [reflexivity|]. split; [reflexivity|]. split.
  - intros B service.
    assert (Hservice :
      FraudDetectionService.behavioralProfiler service = groceryProfiler
      ∧ ∃ m, FraudDetectionService.anomalyDetector service
             = {| AnomalyDetector.model := Some m; AnomalyDetector.threshold := NaN |}).
    { subst service. unfold FraudDetectionService.initialize.
      destruct (@train_threshold_NaN B AnomalyDetector.new (groceryPurchase 0)
                  (map groceryPurchase [1; 2; 3; 4; 5; 6; 7; 8; 9])) as [m Htrain].
      change (groceryPurchase 0 :: map groceryPurchase [1; 2; 3; 4; 5; 6; 7; 8; 9])
        with groceryHistory in Htrain.
      change (FraudDetectionService.anomalyDetector FraudDetectionService.new)
        with AnomalyDetector.new.
      rewrite Htrain.
      replace (FraudDetectionService.groupByAccount groceryHistory)
        with [(7, groceryHistory)] by (vm_compute; reflexivity).
      cbn [FraudDetectionService.initializeUsers].
      change (BehavioralProfiler.updateProfile _ 7 groceryHistory)
        with (Return (), groceryProfiler).
      cbv iota beta.
      by destruct (RandomForestClassifier.train _ _ _) as [[[]|e] classifier];
        (split; [reflexivity | exists m]). }
    destruct Hservice as [Hprofiler [m Hdetector]].
    rewrite Hprofiler, Hdetector.
    split; [reflexivity|]. split; [done|]. split; [vm_compute; reflexivity|].
    pose proof (@analyzeTransaction_inv B service technologyPurchase 7 groceryHistory)
      as Hinv.
    destruct (@FraudDetectionService.analyzeTransaction B service technologyPurchase 7
                groceryHistory) as [[r|e] service'] eqn:Hrun; [|exact Hinv].
    destruct Hinv as (_ & Hb & _).
    destruct (@assessment_NaN_threshold B service technologyPurchase 7 groceryHistory
                r service' Hrun) as (_ & Hnan & Hflag).
    { by rewrite Hdetector. }
    rewrite Hb, Hprofiler, Hnan, Hflag.
    split; [vm_compute; reflexivity|]. split; reflexivity.
  - destruct (@FraudDetectionService.analyzeTransaction sampleBackend groceryService
                technologyPurchase 7 groceryHistory) as [[r|e] service'] eqn:Hrun.
    + exists r, service'. split; [reflexivity|].
      apply (f_equal fst) in Hrun. vm_compute in Hrun.
      injection Hrun as <-. repeat split.
    + apply (f_equal fst) in Hrun. vm_compute in Hrun. discriminate.
Qed.

(** C5 fails as worded: the error thrown by [AnomalyDetector.train] on an
    empty list is the runtime's [TypeError], not an error named
    [DegenerateTrainingSetError]. *)
Lemma anomaly_train_on_empty_list_throws_TypeError :
  ∃ e, (@AnomalyDetector.train sampleBackend AnomalyDetector.new []).1 = Throw e
       ∧ error_name e = "TypeError"
       ∧ error_name e ≠ "DegenerateTrainingSetError".
Proof. eexists. split; [reflexivity|]. split; [reflexivity | discriminate]. Qed.

(** * Further properties of the engine *)

(** ** Calendar and remainder on particular values *)

Example calendar_examples :
  map (λ d, (getMonth d, getDate d, getMinutes d, getHours d, getDay d))
      [1704103200000; 1709251199000; 1709251200000; 0; -60000; 951827640000;
       4107542400000; 1704067140000; -2203872780000]
  = [(0, 1, 0, 10, 1); (1, 29, 59, 23, 4); (2, 1, 0, 0, 5); (0, 1, 0, 0, 4);
     (11, 31, 59, 23, 3); (1, 29, 34, 12, 2); (2, 1, 0, 0, 1); (11, 31, 59, 23, 0);
     (2, 1, 7, 5, 4)].
Proof. vm_compute. reflexivity. Qed.

Example remainder_examples :
  remainder (decimal 4550 100) (of_Z 1) = decimal 5 10
  ∧ remainder (of_Z 45) (of_Z 5) = of_Z 0
  ∧ remainder (of_Z 47) (of_Z 10) = of_Z 7
  ∧ remainder (of_Z (-7)) (of_Z 2) = of_Z (-1)
  ∧ remainder (of_Z 7) (of_Z 0) = NaN
  ∧ remainder (of_Z 7) Infinity = of_Z 7.
Proof. vm_compute. repeat split. Qed.

(** ** Order on numbers *)

Lemma SFcompare_antisym x y :
  SFcompare y x = option_map CompOpp (SFcompare x y).
Proof.
  destruct x as [sx|sx| |sx mx ex], y as [sy|sy| |sy my ey]; try done;
    try (by destruct sx, sy); try (by destruct sx); try (by destruct sy).
  cbn. destruct sx, sy; try done.
  - rewrite (Z.compare_antisym ey ex). destruct (ey ?= ex) eqn:He; cbn; try done.
    rewrite (Pos.compare_cont_antisym _ _ Eq). cbn.
    by destruct (Pos.compare_cont Eq mx my).
  - rewrite (Z.compare_antisym ey ex). destruct (ey ?= ex) eqn:He; cbn; try done.
    rewrite (Pos.compare_cont_antisym _ _ Eq). cbn.
    by destruct (Pos.compare_cont Eq my mx).
Qed.

Lemma SFcompare_refl x : x ≠ NaN → SFcompare x x = Some Eq.
Proof.
  destruct x as [s|s| |s m e]; try done; try (by destruct s).
  intros _. cbn. rewrite Z.compare_refl.
  assert (Pos.compare_cont Eq m m = Eq) as -> by apply Pos.compare_refl.
  by destruct s.
Qed.

(** [Math.min(x, y)] is NaN or at most [y]. *)
Lemma Math_min_bound x y :
  Math_min x y = NaN ∨ leb (Math_min x y) y = true.
Proof.
  destruct (decide (x = NaN)) as [-> | Hx]; [by left|].
  destruct (decide (y = NaN)) as [-> | Hy]; [left; by destruct x|].
  right.
  assert (Hgeneric : leb (if SFltb y x then y else x) y = true).
  { unfold leb, SFleb, SFltb. rewrite (SFcompare_antisym x y).
    destruct (SFcompare x y) as [[]|] eqn:Hc; cbn; try done.
    - by rewrite Hc.
    - by rewrite Hc.
    - by rewrite SFcompare_refl.
    - by destruct x, y. }
  destruct x as [sx|sx| |sx mx ex], y as [sy|sy| |sy my ey]; try done.
Qed.

(** ** Quotients of array lengths *)

Lemma div_of_Z_finite a b :
  0 <= a < 2 ^ 53 → 0 < b < 2 ^ 53 →
  finite_valid (div (of_Z a) (of_Z b)) = true.
Proof.
  intros Ha Hb.
  destruct (of_Z_normal b ltac:(lia) ltac:(lia)) as (mb & eb & -> & Hdb & Heb).
  destruct (decide (a = 0)) as [-> | Hne]; [done|].
  destruct (of_Z_normal a Hne ltac:(lia)) as (ma & ea & -> & Hda & Hea).
  destruct (div_normal (a <? 0) ma ea (b <? 0) mb eb Hda Hdb ltac:(lia))
    as (m & e & -> & Hbounded).
  exact Hbounded.
Qed.

Lemma div_of_Z_self n : 0 < n < 2 ^ 53 → div (of_Z n) (of_Z n) = of_Z 1.
Proof.
  intros Hn. destruct (of_Z_normal n ltac:(lia) ltac:(lia)) as (m & e & -> & _).
  apply div_self.
Qed.

Lemma div_zero_of_Z n : 0 < n < 2 ^ 53 → div (of_Z 0) (of_Z n) = of_Z 0.
Proof.
  intros Hn. destruct (of_Z_normal n ltac:(lia) ltac:(lia)) as (m & e & -> & _).
  replace (n <? 0) with false by (symmetry; apply Z.ltb_ge; lia). done.
Qed.

Lemma filter_all {A} (P : A → Prop) `{∀ x, Decision (P x)} (l : list A) :
  Forall P l → filter P l = l.
Proof.
  induction 1 as [|x l Hx _ IH]; [done|]. by rewrite filter_cons_True, IH.
Qed.

(** ** Grouping by account *)

Lemma groupPush_keys groups t :
  (FraudDetectionService.groupPush groups t).*1
  = if bool_decide (accountId t ∈ groups.*1) then groups.*1
    else groups.*1 ++ [accountId t].
Proof.
  induction groups as [|[k ts] rest IH]; [done|]. cbn.
  destruct (decide (k = accountId t)) as [-> | Hk].
  - rewrite !bool_decide_eq_true_2; [done | apply list_elem_of_here | done].
  - rewrite (bool_decide_eq_false_2 (k = accountId t)) by done. cbn. rewrite IH.
    destruct (decide (accountId t ∈ rest.*1)) as [Hin | Hin].
    + rewrite !bool_decide_eq_true_2; [done | by apply list_elem_of_further | done].
    + rewrite !bool_decide_eq_false_2; [done | | done].
      intros [?|?]%elem_of_cons; congruence.
Qed.

Lemma groupPush_groups (l : list Transaction) groups t :
  NoDup groups.*1 →
  Forall (λ p, p.2 = filter (λ u, accountId u = p.1) l) groups →
  (accountId t ∉ groups.*1 → filter (λ u, accountId u = accountId t) l = []) →
  Forall (λ p, p.2 = filter (λ u, accountId u = p.1) (l ++ [t]))
         (FraudDetectionService.groupPush groups t).
Proof.
  induction groups as [|[k ts] rest IH]; intros Hnodup Hall Hnew.
  - cbn. constructor; [|done]. cbn.
    rewrite filter_app, Hnew by apply not_elem_of_nil.
    by rewrite filter_cons_True.
  - cbn in Hnodup. apply NoDup_cons in Hnodup as [Hk Hnodup].
    apply Forall_cons in Hall as [Hts Hall]. cbn in Hts. cbn.
    case_bool_decide as Heq.
    + subst k. constructor.
      * cbn. rewrite filter_app, <- Hts. by rewrite filter_cons_True.
      * rewrite Forall_forall in Hall. apply Forall_forall. intros p Hp.
        rewrite filter_app, (Hall p Hp).
        rewrite (filter_cons_False _ t); [by rewrite app_nil_r|].
        intros Hacc. apply Hk. rewrite Hacc. apply list_elem_of_fmap. by exists p.
    + constructor.
      * cbn. rewrite filter_app, <- Hts.
        rewrite (filter_cons_False _ t); [by rewrite app_nil_r|].
        intros Hacc. cbn in Hacc. congruence.
      * apply IH; [done | done |].
        intros Hnot. apply Hnew. cbn. intros [?|?]%elem_of_cons; [congruence | done].
Qed.

(** The groups [initialize] iterates over: one per account of the list, each
    holding that account's transactions in their order in the list. *)
Lemma groupByAccount_spec (l : list Transaction) :
  let groups := FraudDetectionService.groupByAccount l in
  NoDup groups.*1
  ∧ Forall (λ p, p.2 = filter (λ u, accountId u = p.1) l) groups
  ∧ ∀ k, k ∈ groups.*1 ↔ k ∈ map accountId l.
Proof.
  unfold FraudDetectionService.groupByAccount.
  induction l as [|t l IH] using rev_ind.
  - cbn. split; [constructor|]. split; [constructor|]. done.
  - rewrite foldl_snoc. cbv zeta in IH. destruct IH as (Hnodup & Hall & Hkeys).
    set (groups := foldl FraudDetectionService.groupPush [] l) in *.
    assert (Hnew : accountId t ∉ groups.*1 →
                   filter (λ u, accountId u = accountId t) l = []).
    { intros Hnot. apply filter_none. apply Forall_forall. intros u Hu Hacc.
      apply Hnot, Hkeys. rewrite <- Hacc. apply list_elem_of_fmap. by exists u. }
    cbv zeta. split_and!.
    + rewrite groupPush_keys. case_bool_decide as Hin; [done|].
      apply NoDup_app. split_and!; [done | | apply NoDup_singleton].
      intros k Hk ->%list_elem_of_singleton. done.
    + by apply groupPush_groups.
    + intros k. rewrite groupPush_keys, map_app, elem_of_app. cbn.
      rewrite list_elem_of_singleton.
      case_bool_decide as Hin.
      * rewrite Hkeys. split; [by left|]. intros [?| ->]; [done|]. by apply Hkeys.
      * rewrite elem_of_app, list_elem_of_singleton, Hkeys. done.
Qed.

(** ** Sorting *)

Lemma sort_insert_Permutation {A} (compare : A → A → Z) x sorted :
  sort_insert compare x sorted ≡ₚ x :: sorted.
Proof.
  induction sorted as [|y rest IH]; [done|]. cbn.
  case_bool_decide; [done|]. rewrite IH. apply Permutation_swap.
Qed.

Lemma Array_sort_Permutation {A} (compare : A → A → Z) xs :
  Array_sort compare xs ≡ₚ xs.
Proof.
  induction xs as [|x xs IH]; [done|]. cbn.
  rewrite sort_insert_Permutation. by f_equiv.
Qed.

Lemma Array_sort_nil {A} (compare : A → A → Z) xs :
  Array_sort compare xs = [] ↔ xs = [].
Proof.
  split; [|by intros ->].
  intros Hnil. apply Permutation_nil_r. by rewrite <- Hnil, Array_sort_Permutation.
Qed.

Lemma sort_insert_sorted {A} (compare : A → A → Z) (R : relation A) x sorted :
  (∀ a b, compare a b <= 0 ↔ R a b) → Transitive R → (∀ a b, R a b ∨ R b a) →
  StronglySorted R sorted → StronglySorted R (sort_insert compare x sorted).
Proof.
  intros Hcompare Htrans Htotal.
  induction 1 as [|y rest Hsorted IH Hall]; cbn.
  - repeat constructor.
  - case_bool_decide as Hle.
    + apply Hcompare in Hle. constructor; [by constructor|].
      constructor; [done|]. eapply Forall_impl; [exact Hall|].
      intros z Hz. by trans y.
    + constructor; [done|]. rewrite sort_insert_Permutation. constructor; [|done].
      destruct (Htotal x y) as [Hxy|]; [|done]. by apply Hcompare in Hxy.
Qed.

Lemma Array_sort_sorted {A} (compare : A → A → Z) (R : relation A) xs :
  (∀ a b, compare a b <= 0 ↔ R a b) → Transitive R → (∀ a b, R a b ∨ R b a) →
  StronglySorted R (Array_sort compare xs).
Proof.
  intros Hcompare Htrans Htotal. induction xs as [|x xs IH]; cbn.
  - constructor.
  - by apply sort_insert_sorted.
Qed.

Lemma StronglySorted_filter {A} (R : relation A) (P : A → Prop)
    `{∀ x, Decision (P x)} xs :
  StronglySorted R xs → StronglySorted R (filter P xs).
Proof.
  induction 1 as [|x xs Hsorted IH Hall]; [constructor|].
  destruct (decide (P x)).
  - rewrite filter_cons_True by done. constructor; [done|].
    apply Forall_forall. intros z [_ Hz]%list_elem_of_filter.
    rewrite Forall_forall in Hall. by apply Hall.
  - by rewrite filter_cons_False.
Qed.

Lemma StronglySorted_head_last {A} (R : relation A) xs first final :
  (∀ a, R a a) →
  StronglySorted R xs → head xs = Some first → last xs = Some final → R first final.
Proof.
  intros Hrefl Hsorted Hhead Hlast. destruct xs as [|x xs]; [done|].
  injection Hhead as ->. apply StronglySorted_cons in Hsorted as [Hall _].
  destruct xs as [|y ys]; [by injection Hlast as ->|].
  rewrite last_cons_cons in Hlast. apply last_Some_elem_of in Hlast.
  rewrite Forall_forall in Hall. by apply Hall.
Qed.

(** The transactions of the store, oldest first. *)
Lemma getAllTransactions_sorted (storage : MemStorage.t) :
  StronglySorted (λ a b, transactionDate a <= transactionDate b)
                 (MemStorage.getAllTransactions storage).
Proof.
  apply Array_sort_sorted.
  - intros a b. unfold getTime. lia.
  - intros a b c. lia.
  - intros a b. lia.
Qed.

(** ** Maps in insertion order *)

Lemma Map_set_keys {V} (entries : list (Z * V)) key value k :
  k ∈ (Map_set entries key value).*1 ↔ k = key ∨ k ∈ entries.*1.
Proof.
  induction entries as [|[k0 v0] rest IH]; cbn.
  - rewrite list_elem_of_singleton. split; [by left | by intros [|?%elem_of_nil]].
  - case_bool_decide as Hk; cbn; rewrite !elem_of_cons.
    + subst. tauto.
    + rewrite IH. tauto.
Qed.

Lemma Map_set_Forall {V} (Q : V → Prop) (entries : list (Z * V)) key value :
  Q value → Forall (λ p, Q p.2) entries →
  Forall (λ p, Q p.2) (Map_set entries key value).
Proof.
  intros Hvalue. induction 1 as [|[k0 v0] rest Hhead Hrest IH]; cbn.
  - by repeat constructor.
  - case_bool_decide; constructor; done.
Qed.

(** X18. What the store hands to the engine: [getAllTransactions] returns
    every stored transaction, oldest first; [getTransactionsByUserId] returns,
    newest first and without repetition, the stored transactions whose account
    is one of the user's accounts, and no others. *)
Theorem stored_histories (storage : MemStorage.t) (userId : Z) :
  let stored := Map_values (MemStorage.transactions storage) in
  let all := MemStorage.getAllTransactions storage in
  let history := MemStorage.getTransactionsByUserId storage userId in
  all ≡ₚ stored
  ∧ StronglySorted (λ a b, transactionDate a <= transactionDate b) all
  ∧ StronglySorted (λ a b, transactionDate b <= transactionDate a) history
  ∧ history ⊆+ all
  ∧ ∀ t, t ∈ history
         ↔ t ∈ stored
           ∧ ∃ account, account ∈ Map_values (MemStorage.accounts storage)
                        ∧ Account.userId account = userId
                        ∧ Account.id account = accountId t.
Proof.
  intros stored all history. subst stored all history.
  unfold MemStorage.getTransactionsByUserId, MemStorage.getAccountsByUserId.
  cbv zeta. split_and!.
  - apply Array_sort_Permutation.
  - apply getAllTransactions_sorted.
  - apply Array_sort_sorted.
    + intros a b. unfold getTime. lia.
    + intros a b c. lia.
    + intros a b. lia.
  - unfold MemStorage.getAllTransactions. rewrite !Array_sort_Permutation.
    apply sublist_submseteq, sublist_filter.
  - intros t. rewrite Array_sort_Permutation, list_elem_of_filter, list_elem_of_fmap.
    split.
    + intros [(account & Hid & [Huser Hin]%list_elem_of_filter) Hstored].
      split; [done|]. by exists account.
    + intros [Hstored (account & Hin & Huser & Hid)]. split; [|done].
      exists account. split; [done|]. by apply list_elem_of_filter.
Qed.

(** ** The remainder *)

Lemma binary_round_aux_canonical s m e :
  fexp prec emax (Z.pos (digits2_pos m) + e) = e → e <= 971 →
  binary_round_aux prec emax s (Z.pos m) e loc_Exact = S754_finite s m e.
Proof.
  intros Hcanonical He. unfold binary_round_aux, shr_fexp.
  cbn [Zdigits2 shr_record_of_loc]. rewrite Hcanonical, Z.sub_diag.
  cbn [shr shr_m loc_of_shr_record round_nearest_even Zdigits2].
  rewrite Hcanonical, Z.sub_diag. cbn [shr shr_m].
  by rewrite Zle_imp_le_bool by (unfold emax, prec; lia).
Qed.

(** Normalising a non-zero integer of fewer than 54 bits, scaled by a power
    of two that a double can have, gives a non-zero number. *)
Lemma binary_round_small s p e :
  Z.pos p < 2 ^ 53 → -1074 <= e <= 0 →
  ∃ m e', binary_round prec emax s p e = S754_finite s m e'.
Proof.
  intros Hp He. unfold binary_round, shl_align.
  pose proof (Pos2Z.is_pos (digits2_pos p)) as Hd.
  pose proof (digits2_lower p) as Hlow.
  assert (Hd53 : Z.pos (digits2_pos p) <= 53).
  { destruct (decide (Z.pos (digits2_pos p) <= 53)) as [|Hn]; [done|].
    assert (2 ^ 53 <= 2 ^ (Z.pos (digits2_pos p) - 1)) by (apply Z.pow_le_mono_r; lia).
    lia. }
  assert (Hfexp : fexp prec emax (Z.pos (digits2_pos p) + e)
                  = Z.max (Z.pos (digits2_pos p) + e - 53) (-1074)) by done.
  destruct (fexp prec emax (Z.pos (digits2_pos p) + e) - e) as [|k|k] eqn:Hk.
  - exists p, e. apply binary_round_aux_canonical; lia.
  - lia.
  - exists (Pos.iter xO p k), (fexp prec emax (Z.pos (digits2_pos p) + e)).
    unfold shift_pos. apply binary_round_aux_canonical; [|lia].
    rewrite digits2_iter_xO.
    replace (Z.pos (digits2_pos p) + Z.pos k + fexp prec emax (Z.pos (digits2_pos p) + e))
      with (Z.pos (digits2_pos p) + e) by lia.
    done.
Qed.

Lemma remainder_zero_iff sx mx ex my ey :
  bounded prec emax mx ex = true →
  Z.pos my < 2 ^ 53 → -1074 <= ey <= 0 →
  strictEquals_zero (remainder (S754_finite sx mx ex) (S754_finite false my ey)) = true
  ↔ (Z.pos my * 2 ^ (ey + 1074) | Z.pos mx * 2 ^ (ex + 1074)).
Proof.
  intros Hx Hmy Hey. pose proof (bounded_exponent _ _ Hx) as Hex.
  destruct (bounded_digits _ _ Hx) as [Hmx _].
  unfold remainder. set (e := Z.min ex ey).
  set (X := Z.pos mx * 2 ^ (ex - e)). set (Y := Z.pos my * 2 ^ (ey - e)).
  assert (HY : 0 < Y) by (apply Z.mul_pos_pos; [lia | apply Z.pow_pos_nonneg; lia]).
  assert (HX : 0 < X) by (apply Z.mul_pos_pos; [lia | apply Z.pow_pos_nonneg; lia]).
  assert (Hscale : 0 < 2 ^ (e + 1074)) by (apply Z.pow_pos_nonneg; lia).
  assert (HXs : Z.pos mx * 2 ^ (ex + 1074) = X * 2 ^ (e + 1074)).
  { subst X. rewrite <- Z.mul_assoc, <- Z.pow_add_r by lia. f_equal. f_equal. lia. }
  assert (HYs : Z.pos my * 2 ^ (ey + 1074) = Y * 2 ^ (e + 1074)).
  { subst Y. rewrite <- Z.mul_assoc, <- Z.pow_add_r by lia. f_equal. f_equal. lia. }
  rewrite HXs, HYs, Z.mul_divide_cancel_r by lia.
  rewrite <- Z.mod_divide by lia.
  case_bool_decide as Hr; [done|].
  split; [|done]. intros Hzero. exfalso.
  assert (Hrange : 0 < X mod Y < 2 ^ 53).
  { pose proof (Z.mod_pos_bound X Y HY) as Hbound.
    split; [lia|].
    destruct (decide (ex <= ey)) as [Hle|Hgt].
    - assert (X = Z.pos mx) as Heq.
      { subst X e. rewrite Z.min_l, Z.sub_diag by done. lia. }
      pose proof (Z.mod_le X Y ltac:(lia) HY). lia.
    - assert (Y = Z.pos my) as Heq.
      { subst Y e. rewrite Z.min_r, Z.sub_diag by lia. lia. }
      lia. }
  destruct (X mod Y) as [|r|r] eqn:Hmod; [done| |lia].
  assert (He : -1074 <= e <= 0) by (subst e; lia).
  destruct sx.
  - destruct (binary_round_small true r e) as (m' & e' & Hround); [lia | done |].
    change (strictEquals_zero (binary_round prec emax true r e) = true) in Hzero.
    by rewrite Hround in Hzero.
  - destruct (binary_round_small false r e) as (m' & e' & Hround); [lia | done |].
    change (strictEquals_zero (binary_round prec emax false r e) = true) in Hzero.
    by rewrite Hround in Hzero.
Qed.

(** A number that is a multiple of 5 or of 10 is a multiple of 1. *)
Lemma remainder_multiple (x : number) :
  finite_valid x = true →
  (strictEquals_zero (remainder x (of_Z 5)) = true
   ∨ strictEquals_zero (remainder x (of_Z 10)) = true) →
  strictEquals_zero (remainder x (of_Z 1)) = true.
Proof.
  unfold finite_valid. intros Hx.
  destruct x as [s|s| |s m e]; cbn [is_finite andb valid_binary] in Hx;
    try discriminate; [done|].
  change (of_Z 5) with (S754_finite false 5629499534213120 (-50)).
  change (of_Z 10) with (S754_finite false 5629499534213120 (-49)).
  change (of_Z 1) with (S754_finite false 4503599627370496 (-52)).
  rewrite !remainder_zero_iff by done.
  intros [Hdiv | Hdiv]; (etrans; [|exact Hdiv]).
  - exists 5. by vm_compute.
  - exists 10. by vm_compute.
Qed.

Section Further.
Context `{B : Backend}.

(** ** Feature engineering *)

(** X1. For a transaction of a non-zero amount with no transaction at its
    merchant in the history, the ratio of its amount to the merchant's
    average is exactly 1, and likewise for its category: the fallback
    denominator is the amount itself. *)
Theorem ratios_are_one_without_history
    (transaction : Transaction) (historicalTransactions : list Transaction) :
  amount transaction ≠ 0 → Z.abs (amount transaction) < 10 ^ 12 →
  let features := extractTransactionFeatures transaction historicalTransactions in
  finite_valid (f_amount features) = true
  ∧ (Forall (λ t, merchant t ≠ merchant transaction) historicalTransactions →
     amountVsMerchantAvg features = of_Z 1)
  ∧ (Forall (λ t, category t ≠ category transaction) historicalTransactions →
     amountVsCategoryAvg features = of_Z 1).
Proof.
  intros Hne Hrange features. split.
  - apply (absAmount_finite_valid transaction Hrange).
  - by apply ratio_features_without_history.
Qed.

(** X2. The two frequency features are NaN when the history is empty
    ([0/0]); for a non-empty history they are finite numbers, the merchant
    frequency being exactly 0 when no transaction of the history is at the
    merchant and exactly 1 when all are. *)
Theorem frequency_features
    (transaction : Transaction) (historicalTransactions : list Transaction) :
  let features := extractTransactionFeatures transaction historicalTransactions in
  (historicalTransactions = [] →
   merchantFrequency features = NaN ∧ categoryFrequency features = NaN)
  ∧ (historicalTransactions ≠ [] →
     Z.of_nat (length historicalTransactions) < 2 ^ 32 →
     finite_valid (merchantFrequency features) = true
     ∧ finite_valid (categoryFrequency features) = true
     ∧ (Forall (λ t, merchant t ≠ merchant transaction) historicalTransactions →
        merchantFrequency features = of_Z 0)
     ∧ (Forall (λ t, merchant t = merchant transaction) historicalTransactions →
        merchantFrequency features = of_Z 1)).
Proof.
  intros features. subst features. split.
  - by intros ->.
  - intros Hne Hlen.
    assert (Hpos : 0 < Z.of_nat (length historicalTransactions) < 2 ^ 53).
    { destruct historicalTransactions; [done|]. simpl length. split; [lia|].
      eapply Z.lt_trans; [exact Hlen | done]. }
    unfold extractTransactionFeatures. cbv zeta.
    cbn [merchantFrequency categoryFrequency]. unfold length_number.
    split_and!.
    + apply div_of_Z_finite; [|done].
      pose proof (length_filter (λ t, merchant t = merchant transaction)
                    historicalTransactions). lia.
    + apply div_of_Z_finite; [|done].
      pose proof (length_filter (λ t, category t = category transaction)
                    historicalTransactions). lia.
    + intros Hnone.
      rewrite (filter_none (λ t, merchant t = merchant transaction)) by done.
      by apply div_zero_of_Z.
    + intros Hall.
      rewrite (filter_all (λ t, merchant t = merchant transaction)) by done.
      by apply div_of_Z_self.
Qed.

(** X3. The 24-hour window has no later end: every transaction of the
    history dated less than 24 hours before the transaction, or at any time
    after it, is counted in [transactionVelocity24h] and summed in
    [totalAmount24h]; one dated more than 24 hours before it never is. *)
Theorem velocity_window_is_open_ended
    (transaction : Transaction) (historicalTransactions : list Transaction) :
  let features := extractTransactionFeatures transaction historicalTransactions in
  let counted :=
    filter (λ t, transactionDate transaction - 86400000 <= transactionDate t)
           historicalTransactions in
  transactionVelocity24h features = length_number counted
  ∧ totalAmount24h features = sumAbsAmounts counted
  ∧ (Forall (λ t, transactionDate transaction <= transactionDate t)
            historicalTransactions →
     transactionVelocity24h features = length_number historicalTransactions
     ∧ totalAmount24h features = sumAbsAmounts historicalTransactions).
Proof.
  intros features counted. subst features counted.
  unfold extractTransactionFeatures. cbv zeta.
  cbn [transactionVelocity24h totalAmount24h]. unfold getTime.
  assert (Hsame :
    filter (λ t, transactionDate transaction - transactionDate t <= 24 * 60 * 60 * 1000)
           historicalTransactions
    = filter (λ t, transactionDate transaction - 86400000 <= transactionDate t)
             historicalTransactions).
  { apply list_filter_iff. intros t. lia. }
  rewrite Hsame. split_and!; [done | done |].
  intros Hlater. rewrite filter_all; [done|].
  eapply Forall_impl; [exact Hlater|]. intros t Ht. cbv beta in Ht |- *. lia.
Qed.

(** ** The anomaly score *)

(** X4. Whatever the fitted model and the threshold, a score returned by
    [detectAnomaly] is NaN or at most 100, and the transaction is called
    anomalous exactly when the score is above 70; with a NaN score it never
    is. *)
Theorem anomaly_score_at_most_100
    (m : LayersModel) (anyThreshold : number)
    (transaction : Transaction) (historicalTransactions : list Transaction) :
  ∃ r, AnomalyDetector.detectAnomaly
         {| AnomalyDetector.model := Some m;
            AnomalyDetector.threshold := anyThreshold |}
         transaction historicalTransactions = Return r
       ∧ (AnomalyDetector.score r = NaN ∨ leb (AnomalyDetector.score r) (of_Z 100) = true)
       ∧ AnomalyDetector.isAnomaly r = gtb (AnomalyDetector.score r) (of_Z 70)
       ∧ (AnomalyDetector.score r = NaN → AnomalyDetector.isAnomaly r = false).
Proof.
  unfold AnomalyDetector.detectAnomaly. cbn [AnomalyDetector.model]. cbv zeta.
  eexists. split; [done|]. cbn [AnomalyDetector.score AnomalyDetector.isAnomaly].
  split; [apply Math_min_bound|]. split; [done|]. by intros ->.
Qed.

(** X5. In the isolation-forest variant the score is read off the forest's
    prediction for the transaction: a prediction of [-1] gives the score 100
    and an anomaly, a prediction of [1] the score 0 and none, and an empty
    answer the score NaN and none. *)
Theorem isolation_score_from_prediction
    (m : IsolationForest)
    (transaction : Transaction) (historicalTransactions : list Transaction) :
  let features := extractTransactionFeatures transaction historicalTransactions in
  let prediction := if_predict m [Object_values features] in
  let verdict score flag :=
    IsolationAnomalyDetector.detectAnomaly {| IsolationAnomalyDetector.model := Some m |}
      transaction historicalTransactions
    = Return {| AnomalyDetector.score := score;
                AnomalyDetector.isAnomaly := flag;
                AnomalyDetector.features := features |} in
  (head prediction = Some (of_Z (-1)) → verdict (of_Z 100) true)
  ∧ (head prediction = Some (of_Z 1) → verdict (of_Z 0) false)
  ∧ (head prediction = None → verdict NaN false).
Proof.
  intros features prediction verdict. subst features prediction verdict.
  unfold IsolationAnomalyDetector.detectAnomaly.
  cbn [IsolationAnomalyDetector.model]. cbv zeta.
  split_and!; by intros ->.
Qed.

(** ** Behavioral profiles *)

(** X6. [updateProfile] needs at least one transaction: on an empty list it
    throws and stores nothing; on any other list it returns, the holder's
    profile holds exactly the hours, merchants and categories of the list,
    and no other holder's profile changes. *)
Theorem updateProfile_needs_transactions
    (self : BehavioralProfiler.t) (userId : Z) (transactions : list Transaction) :
  let result := BehavioralProfiler.updateProfile self userId transactions in
  (transactions = [] →
   result = (Throw (TypeError_undefined "transactionDate"), self))
  ∧ (transactions ≠ [] →
     result.1 = Return ()
     ∧ (∃ profile,
          BehavioralProfiler.userProfiles result.2 !! userId = Some profile
          ∧ (∀ h, h ∈ BehavioralProfiler.typicalDayHours profile
                  ↔ ∃ t, t ∈ transactions ∧ getHours (transactionDate t) = h)
          ∧ (∀ s, s ∈ BehavioralProfiler.typicalMerchants profile
                  ↔ ∃ t, t ∈ transactions ∧ merchant t = s)
          ∧ (∀ s, s ∈ BehavioralProfiler.typicalCategories profile
                  ↔ ∃ t, t ∈ transactions ∧ category t = s))
     ∧ ∀ other, other ≠ userId →
         BehavioralProfiler.userProfiles result.2 !! other
         = BehavioralProfiler.userProfiles self !! other).
Proof.
  intros result. subst result. unfold BehavioralProfiler.updateProfile. split.
  - by intros ->.
  - intros Hne.
    destruct (head transactions) as [first|] eqn:Hhead;
      [|by destruct transactions].
    destruct (last transactions) as [final|] eqn:Hlast;
      [|by apply last_None in Hlast].
    cbn [fst snd BehavioralProfiler.userProfiles]. split; [done|]. split.
    + eexists. rewrite lookup_insert_eq. split; [done|].
      unfold BehavioralProfiler.buildProfile.
      cbn [BehavioralProfiler.typicalDayHours BehavioralProfiler.typicalMerchants
           BehavioralProfiler.typicalCategories].
      split_and!; intros x; rewrite elem_of_list_to_set, list_elem_of_fmap;
        split; intros (t & ? & ?); by exists t.
    + intros other Hother. by rewrite lookup_insert_ne.
Qed.

(** X7. Right after [updateProfile], a transaction whose hour, merchant and
    category each occur somewhere in the list the profile was built from
    scores 0, or 25 when its amount is above twice the mean the profile
    stores, which is the floating-point sum of the list's amounts divided by
    their number (and can lie below their average): the three familiarity
    checks are independent of each other. *)
Theorem profiled_transactions_are_familiar
    (self : BehavioralProfiler.t) (userId : Z) (transactions : list Transaction)
    (transaction : Transaction) :
  getHours (transactionDate transaction)
    ∈ map (λ t, getHours (transactionDate t)) transactions →
  merchant transaction ∈ map merchant transactions →
  category transaction ∈ map category transactions →
  let profiler := (BehavioralProfiler.updateProfile self userId transactions).2 in
  let average := div (sumAbsAmounts transactions) (length_number transactions) in
  BehavioralProfiler.analyzeTransaction profiler userId transaction
  = if gtb (absAmount transaction) (mul average (of_Z 2)) then of_Z 25 else of_Z 0.
Proof.
  intros Hhour Hmerchant Hcategory profiler average. subst profiler average.
  unfold BehavioralProfiler.updateProfile.
  destruct (head transactions) as [first|] eqn:Hhead;
    [|destruct transactions; [by apply elem_of_nil in Hhour | done]].
  destruct (last transactions) as [final|] eqn:Hlast;
    [|apply last_None in Hlast; subst; done].
  cbn [snd]. unfold BehavioralProfiler.analyzeTransaction.
  cbn [BehavioralProfiler.userProfiles]. rewrite lookup_insert_eq. cbv zeta.
  unfold BehavioralProfiler.buildProfile.
  cbn [BehavioralProfiler.typicalDayHours BehavioralProfiler.typicalMerchants
       BehavioralProfiler.typicalCategories BehavioralProfiler.averageAmount].
  rewrite !bool_decide_eq_false_2
    by (intros Hnot; apply Hnot; by apply elem_of_list_to_set).
  by destruct (gtb _ _).
Qed.

(** X8. [updateProfile] overwrites: after two updates for the same holder
    the state is the one the second update alone gives; nothing of the first
    list is kept. *)
Theorem updateProfile_replaces_profile
    (self : BehavioralProfiler.t) (userId : Z) (earlier later : list Transaction) :
  later ≠ [] →
  BehavioralProfiler.updateProfile
    (BehavioralProfiler.updateProfile self userId earlier).2 userId later
  = BehavioralProfiler.updateProfile self userId later.
Proof.
  intros Hne. unfold BehavioralProfiler.updateProfile.
  destruct (head later) as [first|] eqn:Hhead; [|by destruct later].
  destruct (last later) as [final|] eqn:Hlast; [|by apply last_None in Hlast].
  destruct (head earlier), (last earlier); cbn [snd]; try done.
  cbn [BehavioralProfiler.userProfiles]. by rewrite insert_insert_eq.
Qed.

(** ** The service *)

(** [analyzeTransaction] leaves the detector and the profiler alone. *)
Lemma analyzeTransaction_keeps_detector
    (self : FraudDetectionService.t) (transaction : Transaction) (userId : Z)
    (historicalTransactions : list Transaction) :
  let result :=
    FraudDetectionService.analyzeTransaction self transaction userId
      historicalTransactions in
  FraudDetectionService.anomalyDetector result.2
  = FraudDetectionService.anomalyDetector self
  ∧ FraudDetectionService.behavioralProfiler result.2
    = FraudDetectionService.behavioralProfiler self.
Proof.
  intros result. subst result. unfold FraudDetectionService.analyzeTransaction.
  destruct (AnomalyDetector.detectAnomaly _ _ _) as [r|e]; [|done].
  by destruct (FraudDetectionService.classify _ _ _ _) as [[c|e] classifiers].
Qed.

(** X10. [analyzeTransaction] changes nothing but the holder's classifier:
    the detector, every profile and every other holder's classifier are as
    before, whether it returns or throws. When it returns, the holder has a
    classifier, the one they had or else one trained on the given history.
    It throws when the detector has no model, when the training of a new
    classifier throws, or when the classifier's forest throws; the state is
    then as before, except that a classifier whose training returned and
    whose forest then threw has been stored. *)
Theorem analyzeTransaction_frame
    (self : FraudDetectionService.t) (transaction : Transaction) (userId : Z)
    (historicalTransactions : list Transaction) :
  let result :=
    FraudDetectionService.analyzeTransaction self transaction userId
      historicalTransactions in
  let asked := classifierAsked self userId historicalTransactions in
  FraudDetectionService.anomalyDetector result.2
  = FraudDetectionService.anomalyDetector self
  ∧ FraudDetectionService.behavioralProfiler result.2
    = FraudDetectionService.behavioralProfiler self
  ∧ (∀ other, other ≠ userId →
       FraudDetectionService.userClassifiers result.2 !! other
       = FraudDetectionService.userClassifiers self !! other)
  ∧ match result.1 with
    | Throw e =>
        thrownBy self transaction userId historicalTransactions e
        ∧ (result.2 = self
           ∨ FraudDetectionService.userClassifiers self !! userId = None
             ∧ (RandomForestClassifier.train (RandomForestClassifier.new userId)
                  historicalTransactions (map isFlagged historicalTransactions)).1
               = Return ()
             ∧ RandomForestClassifier.predict asked transaction historicalTransactions
               = Throw e
             ∧ FraudDetectionService.userClassifiers result.2 !! userId = Some asked)
    | Return r =>
        FraudDetectionService.userClassifiers result.2 !! userId = Some asked
        ∧ RandomForestClassifier.predict asked transaction historicalTransactions
          = Return (FraudDetectionService.classifierScore r)
    end.
Proof.
  intros result asked. subst result asked.
  pose proof (classify_cases self transaction userId historicalTransactions) as Hstep.
  cbv zeta in Hstep.
  unfold FraudDetectionService.analyzeTransaction, AnomalyDetector.detectAnomaly, thrownBy.
  destruct self as [detector profiler classifiers].
  cbn [FraudDetectionService.anomalyDetector FraudDetectionService.behavioralProfiler
       FraudDetectionService.userClassifiers] in *.
  destruct (AnomalyDetector.model detector) as [m|];
    [|cbn; split_and!; try done; by left].
  assert (Hasked :
    classifierAsked
      {| FraudDetectionService.anomalyDetector := detector;
         FraudDetectionService.behavioralProfiler := profiler;
         FraudDetectionService.userClassifiers := classifiers |}
      userId historicalTransactions
    = default
        (RandomForestClassifier.train (RandomForestClassifier.new userId)
           historicalTransactions (map isFlagged historicalTransactions)).2
        (classifiers !! userId)) by done.
  rewrite Hasked in Hstep |- *. clear Hasked.
  destruct (classifiers !! userId) as [classifier|] eqn:Hc; cbn [default] in *.
  - rewrite Hstep.
    destruct (RandomForestClassifier.predict _ _ _) as [c|e] eqn:Hpredict;
      cbn; rewrite Hc; split_and!; try done.
    + by right; right.
    + by left.
  - destruct (RandomForestClassifier.train _ _ _).1 as [[]|e] eqn:Htrain.
    + rewrite Hstep.
      destruct (RandomForestClassifier.predict _ _ _) as [c|e] eqn:Hpredict;
        cbn; rewrite lookup_insert_eq; split_and!; try done;
        try (by intros other Hne; rewrite lookup_insert_ne).
      * by right; right.
      * right. by split_and!.
    + rewrite Hstep. cbn. split_and!; try done; [|by left]. right; left. by split.
Qed.

(** X11. A holder first analysed with an empty history gets a classifier
    without a model, and [analyzeTransaction] never trains it afterwards:
    whatever the later transactions and histories, the holder's classifier
    score is 0 and the classifier stays as it is. *)
Theorem classifier_created_without_history_stays_untrained
    (self : FraudDetectionService.t) (m : LayersModel)
    (transaction : Transaction) (userId : Z) :
  AnomalyDetector.model (FraudDetectionService.anomalyDetector self) = Some m →
  FraudDetectionService.userClassifiers self !! userId = None →
  let first := FraudDetectionService.analyzeTransaction self transaction userId [] in
  FraudDetectionService.userClassifiers first.2 !! userId
  = Some (RandomForestClassifier.new userId)
  ∧ ∀ (later : Transaction) (historicalTransactions : list Transaction),
      ∃ r service,
        FraudDetectionService.analyzeTransaction first.2 later userId
          historicalTransactions = (Return r, service)
        ∧ FraudDetectionService.classifierScore r = of_Z 0
        ∧ FraudDetectionService.userClassifiers service !! userId
          = Some (RandomForestClassifier.new userId).
Proof.
  intros Hm Hc first.
  assert (Hfirst :
    FraudDetectionService.userClassifiers first.2 !! userId
    = Some (RandomForestClassifier.new userId)
    ∧ FraudDetectionService.anomalyDetector first.2
      = FraudDetectionService.anomalyDetector self).
  { subst first.
    unfold FraudDetectionService.analyzeTransaction, AnomalyDetector.detectAnomaly.
    rewrite Hm. unfold FraudDetectionService.classify. rewrite Hc.
    unfold RandomForestClassifier.train. rewrite bool_decide_eq_true_2 by done.
    unfold RandomForestClassifier.predict.
    cbv beta zeta iota. cbn [snd FraudDetectionService.userClassifiers
                             FraudDetectionService.anomalyDetector
                             RandomForestClassifier.model RandomForestClassifier.new].
    by rewrite lookup_insert_eq. }
  destruct Hfirst as [Hclassifier Hdetector]. split; [done|].
  intros later historicalTransactions.
  unfold FraudDetectionService.analyzeTransaction, AnomalyDetector.detectAnomaly.
  rewrite Hdetector, Hm. unfold FraudDetectionService.classify.
  rewrite Hclassifier. unfold RandomForestClassifier.predict.
  cbn [RandomForestClassifier.model RandomForestClassifier.new].
  eexists _, _. split; [done|]. by split.
Qed.

(** X12. When the anomaly score is an integer of [0,100], the suspicion
    score is the exactly rounded weighted sum of three integers, it is at
    most 91, and the transaction is flagged exactly when that sum rounds to
    71 or more, which needs a classifier score of 100 and an anomaly score of
    at least 49. *)
Theorem suspiciousScore_at_most_91
    (self : FraudDetectionService.t) (transaction : Transaction) (userId : Z)
    (historicalTransactions : list Transaction)
    (r : FraudDetectionService.Assessment) (self' : FraudDetectionService.t) :
  FraudDetectionService.analyzeTransaction self transaction userId historicalTransactions
  = (Return r, self') →
  integer_in 0 100 (FraudDetectionService.anomalyScore r) →
  ∃ a b c,
    FraudDetectionService.anomalyScore r = of_Z a
    ∧ FraudDetectionService.behavioralScore r = of_Z b
    ∧ FraudDetectionService.classifierScore r = of_Z c
    ∧ FraudDetectionService.suspiciousScore r = of_Z (fuse_exact a b c)
    ∧ 0 <= fuse_exact a b c <= 91
    ∧ (FraudDetectionService.isAnomaly r = true ↔ 71 <= fuse_exact a b c)
    ∧ (FraudDetectionService.isAnomaly r = true → c = 100 ∧ 49 <= a).
Proof.
  intros Hrun Hanomaly.
  pose proof (analyzeTransaction_inv self transaction userId historicalTransactions)
    as Hinv.
  rewrite Hrun in Hinv. destruct Hinv as (_ & Hb & Hc & _ & Hflag).
  destruct (suspiciousScore_exact self transaction userId historicalTransactions r self'
              Hrun Hanomaly) as (a & b & c & Ha & Hb' & Hc' & Hs & k & Hk & Hsk).
  destruct (behavioral_score_in_penaltySums
              (FraudDetectionService.behavioralProfiler self) userId transaction)
    as (b0 & Hin & Hb0).
  destruct (predict_0_or_100 _ _ _ _ Hc) as [fraud Hfraud].
  destruct Hanomaly as (a0 & Ha0 & Hanomaly).
  exists a0, b0, (if fraud then 100 else 0).
  assert (Hb0range : 0 <= b0 <= 70).
  { revert Hin. generalize b0. apply Forall_forall.
    apply (bool_decide_unpack _). by vm_compute. }
  destruct (fuse_exact_on_component_scores a0 b0 fraud Ha0 Hin) as [Hfuse Hrange].
  assert (Hclassifier :
    FraudDetectionService.classifierScore r = of_Z (if fraud then 100 else 0)).
  { rewrite Hfraud. by destruct fraud. }
  assert (Hscore :
    FraudDetectionService.suspiciousScore r
    = of_Z (fuse_exact a0 b0 (if fraud then 100 else 0))).
  { pose proof (analyzeTransaction_inv self transaction userId historicalTransactions)
      as Hinv.
    rewrite Hrun in Hinv. destruct Hinv as (_ & _ & _ & Hs' & _).
    by rewrite Hs', Hanomaly, Hb, Hb0, Hclassifier, Hfuse. }
  assert (Hgtb : ∀ n, 0 <= n <= 100 → gtb (of_Z n) (of_Z 70) = (70 <? n)).
  { intros n Hn.
    assert (Htable : Forall (λ n, gtb (of_Z n) (of_Z 70) = (70 <? n)) (seqZ 0 101)).
    { apply (bool_decide_unpack _). by vm_compute. }
    rewrite Forall_forall in Htable. apply Htable, elem_of_seqZ. lia. }
  assert (Hbound : fuse_exact a0 b0 (if fraud then 100 else 0) <= 91).
  { unfold fuse_exact. apply Z.lt_succ_r, Z.div_lt_upper_bound; [lia|].
    destruct fraud; lia. }
  assert (Hiff :
    FraudDetectionService.isAnomaly r = true
    ↔ 71 <= fuse_exact a0 b0 (if fraud then 100 else 0)).
  { rewrite Hflag, Hscore, Hgtb by lia. rewrite Z.ltb_lt. lia. }
  split_and!; [done | by rewrite Hb | done | done | lia | lia | done |].
  intros Hflagged%Hiff. unfold fuse_exact in Hflagged.
  destruct fraud.
  - split; [done|].
    destruct (decide (49 <= a0)) as [|Hsmall]; [done|].
    exfalso. apply Z.le_ngt in Hflagged. apply Hflagged.
    apply Z.div_lt_upper_bound; lia.
  - exfalso. apply Z.le_ngt in Hflagged. apply Hflagged.
    apply Z.div_lt_upper_bound; lia.
Qed.

(** The loop of [initialize] over groups with distinct keys: it stops at
    the first holder whose classifier fails to train, after storing that
    holder's profile. *)
Lemma initializeUsers_spec (groups : list (Z * list Transaction)) :
  ∀ (self : FraudDetectionService.t) (completion : Completion unit)
    (self' : FraudDetectionService.t),
  NoDup groups.*1 → Forall (λ p, p.2 ≠ []) groups →
  FraudDetectionService.initializeUsers self groups = (completion, self') →
  let profiles s :=
    BehavioralProfiler.userProfiles (FraudDetectionService.behavioralProfiler s) in
  let training (k : Z) (ts : list Transaction) :=
    RandomForestClassifier.train (RandomForestClassifier.new k) ts (map isFlagged ts) in
  FraudDetectionService.anomalyDetector self' = FraudDetectionService.anomalyDetector self
  ∧ (∀ k, k ∉ groups.*1 →
       profiles self' !! k = profiles self !! k
       ∧ FraudDetectionService.userClassifiers self' !! k
         = FraudDetectionService.userClassifiers self !! k)
  ∧ match completion with
    | Return _ =>
        ∀ k ts, (k, ts) ∈ groups →
          ∃ first final,
            head ts = Some first ∧ last ts = Some final
            ∧ profiles self' !! k = Some (BehavioralProfiler.buildProfile ts first final)
            ∧ (training k ts).1 = Return ()
            ∧ FraudDetectionService.userClassifiers self' !! k = Some (training k ts).2
    | Throw e =>
        ∃ k ts first final,
          (k, ts) ∈ groups
          ∧ head ts = Some first ∧ last ts = Some final
          ∧ profiles self' !! k = Some (BehavioralProfiler.buildProfile ts first final)
          ∧ (training k ts).1 = Throw e
          ∧ FraudDetectionService.userClassifiers self' !! k
            = FraudDetectionService.userClassifiers self !! k
    end.
Proof.
  induction groups as [|[k0 ts0] rest IH]; intros self completion self' Hnodup Hne Hrun;
    cbv zeta.
  - cbn in Hrun. injection Hrun as <- <-. split; [done|]. split; [done|].
    intros k ts Hin. by apply elem_of_nil in Hin.
  - cbn in Hnodup. apply NoDup_cons in Hnodup as [Hk0 Hnodup].
    apply Forall_cons in Hne as [Hne0 Hne]. cbn in Hne0.
    destruct (head ts0) as [first|] eqn:Hhead; [|by destruct ts0].
    destruct (last ts0) as [final|] eqn:Hlast; [|by apply last_None in Hlast].
    cbn [FraudDetectionService.initializeUsers] in Hrun.
    unfold BehavioralProfiler.updateProfile in Hrun. rewrite Hhead, Hlast in Hrun.
    destruct (RandomForestClassifier.train (RandomForestClassifier.new k0) ts0
                (map isFlagged ts0)) as [[[]|e] classifier] eqn:Htrain.
    + destruct (IH _ _ _ Hnodup Hne Hrun) as (Hdetector & Hout & Hin).
      cbn [FraudDetectionService.anomalyDetector FraudDetectionService.behavioralProfiler
           FraudDetectionService.userClassifiers BehavioralProfiler.userProfiles]
        in Hdetector, Hout, Hin.
      split; [done|]. split.
      { intros k Hnot.
        assert (k ≠ k0) by (intros ->; apply Hnot, list_elem_of_here).
        destruct (Hout k) as [-> ->]; [intros ?; by apply Hnot, list_elem_of_further|].
        by rewrite !lookup_insert_ne. }
      destruct completion as [[]|e].
      * intros k ts [Heq | Hrest]%elem_of_cons.
        -- injection Heq as -> ->. exists first, final.
           destruct (Hout k0 Hk0) as [-> ->]. rewrite Htrain, !lookup_insert_eq.
           by split_and!.
        -- by apply Hin.
      * destruct Hin as (k & ts & first' & final' & Hmember & ? & ? & ? & ? & Hsame).
        exists k, ts, first', final'. split_and!; [by apply list_elem_of_further|done..|].
        rewrite Hsame. apply lookup_insert_ne. intros <-.
        apply Hk0, list_elem_of_fmap. by exists (k0, ts).
    + injection Hrun as <- <-. split; [done|]. split.
      { intros k Hnot. cbn. split; [|done].
        apply lookup_insert_ne. intros <-. apply Hnot, list_elem_of_here. }
      exists k0, ts0, first, final. cbn. rewrite Htrain.
      rewrite lookup_insert_eq. split_and!; [apply list_elem_of_here|done..].
Qed.

(** [initialize] on a non-empty list: the detector is trained, with a NaN
    threshold, whether the rest returns or throws; each account of the list
    gets its profile and its classifier, up to the first account whose
    classifier fails to train. *)
Lemma initialize_spec
    (self : FraudDetectionService.t) (historicalTransactions : list Transaction) :
  historicalTransactions ≠ [] →
  let result := FraudDetectionService.initialize self historicalTransactions in
  let profiles s :=
    BehavioralProfiler.userProfiles (FraudDetectionService.behavioralProfiler s) in
  let training (k : Z) (ts : list Transaction) :=
    RandomForestClassifier.train (RandomForestClassifier.new k) ts (map isFlagged ts) in
  (∃ m, FraudDetectionService.anomalyDetector result.2
        = {| AnomalyDetector.model := Some m; AnomalyDetector.threshold := NaN |})
  ∧ (∀ k, filter (λ t, accountId t = k) historicalTransactions = [] →
       profiles result.2 !! k = profiles self !! k
       ∧ FraudDetectionService.userClassifiers result.2 !! k
         = FraudDetectionService.userClassifiers self !! k)
  ∧ match result.1 with
    | Return _ =>
        ∀ k,
          match filter (λ t, accountId t = k) historicalTransactions with
          | [] => True
          | first :: rest =>
              let own := first :: rest in
              profiles result.2 !! k
              = Some (BehavioralProfiler.buildProfile own first (default first (last own)))
              ∧ (training k own).1 = Return ()
              ∧ FraudDetectionService.userClassifiers result.2 !! k
                = Some (training k own).2
          end
    | Throw e =>
        ∃ k first rest,
          let own := first :: rest in
          filter (λ t, accountId t = k) historicalTransactions = own
          ∧ profiles result.2 !! k
            = Some (BehavioralProfiler.buildProfile own first (default first (last own)))
          ∧ (training k own).1 = Throw e
          ∧ FraudDetectionService.userClassifiers result.2 !! k
            = FraudDetectionService.userClassifiers self !! k
    end.
Proof.
  intros Hne result profiles training. subst result.
  destruct historicalTransactions as [|t0 rest]; [done|].
  set (historicalTransactions := t0 :: rest) in *.
  unfold FraudDetectionService.initialize.
  destruct (train_threshold_NaN (FraudDetectionService.anomalyDetector self) t0 rest)
    as [m Htrain].
  fold historicalTransactions in Htrain. rewrite Htrain.
  destruct (groupByAccount_spec historicalTransactions) as (Hnodup & Hgroups & Hkeys).
  rewrite Forall_forall in Hgroups.
  assert (Hmember : ∀ k, k ∈ map accountId historicalTransactions
                         ↔ filter (λ t, accountId t = k) historicalTransactions ≠ []).
  { intros k. rewrite list_elem_of_fmap. split.
    - intros (u & -> & Hu) Hnil.
      assert (Hin : u ∈ filter (λ t, accountId t = accountId u) historicalTransactions)
        by by apply list_elem_of_filter.
      rewrite Hnil in Hin. by apply elem_of_nil in Hin.
    - intros Hnonempty.
      destruct (filter _ _) as [|u own] eqn:Hown; [done|].
      assert (Hin : u ∈ filter (λ t, accountId t = k) historicalTransactions)
        by (rewrite Hown; apply list_elem_of_here).
      apply list_elem_of_filter in Hin as [Hacc Hin]. by exists u. }
  assert (Hnonempty :
    Forall (λ p, p.2 ≠ []) (FraudDetectionService.groupByAccount historicalTransactions)).
  { apply Forall_forall. intros [k ts] Hin. rewrite (Hgroups _ Hin). cbn.
    apply Hmember, Hkeys, list_elem_of_fmap. by exists (k, ts). }
  destruct (FraudDetectionService.initializeUsers _ _) as [completion self'] eqn:Hrun.
  destruct (initializeUsers_spec _ _ _ _ Hnodup Hnonempty Hrun)
    as (Hdetector & Hout & Hin).
  fold profiles training in Hout, Hin. cbn [fst snd].
  assert (Hgroup : ∀ k ts,
    (k, ts) ∈ FraudDetectionService.groupByAccount historicalTransactions →
    ts = filter (λ u, accountId u = k) historicalTransactions).
  { intros k ts Hp. exact (Hgroups _ Hp). }
  split; [exists m; by rewrite Hdetector|]. split.
  { intros k Hnil. apply Hout. intros Hk%Hkeys%Hmember. by apply Hk. }
  destruct completion as [[]|e].
  - intros k.
    destruct (filter (λ t, accountId t = k) historicalTransactions)
      as [|first own'] eqn:Hown; [done|].
    assert (Hk : k ∈ (FraudDetectionService.groupByAccount historicalTransactions).*1).
    { apply Hkeys, Hmember. by rewrite Hown. }
    apply list_elem_of_fmap in Hk as ([k' ts] & Hk' & Hp). cbn in Hk'. subst k'.
    pose proof (Hgroup _ _ Hp) as Hts. rewrite Hown in Hts. subst ts.
    destruct (Hin _ _ Hp) as (first' & final & Hhead & Hlast & Hprofile & Hreturn & Hc).
    injection Hhead as <-. cbv zeta. rewrite Hlast. cbn [default]. by split_and!.
  - destruct Hin as (k & ts & first & final & Hp & Hhead & Hlast & Hprofile & Hthrow & Hc).
    pose proof (Hgroup _ _ Hp) as Hts.
    destruct ts as [|first' own']; [done|]. injection Hhead as ->.
    exists k, first, own'. cbv zeta. rewrite Hlast. cbn [default]. by split_and!.
Qed.

(** X13. [initialize] on a non-empty list trains the detector, which then
    has a model and the threshold NaN whether the call returns or throws, and
    leaves the profiles and classifiers of accounts without transactions in
    the list as they were. When it returns, for every account that has
    transactions in the list the profile and the classifier stored under the
    account's id are built from exactly that account's transactions, in
    their order in the list. When it throws, the error comes from the
    training of the classifier of one account of the list, whose profile has
    been stored and whose classifier has not. *)
Theorem initialize_profiles_each_account
    (self : FraudDetectionService.t) (historicalTransactions : list Transaction) :
  historicalTransactions ≠ [] →
  let result := FraudDetectionService.initialize self historicalTransactions in
  let profiles s :=
    BehavioralProfiler.userProfiles (FraudDetectionService.behavioralProfiler s) in
  let library (own : list Transaction) :=
    forest_train (map (λ t, (t, strictlyEarlier t own)) own) (map isFlagged own) in
  (∃ m, FraudDetectionService.anomalyDetector result.2
        = {| AnomalyDetector.model := Some m; AnomalyDetector.threshold := NaN |})
  ∧ (∀ k, filter (λ t, accountId t = k) historicalTransactions = [] →
       profiles result.2 !! k = profiles self !! k
       ∧ FraudDetectionService.userClassifiers result.2 !! k
         = FraudDetectionService.userClassifiers self !! k)
  ∧ match result.1 with
    | Return _ =>
        ∀ k,
          let own := filter (λ t, accountId t = k) historicalTransactions in
          match own with
          | [] => True
          | first :: _ =>
              profiles result.2 !! k
              = Some (BehavioralProfiler.buildProfile own first
                        (default first (last own)))
              ∧ (library own).1 = Return ()
              ∧ FraudDetectionService.userClassifiers result.2 !! k
                = Some {| RandomForestClassifier.model := Some (library own).2;
                          RandomForestClassifier.userId := k |}
          end
    | Throw e =>
        ∃ k,
          let own := filter (λ t, accountId t = k) historicalTransactions in
          match own with
          | [] => False
          | first :: _ =>
              profiles result.2 !! k
              = Some (BehavioralProfiler.buildProfile own first
                        (default first (last own)))
              ∧ (library own).1 = Throw e
              ∧ FraudDetectionService.userClassifiers result.2 !! k
                = FraudDetectionService.userClassifiers self !! k
          end
    end.
Proof.
  intros Hne result profiles library.
  pose proof (initialize_spec self historicalTransactions Hne) as (Hdetector & Hout & Hin).
  fold result profiles in Hdetector, Hout, Hin.
  assert (Htraining : ∀ k first rest,
    RandomForestClassifier.train (RandomForestClassifier.new k) (first :: rest)
      (map isFlagged (first :: rest))
    = ((library (first :: rest)).1,
       {| RandomForestClassifier.model := Some (library (first :: rest)).2;
          RandomForestClassifier.userId := k |})).
  { intros k first rest. unfold RandomForestClassifier.train.
    by rewrite bool_decide_eq_false_2. }
  split; [done|]. split; [done|].
  destruct (result.1) as [[]|e].
  - intros k. specialize (Hin k). cbv zeta in Hin |- *.
    destruct (filter _ _) as [|first rest]; [done|].
    by rewrite Htraining in Hin.
  - destruct Hin as (k & first & rest & Hin). cbv zeta in Hin.
    destruct Hin as (Hown & Hprofile & Hthrow & Hc).
    exists k. cbv zeta. rewrite Hown. by rewrite Htraining in Hthrow.
Qed.

(** ** The service façade *)

(** With a NaN threshold every assessment is unflagged, and a throw comes
    from the classifier step. *)
Lemma analyzeTransaction_NaN_threshold
    (self : FraudDetectionService.t) (m : LayersModel)
    (transaction : Transaction) (userId : Z) (historicalTransactions : list Transaction) :
  FraudDetectionService.anomalyDetector self
  = {| AnomalyDetector.model := Some m; AnomalyDetector.threshold := NaN |} →
  match FraudDetectionService.analyzeTransaction self transaction userId
          historicalTransactions with
  | (Return r, _) =>
      unflagged r
      ∧ FraudDetectionService.behavioralScore r
        = BehavioralProfiler.analyzeTransaction
            (FraudDetectionService.behavioralProfiler self) userId transaction
  | (Throw e, _) => thrownBy self transaction userId historicalTransactions e
  end.
Proof.
  intros Hdetector.
  pose proof (analyzeTransaction_inv self transaction userId historicalTransactions)
    as Hinv.
  destruct (FraudDetectionService.analyzeTransaction _ _ _ _) as [[r|e] self'] eqn:Hrun;
    [|done].
  destruct (assessment_NaN_threshold _ _ _ _ _ _ Hrun) as (_ & Hscore & Hflag);
    [by rewrite Hdetector|].
  by destruct Hinv as (_ & Hb & _).
Qed.

Lemma getAllTransactions_nil (storage : MemStorage.t) :
  MemStorage.getAllTransactions storage = [] ↔ MemStorage.transactions storage = [].
Proof.
  unfold MemStorage.getAllTransactions. rewrite Array_sort_nil.
  unfold Map_values. by destruct (MemStorage.transactions storage).
Qed.

(** [initialize]: when it throws the service stays uninitialised; on a
    store without transactions it throws and leaves the service as it
    was. *)
Lemma MLService_initialize_cases (self : MLService.t) (storage : MemStorage.t) :
  initializedWithNaN self →
  let result := MLService.initialize self storage in
  initializedWithNaN result.2
  ∧ match result.1 with
    | Return _ => MLService.isInitialized result.2 = true
    | Throw e =>
        MLService.isInitialized self = false
        ∧ MLService.isInitialized result.2 = false
        ∧ (MemStorage.transactions storage = [] →
           e = TypeError_undefined "length" ∧ result.2 = self)
    end.
Proof.
  intros Hinv result. subst result. unfold MLService.initialize.
  destruct (MLService.isInitialized self) eqn:Hinit; [by cbn|].
  destruct (MemStorage.getAllTransactions storage) as [|t ts] eqn:Hall.
  - apply getAllTransactions_nil in Hall.
    destruct self as [[detector profiler classifiers] initialized].
    cbn in Hinit |- *. subst initialized. split; [|done].
    intros Htrue. cbn in Htrue. congruence.
  - pose proof (initialize_spec (MLService.fraudDetectionService self) (t :: ts))
      as ([m Hdetector] & _); [done|].
    destruct (FraudDetectionService.initialize _ _) as [[[]|e] service].
    + cbn. split; [|done]. intros _. by exists m.
    + cbn. split; [by intros ?|]. split_and!; [done..|].
      intros Hempty%getAllTransactions_nil. by rewrite Hall in Hempty.
Qed.

(** [analyzeTransaction] of the façade never touches the store. *)
Lemma MLService_analyzeTransaction_cases
    (self : MLService.t) (storage : MemStorage.t) (now : Z)
    (transaction : Transaction) (userId : Z) :
  initializedWithNaN self →
  let result := MLService.analyzeTransaction self storage now transaction userId in
  let started := MLService.initialize self storage in
  initializedWithNaN result.1.2
  ∧ result.2 = storage
  ∧ match result.1.1 with
    | Return r => unflagged r ∧ MLService.isInitialized result.1.2 = true
    | Throw e =>
        started.1 = Throw e ∧ result.1.2 = started.2
        ∨ started.1 = Return ()
          ∧ MLService.isInitialized result.1.2 = true
          ∧ thrownBy (MLService.fraudDetectionService started.2) transaction userId
              (MemStorage.getTransactionsByUserId storage userId) e
    end.
Proof.
  intros Hinv result started. subst result.
  assert (Hready :
    ∀ ready : MLService.t,
      initializedWithNaN ready → MLService.isInitialized ready = true →
      let result :=
        match FraudDetectionService.analyzeTransaction
                (MLService.fraudDetectionService ready) transaction userId
                (MemStorage.getTransactionsByUserId storage userId) with
        | (Throw e, service) =>
            (Throw e, {| MLService.fraudDetectionService := service;
                         MLService.isInitialized := MLService.isInitialized ready |},
             storage)
        | (Return result, service) =>
            if FraudDetectionService.isAnomaly result
            then (Return result,
                  {| MLService.fraudDetectionService := service;
                     MLService.isInitialized := MLService.isInitialized ready |},
                  (MemStorage.createAlert storage
                     (MLService.suspiciousTransactionAlert transaction userId result)
                     now).2)
            else (Return result,
                  {| MLService.fraudDetectionService := service;
                     MLService.isInitialized := MLService.isInitialized ready |},
                  storage)
        end in
      initializedWithNaN result.1.2 ∧ result.2 = storage
      ∧ MLService.isInitialized result.1.2 = true
      ∧ match result.1.1 with
        | Return r => unflagged r
        | Throw e =>
            thrownBy (MLService.fraudDetectionService ready) transaction userId
              (MemStorage.getTransactionsByUserId storage userId) e
        end).
  { intros ready Hready Hinit. destruct (Hready Hinit) as [m Hdetector].
    pose proof (analyzeTransaction_keeps_detector (MLService.fraudDetectionService ready)
                  transaction userId (MemStorage.getTransactionsByUserId storage userId))
      as (Hsame & _).
    pose proof (analyzeTransaction_NaN_threshold (MLService.fraudDetectionService ready) m
                  transaction userId (MemStorage.getTransactionsByUserId storage userId)
                  Hdetector) as Hcase.
    cbv zeta in Hsame.
    destruct (FraudDetectionService.analyzeTransaction _ _ _ _) as [[r|e] service].
    - destruct Hcase as [[Hscore Hflag] _]. rewrite Hflag. cbn in Hsame |- *.
      split_and!; [|done..]. intros _. exists m. cbn. by rewrite Hsame.
    - cbn in Hsame |- *. split_and!; [|done..]. intros _. exists m. cbn.
      by rewrite Hsame. }
  unfold MLService.analyzeTransaction.
  destruct (MLService.isInitialized self) eqn:Hinit; cbn [negb].
  - assert (Hstarted : started = (Return (), self)).
    { subst started. unfold MLService.initialize. by rewrite Hinit. }
    rewrite Hstarted. cbn [fst snd].
    specialize (Hready self Hinv Hinit). cbv zeta in Hready.
    destruct (FraudDetectionService.analyzeTransaction _ _ _ _) as [[r|e] service].
    + destruct (FraudDetectionService.isAnomaly r); cbn in Hready |- *;
        by destruct Hready as (? & ? & ? & ?).
    + cbn in Hready |- *. destruct Hready as (? & ? & ? & ?). split_and!; [done..|].
      right. by split_and!.
  - pose proof (MLService_initialize_cases self storage Hinv) as [Hinv' Hcase].
    cbv zeta in Hinv', Hcase. fold started in Hinv', Hcase |- *.
    destruct started as [[[]|e] ready].
    + cbn [fst snd] in Hinv', Hcase |- *.
      specialize (Hready ready Hinv' Hcase). cbv zeta in Hready.
      destruct (FraudDetectionService.analyzeTransaction _ _ _ _) as [[r|e] service].
      * destruct (FraudDetectionService.isAnomaly r); cbn in Hready |- *;
          by destruct Hready as (? & ? & ? & ?).
      * cbn in Hready |- *. destruct Hready as (? & ? & ? & ?). split_and!; [done..|].
        right. by split_and!.
    + cbn [fst snd] in Hinv', Hcase |- *. split_and!; [done | done | by left].
Qed.

Lemma MLService_analyzeEach_cases (transactions : list Transaction) :
  ∀ (self : MLService.t) (storage : MemStorage.t) (now : nat → Z)
    (results : list (Z * FraudDetectionService.Assessment)),
  initializedWithNaN self → MLService.isInitialized self = true →
  Forall (λ p, unflagged p.2) results →
  let result := MLService.analyzeEach self storage now transactions results in
  initializedWithNaN result.1.2
  ∧ MLService.isInitialized result.1.2 = true
  ∧ result.2 = storage
  ∧ match result.1.1 with
    | Return results' =>
        Forall (λ p, unflagged p.2) results'
        ∧ ∀ k, k ∈ results'.*1 ↔ k ∈ results.*1 ∨ k ∈ map id transactions
    | Throw _ => True
    end.
Proof.
  induction transactions as [|transaction rest IH];
    intros self storage now results Hinv Hinit Hresults result; subst result.
  - cbn. split_and!; [done..|].
    intros k. rewrite elem_of_nil. tauto.
  - cbn [MLService.analyzeEach].
    pose proof (MLService_analyzeTransaction_cases self storage (now 0%nat) transaction
                  (accountId transaction) Hinv) as (Hinv' & Hstorage & Hcase).
    cbv zeta in Hinv', Hstorage, Hcase.
    assert (Hstarted : MLService.initialize self storage = (Return (), self)).
    { unfold MLService.initialize. by rewrite Hinit. }
    rewrite Hstarted in Hcase. cbn [fst snd] in Hcase.
    destruct (MLService.analyzeTransaction self storage (now 0%nat) transaction
                (accountId transaction)) as [[[r|e] self'] storage'].
    + cbn [fst snd] in Hinv', Hstorage, Hcase. subst storage'.
      destruct Hcase as [Hunflagged Hinit'].
      pose proof (IH self' storage (λ n, now (S n))
                    (Map_set results (id transaction) r) Hinv' Hinit'
                    ltac:(by apply Map_set_Forall)) as (? & ? & ? & Hrest).
      cbv zeta in Hrest |- *. split_and!; [done..|].
      destruct (MLService.analyzeEach _ _ _ _ _).1.1 as [results'|]; [|done].
      destruct Hrest as [? Hkeys]. split; [done|].
      intros k. rewrite Hkeys, Map_set_keys. cbn. rewrite elem_of_cons. tauto.
    + cbn [fst snd] in Hinv', Hstorage, Hcase |- *.
      destruct Hcase as [[[=] _] | (_ & Hinit' & _)]. by split_and!.
Qed.

Lemma reachable_initializedWithNaN (self : MLService.t) :
  reachable self → initializedWithNaN self.
Proof.
  induction 1 as [|self storage _ IH|self storage now transaction userId _ IH
                  |self storage now transactions _ IH].
  - intros Hinit. done.
  - by apply MLService_initialize_cases.
  - by apply MLService_analyzeTransaction_cases.
  - unfold MLService.analyzeTransactions.
    destruct (MLService.isInitialized self) eqn:Hinit; cbn [negb].
    + by apply MLService_analyzeEach_cases.
    + pose proof (MLService_initialize_cases self storage IH) as [Hinv' Hcase].
      cbv zeta in Hinv', Hcase.
      destruct (MLService.initialize self storage) as [[[]|e] ready]; [|done].
      by apply MLService_analyzeEach_cases.
Qed.

(** X14. An [MLService] never files an alert: in every state its methods
    can bring it to and whatever the store holds, [analyzeTransaction] leaves
    the store as it is, and every assessment it returns has a NaN suspicion
    score and is not flagged. It throws when [initialize] throws, the service
    then staying uninitialised, or when the classifier step of the analysis
    throws; on a store without transactions an uninitialised service always
    throws, and is left as it was. *)
Theorem MLService_never_files_an_alert
    (self : MLService.t) (storage : MemStorage.t) (now : Z)
    (transaction : Transaction) (userId : Z) :
  reachable self →
  let result := MLService.analyzeTransaction self storage now transaction userId in
  let started := MLService.initialize self storage in
  result.2 = storage
  ∧ match result.1.1 with
    | Return r =>
        FraudDetectionService.suspiciousScore r = NaN
        ∧ FraudDetectionService.isAnomaly r = false
        ∧ MLService.isInitialized result.1.2 = true
    | Throw e =>
        started.1 = Throw e ∧ result.1.2 = started.2
        ∧ MLService.isInitialized result.1.2 = false
        ∨ started.1 = Return ()
          ∧ MLService.isInitialized result.1.2 = true
          ∧ thrownBy (MLService.fraudDetectionService started.2) transaction userId
              (MemStorage.getTransactionsByUserId storage userId) e
    end
  ∧ (MLService.isInitialized self = false → MemStorage.transactions storage = [] →
     result = (Throw (TypeError_undefined "length"), self, storage)).
Proof.
  intros Hreachable%reachable_initializedWithNaN result started.
  pose proof (MLService_analyzeTransaction_cases self storage now transaction userId
                Hreachable) as (_ & Hstorage & Hcase).
  pose proof (MLService_initialize_cases self storage Hreachable) as [_ Hstarted].
  fold result started in Hstorage, Hcase, Hstarted. split; [done|]. split.
  - destruct (result.1.1) as [r|e]; [by destruct Hcase as [[? ?] ?]|].
    destruct Hcase as [[Hthrow Hstate] | Hcase]; [left | by right].
    rewrite Hthrow in Hstarted. destruct Hstarted as (_ & Hinit & _).
    split_and!; [done..|]. by rewrite Hstate.
  - intros Hinit Hempty. subst result. unfold MLService.analyzeTransaction.
    rewrite Hinit. cbn [negb]. unfold MLService.initialize. rewrite Hinit.
    rewrite (proj2 (getAllTransactions_nil storage) Hempty).
    destruct self as [[detector profiler classifiers] initialized].
    cbn in Hinit |- *. by subst initialized.
Qed.

(** X15. The batch method [analyzeTransactions] never files an alert
    either: it leaves the store as it is, and when it returns, its map has an
    entry under the id of each transaction of the batch and of no other,
    every one with a NaN suspicion score and not flagged. When it throws,
    either [initialize] threw, or the service is initialised and the analysis
    of one transaction threw. *)
Theorem MLService_batch_never_files_an_alert
    (self : MLService.t) (storage : MemStorage.t) (now : nat → Z)
    (transactions : list Transaction) :
  reachable self →
  let result := MLService.analyzeTransactions self storage now transactions in
  let started := MLService.initialize self storage in
  result.2 = storage
  ∧ match result.1.1 with
    | Return results =>
        (∀ k, k ∈ results.*1 ↔ k ∈ map id transactions)
        ∧ Forall (λ p, FraudDetectionService.suspiciousScore p.2 = NaN
                       ∧ FraudDetectionService.isAnomaly p.2 = false) results
    | Throw e =>
        started.1 = Throw e ∧ result.1.2 = started.2
        ∧ MLService.isInitialized result.1.2 = false
        ∨ started.1 = Return () ∧ MLService.isInitialized result.1.2 = true
    end
  ∧ (MLService.isInitialized self = false → MemStorage.transactions storage = [] →
     result = (Throw (TypeError_undefined "length"), self, storage)).
Proof.
  intros Hinv%reachable_initializedWithNaN result started. subst result.
  unfold MLService.analyzeTransactions.
  assert (Hloop :
    ∀ ready, initializedWithNaN ready → MLService.isInitialized ready = true →
      let result := MLService.analyzeEach ready storage now transactions [] in
      result.2 = storage
      ∧ MLService.isInitialized result.1.2 = true
      ∧ match result.1.1 with
        | Return results =>
            (∀ k, k ∈ results.*1 ↔ k ∈ map id transactions)
            ∧ Forall (λ p, FraudDetectionService.suspiciousScore p.2 = NaN
                           ∧ FraudDetectionService.isAnomaly p.2 = false) results
        | Throw e => True
        end).
  { intros ready Hready Hinit result.
    destruct (MLService_analyzeEach_cases transactions ready storage now [] Hready Hinit)
      as (_ & Hinit' & Hstorage & Hrun); [constructor|].
    fold result in Hinit', Hstorage, Hrun. split; [done|]. split; [done|].
    destruct (result.1.1) as [results|e]; [|done]. destruct Hrun as [Hunflagged Hkeys].
    split; [|done]. intros k. rewrite Hkeys. cbn. rewrite elem_of_nil. tauto. }
  pose proof (MLService_initialize_cases self storage Hinv) as [Hinv' Hcase].
  cbv zeta in Hinv', Hcase. fold started in Hinv', Hcase.
  split_and!.
  - destruct (MLService.isInitialized self) eqn:Hinit; cbn [negb].
    + by destruct (Hloop self Hinv Hinit) as [? _].
    + fold started. destruct started as [[[]|e] ready]; [|done].
      by destruct (Hloop ready Hinv' Hcase) as [? _].
  - destruct (MLService.isInitialized self) eqn:Hinit; cbn [negb].
    + assert (Hstarted : started = (Return (), self)).
      { subst started. unfold MLService.initialize. by rewrite Hinit. }
      rewrite Hstarted. cbn [fst snd].
      destruct (Hloop self Hinv Hinit) as (_ & Hinit' & Hrun). cbv zeta in Hinit', Hrun.
      destruct (MLService.analyzeEach _ _ _ _ _).1.1; [done | by right].
    + fold started. destruct started as [[[]|e] ready].
      * cbn [fst snd] in Hinv', Hcase |- *.
        destruct (Hloop ready Hinv' Hcase) as (_ & Hinit' & Hrun).
        cbv zeta in Hinit', Hrun.
        destruct (MLService.analyzeEach _ _ _ _ _).1.1; [done | by right].
      * cbn [fst snd] in Hcase |- *. left. by destruct Hcase as (_ & ? & _).
  - intros Hinit Hempty. rewrite Hinit. cbn [negb].
    unfold MLService.initialize. rewrite Hinit.
    rewrite (proj2 (getAllTransactions_nil storage) Hempty).
    destruct self as [[detector profiler classifiers] initialized].
    cbn in Hinit |- *. by subst initialized.
Qed.

(** X16. An initialised [MLService] is never trained again: [initialize]
    does nothing, whatever the store holds by then, and [analyzeTransaction]
    leaves the anomaly detector and every behavioral profile as they
    are. *)
Theorem MLService_trains_once
    (self : MLService.t) (storage : MemStorage.t) (now : Z)
    (transaction : Transaction) (userId : Z) :
  MLService.isInitialized self = true →
  let service s := MLService.fraudDetectionService s in
  let result := MLService.analyzeTransaction self storage now transaction userId in
  MLService.initialize self storage = (Return (), self)
  ∧ MLService.isInitialized result.1.2 = true
  ∧ FraudDetectionService.anomalyDetector (service result.1.2)
    = FraudDetectionService.anomalyDetector (service self)
  ∧ FraudDetectionService.behavioralProfiler (service result.1.2)
    = FraudDetectionService.behavioralProfiler (service self).
Proof.
  intros Hinit service result. subst service result.
  unfold MLService.initialize, MLService.analyzeTransaction. rewrite Hinit.
  split; [done|]. cbn [negb].
  pose proof (analyzeTransaction_keeps_detector (MLService.fraudDetectionService self)
                transaction userId (MemStorage.getTransactionsByUserId storage userId))
    as (Hdetector & Hprofiler).
  cbv zeta in Hdetector, Hprofiler.
  destruct (FraudDetectionService.analyzeTransaction _ _ _ _) as [[r|e] service];
    [destruct (FraudDetectionService.isAnomaly r)|]; cbn in *; by split_and!.
Qed.

(** X17. Profiles are stored under account ids and looked up under the
    user id: when the first call of a fresh [MLService] on a store with
    transactions returns an assessment, its behavioral score for user
    [userId] is computed against the profile of the account whose id is
    [userId], built from that account's stored transactions oldest first;
    when no stored transaction belongs to an account of that id the score is
    0, whatever the user's own accounts hold. Whether the call returns or
    throws, the store is as before. *)
Theorem behavioral_profile_is_looked_up_by_account_id
    (storage : MemStorage.t) (now : Z) (transaction : Transaction) (userId : Z) :
  MemStorage.transactions storage ≠ [] →
  match MLService.analyzeTransaction MLService.new storage now transaction userId with
  | (Return r, _, storage') =>
      storage' = storage
      ∧ match filter (λ t, accountId t = userId) (MemStorage.getAllTransactions storage)
        with
        | [] => FraudDetectionService.behavioralScore r = of_Z 0
        | first :: rest =>
            let own := first :: rest in
            let final := default first (last own) in
            transactionDate first <= transactionDate final
            ∧ FraudDetectionService.behavioralScore r
              = BehavioralProfiler.analyzeTransaction
                  {| BehavioralProfiler.userProfiles :=
                       {[ userId := BehavioralProfiler.buildProfile own first final ]} |}
                  userId transaction
        end
  | (Throw e, _, storage') => storage' = storage
  end.
Proof.
  intros Hstored.
  assert (Hall : MemStorage.getAllTransactions storage ≠ [])
    by by rewrite getAllTransactions_nil.
  pose proof (initialize_spec FraudDetectionService.new
                (MemStorage.getAllTransactions storage) Hall)
    as ([m Hdetector] & Hout & Hin).
  unfold MLService.analyzeTransaction, MLService.initialize.
  cbn [negb MLService.new MLService.isInitialized MLService.fraudDetectionService].
  destruct (FraudDetectionService.initialize FraudDetectionService.new
              (MemStorage.getAllTransactions storage)) as [[[]|e] service]; [|done].
  cbn [fst snd MLService.fraudDetectionService MLService.isInitialized]
    in Hdetector, Hout, Hin |- *.
  pose proof (analyzeTransaction_NaN_threshold service m transaction userId
                (MemStorage.getTransactionsByUserId storage userId) Hdetector) as Hcase.
  destruct (FraudDetectionService.analyzeTransaction service _ _ _)
    as [[r|e] service']; [|done].
  destruct Hcase as [[_ Hflag] Hbehavioral]. rewrite Hflag. split; [done|].
  specialize (Hin userId). specialize (Hout userId).
  pose proof (StronglySorted_filter _ (λ t, accountId t = userId) _
                (getAllTransactions_sorted storage)) as Hsorted.
  destruct (filter (λ t, accountId t = userId) (MemStorage.getAllTransactions storage))
    as [|first rest].
  - destruct Hout as [Hprofile _]; [done|]. rewrite Hbehavioral.
    unfold BehavioralProfiler.analyzeTransaction. by rewrite Hprofile.
  - cbv zeta in Hin |- *. destruct Hin as [Hprofile _]. split.
    + destruct (last (first :: rest)) as [final|] eqn:Hlast; [|done]. cbn [default].
      apply (StronglySorted_head_last
               (λ a b, transactionDate a <= transactionDate b) (first :: rest));
        [intros a; lia | done..].
    + rewrite Hbehavioral. unfold BehavioralProfiler.analyzeTransaction.
      cbn [BehavioralProfiler.userProfiles]. by rewrite Hprofile, lookup_singleton_eq.
Qed.

End Further.

Section Enhanced.
Context `{M : MathLibrary}.

(** ** Enhanced features *)

(** X19. The time windows of the enhanced features are nested and have no
    later end: a transaction of the history counted in one window is counted
    in every longer one, and one dated after the transaction is counted in
    all six; the 24-hour window repeats the two velocity features of the base
    features. *)
Theorem velocity_windows_are_nested
    (transaction : Transaction) (historicalTransactions : list Transaction) :
  let features := extractEnhancedFeatures transaction historicalTransactions in
  let window := windowTransactions transaction historicalTransactions in
  (∀ shorter longer, shorter <= longer → window shorter ⊆ window longer)
  ∧ (∀ hours t, 0 <= hours → t ∈ historicalTransactions →
       transactionDate transaction <= transactionDate t → t ∈ window hours)
  ∧ velocityFeatures features
    = map (λ hours,
             {| transactions_h := length_number (window hours);
                amount_h := sumAbsAmounts (window hours);
                unique_merchants_h := Set_size (map merchant (window hours));
                unique_categories_h := Set_size (map category (window hours)) |})
          [1; 3; 6; 12; 24; 72]
  ∧ transactions_h <$> velocityFeatures features !! 4%nat
    = Some (transactionVelocity24h (baseFeatures features))
  ∧ amount_h <$> velocityFeatures features !! 4%nat
    = Some (totalAmount24h (baseFeatures features)).
Proof.
  intros features window. subst features window. split_and!; [| |done..].
  - intros shorter longer Hle t. unfold windowTransactions.
    rewrite !list_elem_of_filter. intros [Hin Ht]. split; [lia | done].
  - intros hours t Hhours Hin Hlater. unfold windowTransactions.
    apply list_elem_of_filter. split; [unfold getTime; lia | done].
Qed.

(** X20. With an empty history the enhanced features are not all finite:
    the two frequencies are NaN and the hours since the last transaction at
    the merchant and in the category are [Infinity], while every window
    feature, both counts and the z-score are 0. Such a row is in every
    training set of a classifier, since the earliest transaction of a list
    has no strictly earlier one. *)
Theorem enhanced_features_without_history
    (transaction : Transaction) (transactions : list Transaction) :
  let features := extractEnhancedFeatures transaction [] in
  (merchantFrequency (baseFeatures features) = NaN
   ∧ categoryFrequency (baseFeatures features) = NaN
   ∧ lastMerchantTransaction features = Infinity
   ∧ lastCategoryTransaction features = Infinity
   ∧ velocityFeatures features
     = replicate 6 {| transactions_h := of_Z 0; amount_h := of_Z 0;
                      unique_merchants_h := of_Z 0; unique_categories_h := of_Z 0 |}
   ∧ merchantTransactionCount features = of_Z 0
   ∧ categoryTransactionCount features = of_Z 0
   ∧ amountZScore features = of_Z 0
   ∧ hasPreviousFraud features = false
   ∧ JsNumber NaN ∈ Object_values_enhanced features
   ∧ JsNumber Infinity ∈ Object_values_enhanced features)
  ∧ (transactions ≠ [] →
     ∃ t, t ∈ transactions
          ∧ strictlyEarlier t transactions = []
          ∧ JsNumber NaN
            ∈ Object_values_enhanced
                (extractEnhancedFeatures t (strictlyEarlier t transactions))
          ∧ JsNumber Infinity
            ∈ Object_values_enhanced
                (extractEnhancedFeatures t (strictlyEarlier t transactions))).
Proof.
  assert (Hrow : ∀ t,
    JsNumber NaN ∈ Object_values_enhanced (extractEnhancedFeatures t [])
    ∧ JsNumber Infinity ∈ Object_values_enhanced (extractEnhancedFeatures t [])).
  { intros t. split.
    - by apply (list_elem_of_lookup_2 _ 7%nat).
    - by apply (list_elem_of_lookup_2 _ 37%nat). }
  intros features. split.
  - destruct (Hrow transaction) as [HNaN Hinf]. by split_and!.
  - intros Hne. destruct transactions as [|t ts]; [done|].
    destruct (earliest_exists t ts) as (t0 & Hin & Hearly).
    exists t0. rewrite Hearly. destruct (Hrow t0) as [HNaN Hinf]. by split_and!.
Qed.

(** X21. The round-amount flag only tests for a whole number: for every
    amount that fits the [decimal(12,2)] column, [isRoundAmount] is
    [amount % 1 === 0]; the tests for a multiple of 5 and of 10 never add
    anything. *)
Theorem isRoundAmount_is_whole_number
    (transaction : Transaction) (historicalTransactions : list Transaction) :
  Z.abs (amount transaction) < 10 ^ 12 →
  isRoundAmount (extractEnhancedFeatures transaction historicalTransactions)
  = strictEquals_zero (remainder (absAmount transaction) (of_Z 1)).
Proof.
  intros Hrange. destruct (absAmount_finite_valid transaction Hrange) as [Hvalid _].
  unfold extractEnhancedFeatures. cbv zeta. cbn [isRoundAmount].
  pose proof (remainder_multiple (absAmount transaction) Hvalid) as Hmultiple.
  destruct (strictEquals_zero (remainder (absAmount transaction) (of_Z 1))); [done|].
  destruct (strictEquals_zero (remainder (absAmount transaction) (of_Z 5)));
    [by discriminate Hmultiple; left|].
  destruct (strictEquals_zero (remainder (absAmount transaction) (of_Z 10)));
    [by discriminate Hmultiple; right|].
  done.
Qed.

End Enhanced.

(** ** Instances of the further properties *)

Lemma ratios_are_one_without_history_witness :
  amountVsMerchantAvg (extractTransactionFeatures technologyPurchase groceryHistory)
  = of_Z 1
  ∧ amountVsCategoryAvg (extractTransactionFeatures technologyPurchase groceryHistory)
    = of_Z 1.
Proof.
  assert (Hmerchant :
    Forall (λ t, merchant t ≠ merchant technologyPurchase) groceryHistory)
    by (repeat constructor; discriminate).
  assert (Hcategory :
    Forall (λ t, category t ≠ category technologyPurchase) groceryHistory)
    by (repeat constructor; discriminate).
  assert (Hamount : amount technologyPurchase ≠ 0) by discriminate.
  pose proof (ratios_are_one_without_history technologyPurchase groceryHistory
                Hamount eq_refl) as (_ & Hm & Hc).
  split; [exact (Hm Hmerchant) | exact (Hc Hcategory)].
Defined.

Lemma profiled_transactions_are_familiar_witness :
  BehavioralProfiler.analyzeTransaction groceryProfiler 7 (groceryPurchaseOf 10000)
  = of_Z 0.
Proof.
  assert (Hhour :
    getHours (transactionDate (groceryPurchaseOf 10000))
      ∈ map (λ t, getHours (transactionDate t)) groceryHistory)
    by (apply (bool_decide_unpack _); vm_compute; exact I).
  assert (Hmerchant : merchant (groceryPurchaseOf 10000) ∈ map merchant groceryHistory)
    by (apply (bool_decide_unpack _); vm_compute; exact I).
  assert (Hcategory : category (groceryPurchaseOf 10000) ∈ map category groceryHistory)
    by (apply (bool_decide_unpack _); vm_compute; exact I).
  exact (profiled_transactions_are_familiar BehavioralProfiler.new 7 groceryHistory
           (groceryPurchaseOf 10000) Hhour Hmerchant Hcategory).
Defined.

Lemma updateProfile_replaces_profile_witness :
  BehavioralProfiler.updateProfile
    (BehavioralProfiler.updateProfile BehavioralProfiler.new 7 [technologyPurchase]).2
    7 groceryHistory
  = BehavioralProfiler.updateProfile BehavioralProfiler.new 7 groceryHistory.
Proof.
  apply updateProfile_replaces_profile. discriminate.
Defined.

Lemma classifier_created_without_history_stays_untrained_witness :
  FraudDetectionService.userClassifiers
    (@FraudDetectionService.analyzeTransaction sampleBackend alarmedService
       technologyPurchase 7 []).2 !! 7
  = Some (RandomForestClassifier.new 7).
Proof.
  pose proof (@classifier_created_without_history_stays_untrained sampleBackend
                alarmedService zeroModel technologyPurchase 7 eq_refl eq_refl) as Hfirst.
  cbv zeta in Hfirst. destruct Hfirst as [Hfirst _]. exact Hfirst.
Defined.

Lemma suspiciousScore_at_most_91_witness :
  ∃ r service,
    @FraudDetectionService.analyzeTransaction sampleBackend alarmedService
      technologyPurchase 7 groceryHistory = (Return r, service)
    ∧ FraudDetectionService.anomalyScore r = of_Z 100
    ∧ ∃ a b c,
        FraudDetectionService.suspiciousScore r = of_Z (fuse_exact a b c)
        ∧ 0 <= fuse_exact a b c <= 91.
Proof.
  destruct (@FraudDetectionService.analyzeTransaction sampleBackend alarmedService
              technologyPurchase 7 groceryHistory) as [[r|e] service] eqn:Hrun.
  - exists r, service. split; [reflexivity|].
    assert (Hanomaly : FraudDetectionService.anomalyScore r = of_Z 100).
    { apply (f_equal fst) in Hrun. vm_compute in Hrun. injection Hrun as <-.
      reflexivity. }
    split; [exact Hanomaly|].
    assert (Hinteger : integer_in 0 100 (FraudDetectionService.anomalyScore r)).
    { exists 100. split; [lia | exact Hanomaly]. }
    destruct (@suspiciousScore_at_most_91 sampleBackend alarmedService
                technologyPurchase 7 groceryHistory r service Hrun Hinteger)
      as (a & b & c & _ & _ & _ & Hscore & Hrange & _).
    exists a, b, c. split; [exact Hscore | exact Hrange].
  - apply (f_equal fst) in Hrun. vm_compute in Hrun. discriminate.
Defined.

Lemma initialize_profiles_each_account_witness :
  (@FraudDetectionService.initialize refusingBackend FraudDetectionService.new
     groceryHistory).1 = Throw refusal
  ∧ ∃ m, FraudDetectionService.anomalyDetector
           (@FraudDetectionService.initialize refusingBackend FraudDetectionService.new
              groceryHistory).2
         = {| AnomalyDetector.model := Some m; AnomalyDetector.threshold := NaN |}.
Proof.
  split; [vm_compute; reflexivity|].
  assert (Hne : groceryHistory ≠ []) by discriminate.
  pose proof (@initialize_profiles_each_account refusingBackend
                FraudDetectionService.new groceryHistory Hne) as Hrun.
  cbv zeta in Hrun. destruct Hrun as [Hrun _]. exact Hrun.
Defined.

Lemma MLService_never_files_an_alert_witness :
  (@MLService.analyzeTransaction sampleBackend MLService.new sampleStorage 0
     technologyPurchase 1).2 = sampleStorage.
Proof.
  pose proof (@MLService_never_files_an_alert sampleBackend MLService.new
                sampleStorage 0 technologyPurchase 1 (@reachable_new sampleBackend))
    as Hrun.
  cbv zeta in Hrun. destruct Hrun as [Hrun _]. exact Hrun.
Defined.

Lemma MLService_batch_never_files_an_alert_witness :
  (@MLService.analyzeTransactions sampleBackend MLService.new sampleStorage (λ _, 0)
     [technologyPurchase; zeroPurchase]).2 = sampleStorage.
Proof.
  pose proof (@MLService_batch_never_files_an_alert sampleBackend MLService.new
                sampleStorage (λ _, 0) [technologyPurchase; zeroPurchase]
                (@reachable_new sampleBackend)) as Hrun.
  cbv zeta in Hrun. destruct Hrun as [Hrun _]. exact Hrun.
Defined.

Lemma MLService_trains_once_witness :
  let initialised :=
    (@MLService.initialize sampleBackend MLService.new sampleStorage).2 in
  let emptied :=
    {| MemStorage.accounts := []; MemStorage.transactions := [];
       MemStorage.alerts := []; MemStorage.currentId := 1 |} in
  MLService.isInitialized initialised = true
  ∧ @MLService.initialize sampleBackend initialised emptied = (Return (), initialised).
Proof.
  intros initialised emptied.
  assert (Hinit : MLService.isInitialized initialised = true) by (vm_compute; reflexivity).
  split; [exact Hinit|].
  pose proof (@MLService_trains_once sampleBackend initialised emptied 0
                technologyPurchase 1 Hinit) as Honce.
  cbv zeta in Honce. destruct Honce as [Honce _]. exact Honce.
Defined.

Lemma behavioral_profile_is_looked_up_by_account_id_witness :
  MemStorage.getTransactionsByUserId sampleStorage 1 ≠ []
  ∧ match @MLService.analyzeTransaction sampleBackend MLService.new sampleStorage 0
            technologyPurchase 1 with
    | (Return r, _, storage') =>
        storage' = sampleStorage ∧ FraudDetectionService.behavioralScore r = of_Z 0
    | (Throw _, _, _) => False
    end
  ∧ match @MLService.analyzeTransaction refusingBackend MLService.new sampleStorage 0
            technologyPurchase 1 with
    | (Return _, _, _) => False
    | (Throw e, _, storage') => e = refusal ∧ storage' = sampleStorage
    end.
Proof.
  assert (Hstored : MemStorage.transactions sampleStorage ≠ []) by discriminate.
  split; [discriminate|]. split.
  - pose proof (@behavioral_profile_is_looked_up_by_account_id sampleBackend
                  sampleStorage 0 technologyPurchase 1 Hstored) as Hrun.
    destruct (@MLService.analyzeTransaction sampleBackend MLService.new sampleStorage 0
                technologyPurchase 1) as [[[r|e] self'] storage'] eqn:Hcall.
    + exact Hrun.
    + apply (f_equal (λ result, result.1.1)) in Hcall. vm_compute in Hcall.
      discriminate.
  - pose proof (@behavioral_profile_is_looked_up_by_account_id refusingBackend
                  sampleStorage 0 technologyPurchase 1 Hstored) as Hrun.
    destruct (@MLService.analyzeTransaction refusingBackend MLService.new sampleStorage 0
                technologyPurchase 1) as [[[r|e] self'] storage'] eqn:Hcall.
    + apply (f_equal (λ result, result.1.1)) in Hcall. vm_compute in Hcall.
      discriminate.
    + split; [|exact Hrun].
      apply (f_equal (λ result, result.1.1)) in Hcall. vm_compute in Hcall.
      injection Hcall as <-. reflexivity.
Defined.

Lemma isRoundAmount_is_whole_number_witness :
  isRoundAmount (@extractEnhancedFeatures sampleMath technologyPurchase groceryHistory)
  = true
  ∧ isRoundAmount
      (@extractEnhancedFeatures sampleMath (groceryPurchaseOf 10050) groceryHistory)
    = false.
Proof.
  split.
  - exact (@isRoundAmount_is_whole_number sampleMath technologyPurchase groceryHistory
             eq_refl).
  - exact (@isRoundAmount_is_whole_number sampleMath (groceryPurchaseOf 10050)
             groceryHistory eq_refl).
Defined.
